(** * Bookstore multi-agent simulation: tick coordinator, ledger and restock protocol

    A shallow embedding of [bms/simulation] (message bus, decision policies,
    agents and the Mesa model [BookstoreModel]) and of the service facade
    [backend/app/simulation_manager.py], followed by the properties of the
    tick coordinator that the design document states.

    Conventions of the embedding.
    - Python [int] is [Z]; Python [float] is the binary64 type [float].
    - A [dict] whose iteration order is observable is an association list in
      insertion order ([PyDict]); a [dict] that is only looked up is a [gmap]
      or, when its values are references to the ontology individuals named
      by its keys, the [gset] of its keys.
    - Ontology individuals are shared mutable objects.  They live in one
      store, the [Ontology] record carried by the model; Python-side
      dictionaries that hold references to them hold their names.
    - The external collaborators are inputs: the random generator is the
      class [Random], the Pellet reasoner is a function [Pellet] supplied at
      every call that may invoke it, the names Owlready2 gives to
      individuals created without one come from the class [Owlready].
    - The only exception the modelled code can raise is the [KeyError] of
      [self.inventory_snapshots[isbn]]; it is the [None] of [option]. *)

Set Warnings "-inexact-float,-clear-no-such-hyp,-level-tolerance".
From Stdlib Require Import ZArith Floats.PrimFloat Strings.Ascii.
From stdpp Require Import base option gmap sets list strings pretty.

Local Open Scope Z_scope.

(** ** Python dictionaries with observable insertion order *)

Module PyDict.
Section dict.
Context {V : Type}.

(** [d.get(k)] *)
Fixpoint get (k : string) (d : list (string * V)) : option V :=
  match d with
  | [] => None
  | (k', v) :: d' => if decide (k = k') then Some v else get k d'
  end.

(** [d[k] = v]: an existing key keeps its position, a new key goes last. *)
Fixpoint set (k : string) (v : V) (d : list (string * V)) : list (string * V) :=
  match d with
  | [] => [(k, v)]
  | (k', v') :: d' =>
      if decide (k = k') then (k, v) :: d' else (k', v') :: set k v d'
  end.

Definition keys (d : list (string * V)) : list string := d.*1.
Definition values (d : list (string * V)) : list V := d.*2.
End dict.
End PyDict.

(** ** bms/simulation/state.py *)

Record InventorySnapshot := {
  book_isbn : string;
  title : string;
  quantity : Z;
  price : float;
  low_threshold : Z
}.

Definition with_quantity (q : Z) (s : InventorySnapshot) : InventorySnapshot :=
  {| book_isbn := book_isbn s; title := title s; quantity := q;
     price := price s; low_threshold := low_threshold s |}.

(** ** bms/simulation/message_bus.py *)

(** The payload dictionaries of the two topics, with the keys the code reads.
    For [book_id] and [customer_id], [None] is what [payload.get(key)]
    returns: the key is absent or holds Python's [None].  For [price] and
    [amount], which the code reads with a default, [None] is the absent
    key; the publishers of this repository never store Python's [None]
    under these two keys, and a payload that did is not represented. *)
Record Payload := {
  book_id : option string;
  customer_id : option string;
  payload_price : option float;
  amount : option Z
}.

Record Message := { topic : string; payload : Payload }.

Module MessageBus.
(** [self._topics] *)
Definition publish (t : string) (p : Payload) (bus : gmap string (list Message))
  : gmap string (list Message) :=
  <[t := default [] (bus !! t) ++ [{| topic := t; payload := p |}]]> bus.

Definition poll (t : string) (bus : gmap string (list Message))
  : option Message * gmap string (list Message) :=
  match bus !! t with
  | Some (msg :: rest) => (Some msg, <[t := rest]> bus)
  | _ => (None, bus)
  end.

Definition clear (bus : gmap string (list Message)) : gmap string (list Message) := ∅.

(** The messages waiting on a topic, oldest first. *)
Definition queue (t : string) (bus : gmap string (list Message)) : list Message :=
  default [] (bus !! t).
End MessageBus.

(** ** bms/config.py *)

Record SimulationSettings := {
  max_steps : Z;
  customer_spawn_chance : float;
  restock_threshold : Z;
  reasoner_sync_interval : Z;
  restock_amount : Z;
  random_seed : option Z
}.

Definition load_config : SimulationSettings :=
  {| max_steps := 100; customer_spawn_chance := 0.4%float; restock_threshold := 5;
     reasoner_sync_interval := 3; restock_amount := 10; random_seed := Some 12345 |}.

(** ** The knowledge store (Owlready2 ontology)

    Property values are lists, as Owlready2 exposes them.  An Inventory
    individual is keyed by the name of the book it is linked to
    ([HasInventory] / [TracksBook]); the other individuals by their own
    name. *)

Record InventoryInd := {
  AvailableQuantity : list Z;
  LowThreshold : list Z;
  NeedsRestock : list bool
}.

Record BookInd := { HasTitle : list string; HasPrice : list float }.

Record CustomerInd := {
  Purchases : list string;
  HasPurchased : list string;
  HasBudget : list float
}.

Record OrderInd := { OrderedBy : list string; OrderedBook : list string }.

Record Ontology := {
  onto_Book : list (string * BookInd);
  onto_Inventory : list (string * InventoryInd);
  onto_Customer : list (string * CustomerInd);
  onto_Employee : list (string * list string);
  onto_Order : list (string * OrderInd)
}.

Definition with_Book v (o : Ontology) : Ontology :=
  {| onto_Book := v; onto_Inventory := onto_Inventory o; onto_Customer := onto_Customer o;
     onto_Employee := onto_Employee o; onto_Order := onto_Order o |}.
Definition with_Inventory v (o : Ontology) : Ontology :=
  {| onto_Book := onto_Book o; onto_Inventory := v; onto_Customer := onto_Customer o;
     onto_Employee := onto_Employee o; onto_Order := onto_Order o |}.
Definition with_Customer v (o : Ontology) : Ontology :=
  {| onto_Book := onto_Book o; onto_Inventory := onto_Inventory o; onto_Customer := v;
     onto_Employee := onto_Employee o; onto_Order := onto_Order o |}.
Definition with_Employee v (o : Ontology) : Ontology :=
  {| onto_Book := onto_Book o; onto_Inventory := onto_Inventory o; onto_Customer := onto_Customer o;
     onto_Employee := v; onto_Order := onto_Order o |}.
Definition with_Order v (o : Ontology) : Ontology :=
  {| onto_Book := onto_Book o; onto_Inventory := onto_Inventory o; onto_Customer := onto_Customer o;
     onto_Employee := onto_Employee o; onto_Order := v |}.

Definition empty_InventoryInd : InventoryInd :=
  {| AvailableQuantity := []; LowThreshold := []; NeedsRestock := [] |}.
Definition empty_BookInd : BookInd := {| HasTitle := []; HasPrice := [] |}.
Definition empty_CustomerInd : CustomerInd :=
  {| Purchases := []; HasPurchased := []; HasBudget := [] |}.

(** [cls(name)]: the individual of that name, created without property
    values when the store has none. *)
Definition individual {V} (blank : V) (name : string) (store : list (string * V))
  : V * list (string * V) :=
  match PyDict.get name store with
  | Some v => (v, store)
  | None => (blank, PyDict.set name blank store)
  end.

(** Reading a property through a reference held by the model. *)
Definition inventory_ind (isbn : string) (o : Ontology) : InventoryInd :=
  default empty_InventoryInd (PyDict.get isbn (onto_Inventory o)).

(** [BookstoreOntologyBuilder.ensure_inventory_for] *)
Definition ensure_inventory_for (isbn : string) (o : Ontology) : InventoryInd * Ontology :=
  let '(inv, store) := individual empty_InventoryInd isbn (onto_Inventory o) in
  (inv, with_Inventory store o).

(** The external reasoner, [sync_reasoner_pellet]: it either raises (the
    text of the exception) or leaves the store with the inferred facts. *)
Definition Pellet : Type := Ontology → string + Ontology.

(** ** The random generator ([random.Random], as Mesa's [model.random]) *)

Class Random := {
  RandomState : Type;
  rng_seed : Z → RandomState;
  (** [random()], a float of the unit interval *)
  rng_random : RandomState → float * RandomState;
  (** [_randbelow(n)], the index drawn by [choice] *)
  rng_randbelow : nat → RandomState → nat * RandomState;
  (** [shuffle], as [RandomActivation] applies it to the registered agents *)
  rng_shuffle : list string → RandomState → list string * RandomState;
  rng_randbelow_lt n s : n ≠ 0%nat → ((rng_randbelow n s).1 < n)%nat;
  rng_shuffle_perm l s : (rng_shuffle l s).1 ≡ₚ l
}.

(** ** Owlready2: individuals created without a name *)

(** [Class("")]: an empty name is no name, and Owlready2 then names the new
    individual itself, with the class name in lower case and a number
    ([customer1], [employee1]).  Which number it takes depends on what the
    world holds; the library is not part of the program, and the name it
    chooses for the class [class_name] in the store [o] is
    [generated_name class_name o]. *)
Class Owlready := {
  generated_name : string → Ontology → string
}.

(** The name of the individual that [Class(name)] creates or fetches. *)
Definition individual_name `{Owlready} (class_name name : string) (o : Ontology) : string :=
  match name with
  | EmptyString => generated_name class_name o
  | _ => name
  end.

(** ** bms/simulation/policies.py *)

Inductive DecisionPolicy := GreedyPurchasePolicy | RandomPurchasePolicy.

(** [[item for item in inventory if item.price <= budget and item.quantity > 0]] *)
Definition affordable_books (inventory : list InventorySnapshot) (budget : float)
  : list InventorySnapshot :=
  List.filter (λ item, PrimFloat.leb (price item) budget && (0 <? quantity item)) inventory.

(** [min(affordable_books, key=lambda item: item.price)]: the first item is
    kept until a strictly cheaper one is met. *)
Fixpoint min_by_price (best : InventorySnapshot) (rest : list InventorySnapshot)
  : InventorySnapshot :=
  match rest with
  | [] => best
  | item :: rest' =>
      min_by_price (if PrimFloat.ltb (price item) (price best) then item else best) rest'
  end.

Section policies.
Context `{Random}.

(** [rng.choice(seq)] is [seq[rng._randbelow(len(seq))]]; [seq] is not empty
    where the policy calls it. *)
Definition rng_choice {A} (first : A) (others : list A) (rng : RandomState)
  : A * RandomState :=
  let '(i, rng') := rng_randbelow (length (first :: others)) rng in
  (default first ((first :: others) !! i), rng').

Definition choose_purchase (policy : DecisionPolicy)
    (inventory : list InventorySnapshot) (budget : float) (rng : RandomState)
  : option (string * float) * RandomState :=
  match affordable_books inventory budget with
  | [] => (None, rng)
  | first :: others =>
      match policy with
      | GreedyPurchasePolicy =>
          let choice := min_by_price first others in
          (Some (book_isbn choice, price choice), rng)
      | RandomPurchasePolicy =>
          let '(choice, rng') := rng_choice first others rng in
          (Some (book_isbn choice, price choice), rng')
      end
  end.
End policies.

(** ** bms/simulation/agents.py: the agents as the scheduler holds them *)

Inductive Agent :=
  | BookAgent (unique_id : string) (snapshot : string)
  | CustomerAgent (unique_id : string) (policy : DecisionPolicy) (budget : float)
  | EmployeeAgent (unique_id : string).

Definition unique_id (a : Agent) : string :=
  match a with
  | BookAgent uid _ | CustomerAgent uid _ _ | EmployeeAgent uid => uid
  end.

(** ** bms/simulation/model.py *)

Record RestockEvent := {
  ev_step : Z;
  ev_book_isbn : string;
  ev_amount : Z;
  ev_employee_id : option string
}.

(** An entry of [purchase_log]. *)
Record PurchaseRecord := {
  pr_order : string;
  pr_customer : string;
  pr_book : string;
  pr_price : float;
  pr_step : Z
}.

(** What [LOGGER.warning] has been called with. *)
Inductive LogRecord :=
  | ReasonerFailed (exc : string)
  | ReasonerUnavailable.

(** An entry of the inventory summary of a report. *)
Record InventoryEntry := {
  ie_isbn : string;
  ie_title : string;
  ie_price : float;
  ie_quantity : Z;
  ie_low_threshold : Z;
  ie_needs_restock : bool
}.

Record Report := {
  rep_inventory : list InventoryEntry;
  rep_purchases : list (string * list string);
  rep_restocks : list RestockEvent;
  reasoner_active : bool
}.

(** [f"order_{self.order_counter}"] *)
Definition order_name (counter : Z) : string := "order_" +:+ pretty counter.

(** [unique_id.replace("::", "_")] *)
Fixpoint _normalise_identifier (s : string) : string :=
  match s with
  | String ":"%char (String ":"%char rest) => String "_"%char (_normalise_identifier rest)
  | String c rest => String c (_normalise_identifier rest)
  | EmptyString => EmptyString
  end.

(** [x if x in l else l.append(x)] on a property value list *)
Definition append_if_missing (x : string) (l : list string) : list string :=
  if bool_decide (x ∈ l) then l else l ++ [x].

(** [sorted({...})] on names *)
Fixpoint insert_sorted (x : string) (l : list string) : list string :=
  match l with
  | [] => [x]
  | y :: l' =>
      match String.compare x y with
      | Lt => x :: l
      | Eq => l
      | Gt => y :: insert_sorted x l'
      end
  end.
Definition sorted_set (l : list string) : list string := foldr insert_sorted [] l.

(** [values[0] if values else fallback] *)
Definition first_or {A} (fallback : A) (values : list A) : A :=
  match values with
  | v :: _ => v
  | [] => fallback
  end.

Section model.
Context `{Random} `{Owlready}.
Record BookstoreModel := {
  config : SimulationSettings;
  random : RandomState;
  ontology : Ontology;
  message_bus : gmap string (list Message);
  schedule : list Agent;
  customer_policy : DecisionPolicy;
  inventory_snapshots : list (string * InventorySnapshot);
  inventory_entities : list (string * string);
  book_entities : gset string;
  customer_entities : gmap string string;
  employee_entities : gmap string string;
  pending_restocks : gset string;
  purchase_log : list PurchaseRecord;
  restock_log : list RestockEvent;
  order_counter : Z;
  step_count : Z;
  _reasoner_available : bool;
  _reasoner_warning_emitted : bool;
  log : list LogRecord
}.

(** Assignment to one attribute of the model. *)
Definition set_config (v : SimulationSettings) (m : BookstoreModel) : BookstoreModel :=
  {| config := v; random := random m; ontology := ontology m; message_bus := message_bus m;
     schedule := schedule m; customer_policy := customer_policy m;
     inventory_snapshots := inventory_snapshots m;
     inventory_entities := inventory_entities m; book_entities := book_entities m;
     customer_entities := customer_entities m; employee_entities := employee_entities m;
     pending_restocks := pending_restocks m; purchase_log := purchase_log m;
     restock_log := restock_log m; order_counter := order_counter m;
     step_count := step_count m; _reasoner_available := _reasoner_available m;
     _reasoner_warning_emitted := _reasoner_warning_emitted m; log := log m |}.
Definition set_random (v : RandomState) (m : BookstoreModel) : BookstoreModel :=
  {| config := config m; random := v; ontology := ontology m; message_bus := message_bus m;
     schedule := schedule m; customer_policy := customer_policy m;
     inventory_snapshots := inventory_snapshots m;
     inventory_entities := inventory_entities m; book_entities := book_entities m;
     customer_entities := customer_entities m; employee_entities := employee_entities m;
     pending_restocks := pending_restocks m; purchase_log := purchase_log m;
     restock_log := restock_log m; order_counter := order_counter m;
     step_count := step_count m; _reasoner_available := _reasoner_available m;
     _reasoner_warning_emitted := _reasoner_warning_emitted m; log := log m |}.
Definition set_ontology (v : Ontology) (m : BookstoreModel) : BookstoreModel :=
  {| config := config m; random := random m; ontology := v; message_bus := message_bus m;
     schedule := schedule m; customer_policy := customer_policy m;
     inventory_snapshots := inventory_snapshots m;
     inventory_entities := inventory_entities m; book_entities := book_entities m;
     customer_entities := customer_entities m; employee_entities := employee_entities m;
     pending_restocks := pending_restocks m; purchase_log := purchase_log m;
     restock_log := restock_log m; order_counter := order_counter m;
     step_count := step_count m; _reasoner_available := _reasoner_available m;
     _reasoner_warning_emitted := _reasoner_warning_emitted m; log := log m |}.
Definition set_message_bus (v : gmap string (list Message)) (m : BookstoreModel) : BookstoreModel :=
  {| config := config m; random := random m; ontology := ontology m; message_bus := v;
     schedule := schedule m; customer_policy := customer_policy m;
     inventory_snapshots := inventory_snapshots m;
     inventory_entities := inventory_entities m; book_entities := book_entities m;
     customer_entities := customer_entities m; employee_entities := employee_entities m;
     pending_restocks := pending_restocks m; purchase_log := purchase_log m;
     restock_log := restock_log m; order_counter := order_counter m;
     step_count := step_count m; _reasoner_available := _reasoner_available m;
     _reasoner_warning_emitted := _reasoner_warning_emitted m; log := log m |}.
Definition set_schedule (v : list Agent) (m : BookstoreModel) : BookstoreModel :=
  {| config := config m; random := random m; ontology := ontology m;
     message_bus := message_bus m; schedule := v; customer_policy := customer_policy m;
     inventory_snapshots := inventory_snapshots m;
     inventory_entities := inventory_entities m; book_entities := book_entities m;
     customer_entities := customer_entities m; employee_entities := employee_entities m;
     pending_restocks := pending_restocks m; purchase_log := purchase_log m;
     restock_log := restock_log m; order_counter := order_counter m;
     step_count := step_count m; _reasoner_available := _reasoner_available m;
     _reasoner_warning_emitted := _reasoner_warning_emitted m; log := log m |}.
Definition set_inventory_snapshots (v : list (string * InventorySnapshot)) (m : BookstoreModel) : BookstoreModel :=
  {| config := config m; random := random m; ontology := ontology m;
     message_bus := message_bus m; schedule := schedule m;
     customer_policy := customer_policy m; inventory_snapshots := v;
     inventory_entities := inventory_entities m; book_entities := book_entities m;
     customer_entities := customer_entities m; employee_entities := employee_entities m;
     pending_restocks := pending_restocks m; purchase_log := purchase_log m;
     restock_log := restock_log m; order_counter := order_counter m;
     step_count := step_count m; _reasoner_available := _reasoner_available m;
     _reasoner_warning_emitted := _reasoner_warning_emitted m; log := log m |}.
Definition set_inventory_entities (v : list (string * string)) (m : BookstoreModel) : BookstoreModel :=
  {| config := config m; random := random m; ontology := ontology m;
     message_bus := message_bus m; schedule := schedule m;
     customer_policy := customer_policy m; inventory_snapshots := inventory_snapshots m;
     inventory_entities := v; book_entities := book_entities m;
     customer_entities := customer_entities m; employee_entities := employee_entities m;
     pending_restocks := pending_restocks m; purchase_log := purchase_log m;
     restock_log := restock_log m; order_counter := order_counter m;
     step_count := step_count m; _reasoner_available := _reasoner_available m;
     _reasoner_warning_emitted := _reasoner_warning_emitted m; log := log m |}.
Definition set_book_entities (v : gset string) (m : BookstoreModel) : BookstoreModel :=
  {| config := config m; random := random m; ontology := ontology m;
     message_bus := message_bus m; schedule := schedule m;
     customer_policy := customer_policy m; inventory_snapshots := inventory_snapshots m;
     inventory_entities := inventory_entities m; book_entities := v;
     customer_entities := customer_entities m; employee_entities := employee_entities m;
     pending_restocks := pending_restocks m; purchase_log := purchase_log m;
     restock_log := restock_log m; order_counter := order_counter m;
     step_count := step_count m; _reasoner_available := _reasoner_available m;
     _reasoner_warning_emitted := _reasoner_warning_emitted m; log := log m |}.
Definition set_customer_entities (v : gmap string string) (m : BookstoreModel) : BookstoreModel :=
  {| config := config m; random := random m; ontology := ontology m;
     message_bus := message_bus m; schedule := schedule m;
     customer_policy := customer_policy m; inventory_snapshots := inventory_snapshots m;
     inventory_entities := inventory_entities m; book_entities := book_entities m;
     customer_entities := v; employee_entities := employee_entities m;
     pending_restocks := pending_restocks m; purchase_log := purchase_log m;
     restock_log := restock_log m; order_counter := order_counter m;
     step_count := step_count m; _reasoner_available := _reasoner_available m;
     _reasoner_warning_emitted := _reasoner_warning_emitted m; log := log m |}.
Definition set_employee_entities (v : gmap string string) (m : BookstoreModel) : BookstoreModel :=
  {| config := config m; random := random m; ontology := ontology m;
     message_bus := message_bus m; schedule := schedule m;
     customer_policy := customer_policy m; inventory_snapshots := inventory_snapshots m;
     inventory_entities := inventory_entities m; book_entities := book_entities m;
     customer_entities := customer_entities m; employee_entities := v;
     pending_restocks := pending_restocks m; purchase_log := purchase_log m;
     restock_log := restock_log m; order_counter := order_counter m;
     step_count := step_count m; _reasoner_available := _reasoner_available m;
     _reasoner_warning_emitted := _reasoner_warning_emitted m; log := log m |}.
Definition set_pending_restocks (v : gset string) (m : BookstoreModel) : BookstoreModel :=
  {| config := config m; random := random m; ontology := ontology m;
     message_bus := message_bus m; schedule := schedule m;
     customer_policy := customer_policy m; inventory_snapshots := inventory_snapshots m;
     inventory_entities := inventory_entities m; book_entities := book_entities m;
     customer_entities := customer_entities m; employee_entities := employee_entities m;
     pending_restocks := v; purchase_log := purchase_log m; restock_log := restock_log m;
     order_counter := order_counter m; step_count := step_count m;
     _reasoner_available := _reasoner_available m;
     _reasoner_warning_emitted := _reasoner_warning_emitted m; log := log m |}.
Definition set_purchase_log (v : list PurchaseRecord) (m : BookstoreModel) : BookstoreModel :=
  {| config := config m; random := random m; ontology := ontology m;
     message_bus := message_bus m; schedule := schedule m;
     customer_policy := customer_policy m; inventory_snapshots := inventory_snapshots m;
     inventory_entities := inventory_entities m; book_entities := book_entities m;
     customer_entities := customer_entities m; employee_entities := employee_entities m;
     pending_restocks := pending_restocks m; purchase_log := v; restock_log := restock_log m;
     order_counter := order_counter m; step_count := step_count m;
     _reasoner_available := _reasoner_available m;
     _reasoner_warning_emitted := _reasoner_warning_emitted m; log := log m |}.
Definition set_restock_log (v : list RestockEvent) (m : BookstoreModel) : BookstoreModel :=
  {| config := config m; random := random m; ontology := ontology m;
     message_bus := message_bus m; schedule := schedule m;
     customer_policy := customer_policy m; inventory_snapshots := inventory_snapshots m;
     inventory_entities := inventory_entities m; book_entities := book_entities m;
     customer_entities := customer_entities m; employee_entities := employee_entities m;
     pending_restocks := pending_restocks m; purchase_log := purchase_log m;
     restock_log := v; order_counter := order_counter m; step_count := step_count m;
     _reasoner_available := _reasoner_available m;
     _reasoner_warning_emitted := _reasoner_warning_emitted m; log := log m |}.
Definition set_order_counter (v : Z) (m : BookstoreModel) : BookstoreModel :=
  {| config := config m; random := random m; ontology := ontology m;
     message_bus := message_bus m; schedule := schedule m;
     customer_policy := customer_policy m; inventory_snapshots := inventory_snapshots m;
     inventory_entities := inventory_entities m; book_entities := book_entities m;
     customer_entities := customer_entities m; employee_entities := employee_entities m;
     pending_restocks := pending_restocks m; purchase_log := purchase_log m;
     restock_log := restock_log m; order_counter := v; step_count := step_count m;
     _reasoner_available := _reasoner_available m;
     _reasoner_warning_emitted := _reasoner_warning_emitted m; log := log m |}.
Definition set_step_count (v : Z) (m : BookstoreModel) : BookstoreModel :=
  {| config := config m; random := random m; ontology := ontology m;
     message_bus := message_bus m; schedule := schedule m;
     customer_policy := customer_policy m; inventory_snapshots := inventory_snapshots m;
     inventory_entities := inventory_entities m; book_entities := book_entities m;
     customer_entities := customer_entities m; employee_entities := employee_entities m;
     pending_restocks := pending_restocks m; purchase_log := purchase_log m;
     restock_log := restock_log m; order_counter := order_counter m; step_count := v;
     _reasoner_available := _reasoner_available m;
     _reasoner_warning_emitted := _reasoner_warning_emitted m; log := log m |}.
Definition set_reasoner_available (v : bool) (m : BookstoreModel) : BookstoreModel :=
  {| config := config m; random := random m; ontology := ontology m;
     message_bus := message_bus m; schedule := schedule m;
     customer_policy := customer_policy m; inventory_snapshots := inventory_snapshots m;
     inventory_entities := inventory_entities m; book_entities := book_entities m;
     customer_entities := customer_entities m; employee_entities := employee_entities m;
     pending_restocks := pending_restocks m; purchase_log := purchase_log m;
     restock_log := restock_log m; order_counter := order_counter m;
     step_count := step_count m; _reasoner_available := v;
     _reasoner_warning_emitted := _reasoner_warning_emitted m; log := log m |}.
Definition set_reasoner_warning_emitted (v : bool) (m : BookstoreModel) : BookstoreModel :=
  {| config := config m; random := random m; ontology := ontology m;
     message_bus := message_bus m; schedule := schedule m;
     customer_policy := customer_policy m; inventory_snapshots := inventory_snapshots m;
     inventory_entities := inventory_entities m; book_entities := book_entities m;
     customer_entities := customer_entities m; employee_entities := employee_entities m;
     pending_restocks := pending_restocks m; purchase_log := purchase_log m;
     restock_log := restock_log m; order_counter := order_counter m;
     step_count := step_count m; _reasoner_available := _reasoner_available m;
     _reasoner_warning_emitted := v; log := log m |}.
Definition set_log (v : list LogRecord) (m : BookstoreModel) : BookstoreModel :=
  {| config := config m; random := random m; ontology := ontology m;
     message_bus := message_bus m; schedule := schedule m;
     customer_policy := customer_policy m; inventory_snapshots := inventory_snapshots m;
     inventory_entities := inventory_entities m; book_entities := book_entities m;
     customer_entities := customer_entities m; employee_entities := employee_entities m;
     pending_restocks := pending_restocks m; purchase_log := purchase_log m;
     restock_log := restock_log m; order_counter := order_counter m;
     step_count := step_count m; _reasoner_available := _reasoner_available m;
     _reasoner_warning_emitted := _reasoner_warning_emitted m; log := v |}.

(** [self.message_bus.publish(topic, payload)] *)
Definition publish (t : string) (p : Payload) (m : BookstoreModel) : BookstoreModel :=
  set_message_bus (MessageBus.publish t p (message_bus m)) m.

(** *** Ontology entities reached through the model's caches *)

Definition _ensure_book_entity (isbn : string) (m : BookstoreModel) : BookstoreModel :=
  if bool_decide (isbn ∈ book_entities m) then m
  else
    let o := ontology m in
    let m := set_ontology (with_Book (individual empty_BookInd isbn (onto_Book o)).2 o) m in
    set_book_entities ({[isbn]} ∪ book_entities m) m.

Definition _ensure_inventory_entity (book : string) (m : BookstoreModel) : BookstoreModel :=
  let m := set_ontology (ensure_inventory_for book (ontology m)).2 m in
  set_inventory_entities (PyDict.set book book (inventory_entities m)) m.

(** The two caches map the normalised id to the name of the individual:
    the two differ for the empty id, which Owlready2 does not take for a
    name. *)
Definition _ensure_customer_entity (unique_id : string) (m : BookstoreModel)
  : string * BookstoreModel :=
  let name := _normalise_identifier unique_id in
  match customer_entities m !! name with
  | Some entity => (entity, m)
  | None =>
      let o := ontology m in
      let entity := individual_name "customer" name o in
      let m :=
        set_ontology
          (with_Customer (individual empty_CustomerInd entity (onto_Customer o)).2 o) m in
      (entity, set_customer_entities (<[name := entity]> (customer_entities m)) m)
  end.

Definition _ensure_employee_entity (unique_id : string) (m : BookstoreModel)
  : string * BookstoreModel :=
  let name := _normalise_identifier unique_id in
  match employee_entities m !! name with
  | Some entity => (entity, m)
  | None =>
      let o := ontology m in
      let entity := individual_name "employee" name o in
      let m := set_ontology (with_Employee (individual [] entity (onto_Employee o)).2 o) m in
      (entity, set_employee_entities (<[name := entity]> (employee_entities m)) m)
  end.

Definition _write_back_inventory_to_ontology
    (snapshot : InventorySnapshot) (needs_restock : option bool) (m : BookstoreModel)
  : BookstoreModel :=
  let book := book_isbn snapshot in
  let m := _ensure_book_entity book m in
  let m := _ensure_inventory_entity book m in
  let computed_flag := quantity snapshot <? low_threshold snapshot in
  let inventory :=
    {| AvailableQuantity := [quantity snapshot];
       LowThreshold := [low_threshold snapshot];
       NeedsRestock := [default computed_flag needs_restock] |} in
  let o := ontology m in
  let m := set_ontology (with_Inventory (PyDict.set book inventory (onto_Inventory o)) o) m in
  let m := set_inventory_entities (PyDict.set book book (inventory_entities m)) m in
  set_book_entities ({[book]} ∪ book_entities m) m.

(** *** Restocking *)

Definition restock_inventory
    (book_id : string) (amount : Z) (employee_id : option string) (m : BookstoreModel)
  : BookstoreModel :=
  match PyDict.get book_id (inventory_snapshots m) with
  | None => m
  | Some snapshot =>
      let increment := Z.max amount 0 in
      let snapshot := with_quantity (quantity snapshot + increment) snapshot in
      let m := set_inventory_snapshots (PyDict.set book_id snapshot (inventory_snapshots m)) m in
      let m := set_pending_restocks (pending_restocks m ∖ {[book_id]}) m in
      let m :=
        _write_back_inventory_to_ontology snapshot
          (Some (quantity snapshot <? low_threshold snapshot)) m in
      let m :=
        match employee_id with
        | None => m
        | Some uid =>
            let '(employee, m) := _ensure_employee_entity uid m in
            match PyDict.get book_id (inventory_entities m) with
            | None => m
            | Some item =>
                let o := ontology m in
                let works_at := default [] (PyDict.get employee (onto_Employee o)) in
                set_ontology
                  (with_Employee
                     (PyDict.set employee (append_if_missing item works_at) (onto_Employee o)) o)
                  m
            end
        end in
      set_restock_log
        (restock_log m ++
           [{| ev_step := step_count m; ev_book_isbn := book_id;
               ev_amount := increment; ev_employee_id := employee_id |}])
        m
  end.

(** *** Purchases *)

Definition _record_purchase (customer_id book_id : string) (price : float)
    (m : BookstoreModel) : BookstoreModel :=
  let '(customer, m) := _ensure_customer_entity customer_id m in
  let m := _ensure_book_entity book_id m in
  let o := ontology m in
  let ind := default empty_CustomerInd (PyDict.get customer (onto_Customer o)) in
  let ind :=
    {| Purchases := append_if_missing book_id (Purchases ind);
       HasPurchased := HasPurchased ind; HasBudget := HasBudget ind |} in
  let o := with_Customer (PyDict.set customer ind (onto_Customer o)) o in
  let name := order_name (order_counter m) in
  let m := set_order_counter (order_counter m + 1) m in
  let o :=
    with_Order
      (PyDict.set name {| OrderedBy := [customer]; OrderedBook := [book_id] |} (onto_Order o)) o in
  let m := set_ontology o m in
  set_purchase_log
    (purchase_log m ++
       [{| pr_order := name; pr_customer := customer_id; pr_book := book_id;
           pr_price := price; pr_step := step_count m |}])
    m.

(** Python truthiness of [payload.get("book_id")] *)
Definition truthy (s : option string) : bool :=
  match s with
  | Some (String _ _) => true
  | _ => false
  end.

(** One iteration of the loop of [_process_purchase_events], after the
    message has been polled. *)
Definition _process_purchase_message (message : Message) (m : BookstoreModel)
  : BookstoreModel :=
  let price := default 0%float (payload_price (payload message)) in
  match book_id (payload message), customer_id (payload message) with
  | Some book_id, Some customer_id =>
      if negb (truthy (Some book_id)) then m
      else
        match PyDict.get book_id (inventory_snapshots m) with
        | None => m
        | Some snapshot =>
            if quantity snapshot <=? 0 then m
            else
              let snapshot := with_quantity (Z.max (quantity snapshot - 1) 0) snapshot in
              let m :=
                set_inventory_snapshots
                  (PyDict.set book_id snapshot (inventory_snapshots m)) m in
              let needs_restock := quantity snapshot <? low_threshold snapshot in
              let m := _write_back_inventory_to_ontology snapshot (Some needs_restock) m in
              _record_purchase customer_id book_id price m
        end
  | _, _ => m
  end.

(** The [while True] loop; [fuel] bounds the number of iterations. *)
Fixpoint purchase_loop (fuel : nat) (m : BookstoreModel) : BookstoreModel :=
  match fuel with
  | O => m
  | S fuel =>
      match MessageBus.poll "purchases" (message_bus m) with
      | (None, _) => m
      | (Some message, bus) =>
          purchase_loop fuel (_process_purchase_message message (set_message_bus bus m))
      end
  end.

Definition _process_purchase_events (m : BookstoreModel) : BookstoreModel :=
  purchase_loop (length (MessageBus.queue "purchases" (message_bus m))) m.

(** *** bms/simulation/agents.py: the [step] methods *)

(** [self.budget -= unit_price] on the customer agent [uid] *)
Definition set_budget (uid : string) (budget : float) (agents : list Agent) : list Agent :=
  (λ a,
     match a with
     | CustomerAgent uid' policy _ =>
         if bool_decide (uid' = uid) then CustomerAgent uid' policy budget else a
     | _ => a
     end) <$> agents.

Definition CustomerAgent_step (uid : string) (policy : DecisionPolicy) (budget : float)
    (m : BookstoreModel) : BookstoreModel :=
  let '(draw, rng) := rng_random (random m) in
  let m := set_random rng m in
  if PrimFloat.ltb (customer_spawn_chance (config m)) draw then m
  else
    let inventory := PyDict.values (inventory_snapshots m) in
    let '(decision, rng) := choose_purchase policy inventory budget (random m) in
    let m := set_random rng m in
    match decision with
    | None => m
    | Some (book, unit_price) =>
        if PrimFloat.ltb budget unit_price then m
        else
          let m := set_schedule (set_budget uid (PrimFloat.sub budget unit_price) (schedule m)) m in
          publish "purchases"
            {| book_id := Some book; customer_id := Some uid;
               payload_price := Some unit_price; amount := None |}
            m
    end.

(** One iteration of the loop of [EmployeeAgent.step], after the message
    has been polled. *)
Definition EmployeeAgent_handle (uid : string) (message : Message) (m : BookstoreModel)
  : BookstoreModel :=
  let amount := default (restock_amount (config m)) (amount (payload message)) in
  match book_id (payload message) with
  | None => m
  | Some book => restock_inventory book amount (Some uid) m
  end.

Fixpoint employee_loop (fuel : nat) (uid : string) (m : BookstoreModel) : BookstoreModel :=
  match fuel with
  | O => m
  | S fuel =>
      match MessageBus.poll "restock" (message_bus m) with
      | (None, _) => m
      | (Some message, bus) =>
          employee_loop fuel uid (EmployeeAgent_handle uid message (set_message_bus bus m))
      end
  end.

Definition EmployeeAgent_step (uid : string) (m : BookstoreModel) : BookstoreModel :=
  employee_loop (length (MessageBus.queue "restock" (message_bus m))) uid m.

Definition agent_step (a : Agent) (m : BookstoreModel) : BookstoreModel :=
  match a with
  | BookAgent _ _ => m
  | CustomerAgent uid policy budget => CustomerAgent_step uid policy budget m
  | EmployeeAgent uid => EmployeeAgent_step uid m
  end.

(** Activation of the agent registered under [uid], in its current state. *)
Definition activate (m : BookstoreModel) (uid : string) : BookstoreModel :=
  match List.find (λ a, bool_decide (unique_id a = uid)) (schedule m) with
  | Some a => agent_step a m
  | None => m
  end.

(** [self.schedule.step()] of Mesa's [RandomActivation]: the registered
    agents are shuffled with the model's generator and each one steps. *)
Definition activation_order (m : BookstoreModel) : list string :=
  (rng_shuffle (unique_id <$> schedule m) (random m)).1.

Definition schedule_step (m : BookstoreModel) : BookstoreModel :=
  let '(order, rng) := rng_shuffle (unique_id <$> schedule m) (random m) in
  foldl activate (set_random rng m) order.

(** *** The restock coordinator *)

Definition restock_request (isbn : string) (m : BookstoreModel) : Payload :=
  {| book_id := Some isbn; customer_id := None; payload_price := None;
     amount := Some (restock_amount (config m)) |}.

(** The [for] loop of [_enqueue_restock_requests_from_ontology] over
    [self.inventory_entities.items()]. *)
Fixpoint enqueue_loop (fallback : bool) (items : list (string * string))
    (m : BookstoreModel) : option BookstoreModel :=
  match items with
  | [] => Some m
  | (isbn, item) :: items' =>
      snapshot ← PyDict.get isbn (inventory_snapshots m);
      let needs_restock :=
        if fallback then quantity snapshot <? low_threshold snapshot
        else first_or false (NeedsRestock (inventory_ind item (ontology m))) in
      if negb needs_restock || bool_decide (isbn ∈ pending_restocks m)
      then enqueue_loop fallback items' m
      else
        let m := publish "restock" (restock_request isbn m) m in
        enqueue_loop fallback items' (set_pending_restocks ({[isbn]} ∪ pending_restocks m) m)
  end.

Definition _enqueue_restock_requests_from_ontology (fallback : bool) (m : BookstoreModel)
  : option BookstoreModel :=
  enqueue_loop fallback (inventory_entities m) m.

Definition _log_reasoner_warning (m : BookstoreModel) : BookstoreModel :=
  if _reasoner_warning_emitted m then m
  else set_reasoner_warning_emitted true (set_log (log m ++ [ReasonerUnavailable]) m).

(** The guard of the first branch of [_sync_reasoner_if_needed]. *)
Definition sync_skipped (force : bool) (m : BookstoreModel) : bool :=
  let interval := reasoner_sync_interval (config m) in
  negb force && negb (interval =? 0) && negb (step_count m mod interval =? 0).

Definition _sync_reasoner_if_needed (pellet : Pellet) (force : bool) (m : BookstoreModel)
  : option BookstoreModel :=
  if sync_skipped force m then
    _enqueue_restock_requests_from_ontology (negb (_reasoner_available m)) m
  else if negb (_reasoner_available m) then
    _enqueue_restock_requests_from_ontology true (_log_reasoner_warning m)
  else
    match pellet (ontology m) with
    | inl exc =>
        let m := set_reasoner_available false m in
        let m := set_log (log m ++ [ReasonerFailed exc]) m in
        _enqueue_restock_requests_from_ontology true m
    | inr inferred =>
        _enqueue_restock_requests_from_ontology false (set_ontology inferred m)
    end.

(** *** The tick *)

Definition step (pellet : Pellet) (m : BookstoreModel) : option BookstoreModel :=
  let m := set_step_count (step_count m + 1) m in
  let m := schedule_step m in
  let m := _process_purchase_events m in
  _sync_reasoner_if_needed pellet false m.

(** *** Reporting *)

Definition inventory_summary (m : BookstoreModel) : list InventoryEntry :=
  (λ '(isbn, snapshot),
     match PyDict.get isbn (inventory_entities m) with
     | Some item =>
         let entity := inventory_ind item (ontology m) in
         let quantity := first_or (quantity snapshot) (AvailableQuantity entity) in
         let low_threshold := first_or (low_threshold snapshot) (LowThreshold entity) in
         {| ie_isbn := isbn; ie_title := title snapshot; ie_price := price snapshot;
            ie_quantity := quantity; ie_low_threshold := low_threshold;
            ie_needs_restock := first_or (quantity <? low_threshold) (NeedsRestock entity) |}
     | None =>
         {| ie_isbn := isbn; ie_title := title snapshot; ie_price := price snapshot;
            ie_quantity := quantity snapshot; ie_low_threshold := low_threshold snapshot;
            ie_needs_restock := quantity snapshot <? low_threshold snapshot |}
     end) <$> inventory_snapshots m.

Definition purchases_by_customer (o : Ontology) : list (string * list string) :=
  foldl
    (λ acc '(name, customer),
       let source_books :=
         match HasPurchased customer with
         | [] => Purchases customer
         | books => books
         end in
       match sorted_set source_books with
       | [] => acc
       | purchased_books => PyDict.set name purchased_books acc
       end)
    [] (onto_Customer o).

(** [generate_report]; what [_print_report] writes to the standard output
    is a function of the returned report and is left out. *)
Definition generate_report (pellet : Pellet) (m : BookstoreModel)
  : option (Report * BookstoreModel) :=
  m ← _sync_reasoner_if_needed pellet true m;
  Some ({| rep_inventory := inventory_summary m;
           rep_purchases := purchases_by_customer (ontology m);
           rep_restocks := restock_log m;
           reasoner_active := _reasoner_available m |}, m).

(** *** Construction *)

Definition _load_book (isbn : string) (book : BookInd) (m : BookstoreModel)
  : BookstoreModel :=
  let '(inventory, o) := ensure_inventory_for isbn (ontology m) in
  let quantity := first_or 0 (AvailableQuantity inventory) in
  let threshold := first_or (restock_threshold (config m)) (LowThreshold inventory) in
  let needs_restock := first_or (quantity <? threshold) (NeedsRestock inventory) in
  let inventory :=
    {| AvailableQuantity := AvailableQuantity inventory;
       LowThreshold :=
         match LowThreshold inventory with [] => [threshold] | values => values end;
       NeedsRestock :=
         match NeedsRestock inventory with [] => [needs_restock] | values => values end |} in
  let m := set_ontology (with_Inventory (PyDict.set isbn inventory (onto_Inventory o)) o) m in
  let snapshot :=
    {| book_isbn := isbn; title := first_or isbn (HasTitle book); quantity := quantity;
       price := first_or 0%float (HasPrice book); low_threshold := threshold |} in
  let m := set_inventory_snapshots (PyDict.set isbn snapshot (inventory_snapshots m)) m in
  let m := set_inventory_entities (PyDict.set isbn isbn (inventory_entities m)) m in
  set_book_entities ({[isbn]} ∪ book_entities m) m.

Definition _load_inventory_from_ontology (m : BookstoreModel) : BookstoreModel :=
  foldl (λ m '(isbn, book), _load_book isbn book m) m (onto_Book (ontology m)).

(** [self.schedule.add(agent)] *)
Definition schedule_add (a : Agent) (m : BookstoreModel) : BookstoreModel :=
  set_schedule (schedule m ++ [a]) m.

Definition _register_customer (idx : Z) (m : BookstoreModel) : BookstoreModel :=
  let customer_id := "customer::" +:+ pretty idx in
  let m := (_ensure_customer_entity customer_id m).2 in
  schedule_add (CustomerAgent customer_id (customer_policy m) 50%float) m.

Definition _register_agents (m : BookstoreModel) : BookstoreModel :=
  let m :=
    foldl
      (λ m snapshot,
         schedule_add (BookAgent ("book::" +:+ book_isbn snapshot) (book_isbn snapshot)) m)
      m (PyDict.values (inventory_snapshots m)) in
  let employee_id := "employee::0" in
  let m := (_ensure_employee_entity employee_id m).2 in
  let m := schedule_add (EmployeeAgent employee_id) m in
  foldl (λ m idx, _register_customer idx m) m [0; 1].

(** [BookstoreModel.__init__].  [pellet_imported] tells whether
    [sync_reasoner_pellet] could be imported; [entropy] is the state of
    the generator that Mesa creates before the configured seed is applied. *)
Definition BookstoreModel_init
    (onto : Ontology) (config : option SimulationSettings)
    (customer_policy : option DecisionPolicy)
    (pellet_imported : bool) (entropy : RandomState) : BookstoreModel :=
  let config := default load_config config in
  let m :=
    {| config := config;
       random := match random_seed config with Some s => rng_seed s | None => entropy end;
       ontology := onto;
       message_bus := ∅;
       schedule := [];
       customer_policy := default RandomPurchasePolicy customer_policy;
       inventory_snapshots := [];
       inventory_entities := [];
       book_entities := ∅;
       customer_entities := ∅;
       employee_entities := ∅;
       pending_restocks := ∅;
       purchase_log := [];
       restock_log := [];
       order_counter := 0;
       step_count := 0;
       _reasoner_available := pellet_imported;
       _reasoner_warning_emitted := false;
       log := [] |} in
  _register_agents (_load_inventory_from_ontology m).
End model.

(** ** bms/ontology/builder.py: seeding customers *)

(** A customer profile of the sample data: the identifier it resolves to
    (stripped of surrounding blanks) and its budget, when it has one. *)
Record CustomerSeed := { seed_identifier : string; seed_budget : option float }.

Definition add_customer (default_budget : float) (acc : bool * Ontology)
    (record : CustomerSeed) : bool * Ontology :=
  match seed_identifier record with
  | EmptyString => acc
  | identifier =>
      let name := _normalise_identifier identifier in
      let '(customer, store) := individual empty_CustomerInd name (onto_Customer acc.2) in
      let budget_value := default default_budget (seed_budget record) in
      let funded :=
        {| Purchases := Purchases customer; HasPurchased := HasPurchased customer;
           HasBudget := [budget_value] |} in
      match HasBudget customer with
      | [] => (true, with_Customer (PyDict.set name funded store) acc.2)
      | existing :: _ =>
          if negb (PrimFloat.eqb existing budget_value)
          then (true, with_Customer (PyDict.set name funded store) acc.2)
          else (acc.1, with_Customer store acc.2)
      end
  end.

Definition add_customers (customers : list CustomerSeed) (o : Ontology) : bool * Ontology :=
  foldl (add_customer 50%float) (false, o) customers.

(** ** backend/app/simulation_manager.py *)

Section manager.
Context `{Random} `{Owlready}.

(** [storage] is the ontology file at [ontology_path], when it exists.  The
    manager's configuration and the builder's ontology are the objects the
    model holds, [config model] and [ontology model]. *)
Record SimulationManager := {
  storage : option Ontology;
  customer_seed_data : list CustomerSeed;
  model : BookstoreModel
}.

Definition _create_model (onto : Ontology) (config : SimulationSettings)
    (pellet_imported : bool) (entropy : RandomState) : BookstoreModel :=
  let model := BookstoreModel_init onto (Some config) None pellet_imported entropy in
  match random_seed config with
  | Some s => set_random (rng_seed s) model
  | None => model
  end.

(** [_seed_customers_if_missing], on the builder's ontology and the file *)
Definition _seed_customers_if_missing (seeds : list CustomerSeed)
    (onto : Ontology) (file : option Ontology) : Ontology * option Ontology :=
  match seeds with
  | [] => (onto, file)
  | _ =>
      let '(updated, onto) := add_customers seeds onto in
      (onto, if updated : bool then Some onto else file)
  end.

(** The ticks of [run_steps]; the reasoner may behave differently at each. *)
Fixpoint run (pellets : list Pellet) (m : BookstoreModel) : option BookstoreModel :=
  match pellets with
  | [] => Some m
  | pellet :: pellets' => m ← step pellet m; run pellets' m
  end.

Definition with_interval (interval : Z) (c : SimulationSettings) : SimulationSettings :=
  {| max_steps := max_steps c; customer_spawn_chance := customer_spawn_chance c;
     restock_threshold := restock_threshold c; reasoner_sync_interval := interval;
     restock_amount := restock_amount c; random_seed := random_seed c |}.

Definition with_seed (s : Z) (c : SimulationSettings) : SimulationSettings :=
  {| max_steps := max_steps c; customer_spawn_chance := customer_spawn_chance c;
     restock_threshold := restock_threshold c;
     reasoner_sync_interval := reasoner_sync_interval c;
     restock_amount := restock_amount c; random_seed := Some s |}.

(** [run_steps(steps, ...)]: [pellet i] is the reasoner as it behaves at
    the [i]-th tick of the batch. *)
Definition run_steps (steps : Z) (reasoner_sync_interval : option Z)
    (random_seed_override : option Z) (pellet : nat → Pellet) (mgr : SimulationManager)
  : option (Z * SimulationManager) :=
  let m := model mgr in
  let m :=
    match reasoner_sync_interval with
    | Some interval => set_config (with_interval interval (config m)) m
    | None => m
    end in
  let m :=
    match random_seed_override with
    | Some s => set_random (rng_seed s) (set_config (with_seed s (config m)) m)
    | None => m
    end in
  m ← run (pellet <$> seq 0 (Z.to_nat steps)) m;
  Some (step_count m,
        {| storage := Some (ontology m); customer_seed_data := customer_seed_data mgr;
           model := m |}).

(** [reset]: the builder's ontology is already loaded, and [onto.load] on
    a loaded ontology keeps it as it is in memory; the customers are
    seeded and a new model is built on it. *)
Definition reset (pellet_imported : bool) (entropy : RandomState) (mgr : SimulationManager)
  : Z * SimulationManager :=
  let onto := ontology (model mgr) in
  let '(onto, file) := _seed_customers_if_missing (customer_seed_data mgr) onto (storage mgr) in
  let m := _create_model onto (config (model mgr)) pellet_imported entropy in
  (step_count m,
   {| storage := file; customer_seed_data := customer_seed_data mgr; model := m |}).

Definition get_report (pellet : Pellet) (mgr : SimulationManager)
  : option ((Report * Z) * SimulationManager) :=
  '(data, m) ← generate_report pellet (model mgr);
  Some ((data, step_count m),
        {| storage := storage mgr; customer_seed_data := customer_seed_data mgr;
           model := m |}).
End manager.

(** ** A generator and a store to run the model on *)

(** The generator whose [random()] always returns [draw], whose [choice]
    takes the first element and whose [shuffle] keeps the order. *)
Program Definition constant_random (draw : float) : Random :=
  {| RandomState := unit;
     rng_seed := λ _, ();
     rng_random := λ s, (draw, s);
     rng_randbelow := λ _ s, (0%nat, s);
     rng_shuffle := λ l s, (l, s) |}.
Next Obligation. intros; simpl; lia. Qed.
Next Obligation. done. Qed.

(** A generator with a counter for state: [random()] alternates between
    0.0 and 1.0, [choice] and [shuffle] follow the counter. *)
Lemma rotate_perm (n : nat) (l : list string) : rotate n l ≡ₚ l.
Proof.
  unfold rotate. rewrite Permutation_app_comm. by rewrite take_drop.
Qed.

Program Definition counting_random : Random :=
  {| RandomState := nat;
     rng_seed := λ s, Z.to_nat s;
     rng_random := λ s, (if Nat.even s then 0%float else 1%float, S s);
     rng_randbelow := λ n s, ((s mod n)%nat, S s);
     rng_shuffle := λ l s, (rotate s l, S s) |}.
Next Obligation. intros n s Hn. simpl. by apply Nat.mod_upper_bound. Qed.
Next Obligation. intros l s. simpl. apply rotate_perm. Qed.

(** One book, isbn [A]: three copies at 10.0, threshold 5. *)
Definition sample_ontology : Ontology :=
  {| onto_Book := [("A", {| HasTitle := ["Alpha"]; HasPrice := [10%float] |})];
     onto_Inventory :=
       [("A", {| AvailableQuantity := [3]; LowThreshold := [5]; NeedsRestock := [true] |})];
     onto_Customer := [];
     onto_Employee := [];
     onto_Order := [] |}.

(** A reasoner that infers nothing new, and one that fails. *)
Definition pellet_idle : Pellet := λ o, inr o.
Definition pellet_down : Pellet := λ _, inl "java not found".

(** * Properties *)

(** ** Dictionaries *)

Module PyDictFacts.
Section facts.
Context {V : Type}.
Implicit Types (d : list (string * V)) (k : string) (v : V).

Lemma get_set_eq k v d : PyDict.get k (PyDict.set k v d) = Some v.
Proof.
  induction d as [|[k' v'] d IH]; simpl.
  - by rewrite decide_True.
  - destruct (decide (k = k')); simpl; [by rewrite decide_True | by rewrite decide_False].
Qed.

Lemma get_set_ne k k' v d : k ≠ k' → PyDict.get k' (PyDict.set k v d) = PyDict.get k' d.
Proof.
  intros Hne. induction d as [|[k0 v0] d IH]; simpl.
  - by rewrite decide_False.
  - destruct (decide (k = k0)) as [->|]; simpl.
    + by rewrite !decide_False.
    + destruct (decide (k' = k0)); [done | apply IH].
Qed.

Lemma get_Some_elem_of k v d : PyDict.get k d = Some v → (k, v) ∈ d.
Proof.
  induction d as [|[k' v'] d IH]; simpl; [done|].
  destruct (decide (k = k')) as [->|]; intros Hg.
  - injection Hg as ->. left.
  - right. by apply IH.
Qed.

Lemma get_is_Some_keys k d : is_Some (PyDict.get k d) ↔ k ∈ PyDict.keys d.
Proof.
  unfold PyDict.keys. induction d as [|[k' v'] d IH]; simpl.
  - split; [by intros [? ?] | by intros ?%elem_of_nil].
  - destruct (decide (k = k')) as [->|]; rewrite elem_of_cons.
    + split; [by left | by eexists].
    + rewrite IH. split; [by right | by intros [? | ?]].
Qed.

(** An assignment changes one value or appends one item. *)
Lemma elem_of_set k v d k' v' :
  (k', v') ∈ PyDict.set k v d → (k' = k ∧ v' = v) ∨ (k', v') ∈ d.
Proof.
  induction d as [|[k0 v0] d IH]; simpl.
  - intros [= -> ->]%list_elem_of_singleton. by left.
  - destruct (decide (k = k0)) as [->|]; rewrite !elem_of_cons.
    + intros [Heq | ?]; [injection Heq as -> -> | right]; auto.
    + intros [Heq | Hin]; [injection Heq as -> ->; right; by left|].
      destruct (IH Hin) as [? | ?]; [by left | right; by right].
Qed.

(** Assigning to a key the dictionary has keeps the keys and their order. *)
Lemma keys_set_present k v d :
  is_Some (PyDict.get k d) → PyDict.keys (PyDict.set k v d) = PyDict.keys d.
Proof.
  unfold PyDict.keys. induction d as [|[k0 v0] d IH]; simpl.
  - by intros [? ?].
  - destruct (decide (k = k0)) as [->|]; simpl; [done|].
    intros Hs. f_equal. by apply IH.
Qed.

Lemma get_set_is_Some k k' v d :
  is_Some (PyDict.get k' d) → is_Some (PyDict.get k' (PyDict.set k v d)).
Proof.
  intros Hs. destruct (decide (k = k')) as [->|Hne].
  - rewrite get_set_eq. by eexists.
  - by rewrite get_set_ne.
Qed.
End facts.
End PyDictFacts.

(** ** The message bus *)

Module MessageBusFacts.
Import MessageBus.
Implicit Types (bus : gmap string (list Message)) (t : string).

Lemma queue_publish_eq t p bus :
  queue t (publish t p bus) = queue t bus ++ [{| topic := t; payload := p |}].
Proof. unfold queue, publish. by rewrite lookup_insert_eq. Qed.

Lemma queue_publish_ne t t' p bus : t ≠ t' → queue t' (publish t p bus) = queue t' bus.
Proof. intros Hne. unfold queue, publish. by rewrite lookup_insert_ne. Qed.

(** [poll] returns the oldest message and leaves the others. *)
Lemma poll_Some t bus msg bus' :
  poll t bus = (Some msg, bus') →
  queue t bus = msg :: queue t bus' ∧ bus' = <[t := queue t bus']> bus.
Proof.
  unfold poll, queue. destruct (bus !! t) as [[|msg' rest]|] eqn:Hq; try done.
  intros [= -> <-]. rewrite lookup_insert_eq. simpl. done.
Qed.

Lemma poll_other t t' bus msg bus' :
  poll t bus = (Some msg, bus') → t ≠ t' → queue t' bus' = queue t' bus.
Proof.
  intros [_ ->]%poll_Some Hne. unfold queue at 1 3. by rewrite lookup_insert_ne.
Qed.

Lemma poll_None t bus bus' : poll t bus = (None, bus') → queue t bus = [] ∧ bus' = bus.
Proof.
  unfold poll, queue. destruct (bus !! t) as [[|msg' rest]|] eqn:Hq; try done.
  all: by intros [= <-].
Qed.

Lemma poll_empty t bus : queue t bus = [] → poll t bus = (None, bus).
Proof. unfold poll, queue. by destruct (bus !! t) as [[|msg' rest]|]. Qed.

Lemma poll_cons t bus msg rest :
  queue t bus = msg :: rest → poll t bus = (Some msg, <[t := rest]> bus).
Proof. unfold poll, queue. destruct (bus !! t) as [[|msg' rest']|]; naive_solver. Qed.

Lemma queue_insert_eq t q bus : queue t (<[t := q]> bus) = q.
Proof. unfold queue. by rewrite lookup_insert_eq. Qed.

Lemma queue_insert_ne t t' q bus : t ≠ t' → queue t' (<[t := q]> bus) = queue t' bus.
Proof. intros. unfold queue. by rewrite lookup_insert_ne. Qed.
End MessageBusFacts.

(** ** What each operation of the model writes *)

Arguments order_name : simpl never.
Arguments PyDict.set : simpl never.
Arguments PyDict.get : simpl never.

Ltac unfold_ops :=
  unfold _process_purchase_message, _record_purchase, restock_inventory,
    EmployeeAgent_handle, CustomerAgent_step, _write_back_inventory_to_ontology,
    _ensure_inventory_entity, _ensure_book_entity, _ensure_customer_entity,
    _ensure_employee_entity, _log_reasoner_warning, publish, schedule_add in *.

Ltac frame :=
  intros; repeat match goal with x := _ |- _ => subst x end;
  unfold_ops; cbv zeta; repeat case_match; simplify_eq/=; try done.

Section frames.
Context `{Random} `{Owlready}.
Implicit Types (m : BookstoreModel).

(** The attributes that only the tick, the reasoner synchronisation and
    the service facade assign. *)
Definition same_control m m' : Prop :=
  config m' = config m ∧ customer_policy m' = customer_policy m ∧
  step_count m' = step_count m ∧ _reasoner_available m' = _reasoner_available m ∧
  _reasoner_warning_emitted m' = _reasoner_warning_emitted m ∧ log m' = log m.

Lemma same_control_refl m : same_control m m.
Proof. by repeat split. Qed.

Lemma same_control_trans m1 m2 m3 :
  same_control m1 m2 → same_control m2 m3 → same_control m1 m3.
Proof. unfold same_control. intros (?&?&?&?&?&?) (?&?&?&?&?&?). repeat split; congruence. Qed.

(** *** Writes to the ontology and to the entity caches *)

Definition touch (o : Ontology) (ie : list (string * string)) (be : gset string)
    (ce ee : gmap string string) m
  : BookstoreModel :=
  set_employee_entities ee
    (set_customer_entities ce
       (set_book_entities be (set_inventory_entities ie (set_ontology o m)))).

(** [m'] is [m] with another ontology, other caches and the inventory
    entities [ie]. *)
Definition touched (ie : list (string * string)) m m' : Prop :=
  ∃ o be ce ee, m' = touch o ie be ce ee m.

Definition same_rest m m' : Prop :=
  config m' = config m ∧ random m' = random m ∧ message_bus m' = message_bus m ∧
  schedule m' = schedule m ∧ customer_policy m' = customer_policy m ∧
  inventory_snapshots m' = inventory_snapshots m ∧
  pending_restocks m' = pending_restocks m ∧ purchase_log m' = purchase_log m ∧
  restock_log m' = restock_log m ∧ order_counter m' = order_counter m ∧
  step_count m' = step_count m ∧ _reasoner_available m' = _reasoner_available m ∧
  _reasoner_warning_emitted m' = _reasoner_warning_emitted m ∧ log m' = log m.

Lemma touched_intro ie m m' :
  same_rest m m' → inventory_entities m' = ie → touched ie m m'.
Proof.
  destruct m, m'. unfold same_rest. simpl.
  intros (?&?&?&?&?&?&?&?&?&?&?&?&?&?) ?. subst.
  by eexists _, _, _, _.
Qed.

Lemma touched_touch o ie be ce ee m : touched ie m (touch o ie be ce ee m).
Proof. by exists o, be, ce, ee. Qed.

Lemma touched_refl m : touched (inventory_entities m) m m.
Proof.
  exists (ontology m), (book_entities m), (customer_entities m), (employee_entities m).
  by destruct m.
Qed.

Lemma touched_trans ie1 ie2 m1 m2 m3 :
  touched ie1 m1 m2 → touched ie2 m2 m3 → touched ie2 m1 m3.
Proof.
  intros (o1&be1&ce1&ee1&->) (o2&be2&ce2&ee2&->). by exists o2, be2, ce2, ee2.
Qed.

Lemma touched_entities ie m m' : touched ie m m' → inventory_entities m' = ie.
Proof. by intros (?&?&?&?&->). Qed.

Lemma ensure_book_touched isbn m :
  touched (inventory_entities m) m (_ensure_book_entity isbn m).
Proof.
  unfold _ensure_book_entity. case_bool_decide; [apply touched_refl|].
  by apply touched_intro.
Qed.

Lemma ensure_inventory_touched book m :
  touched (PyDict.set book book (inventory_entities m)) m (_ensure_inventory_entity book m).
Proof.
  unfold _ensure_inventory_entity. by apply touched_intro.
Qed.

Lemma ensure_customer_touched uid m :
  touched (inventory_entities m) m (_ensure_customer_entity uid m).2.
Proof.
  unfold _ensure_customer_entity. cbv zeta.
  destruct (customer_entities m !! _normalise_identifier uid); simpl.
  - apply touched_refl.
  - by apply touched_intro.
Qed.

Lemma ensure_employee_touched uid m :
  touched (inventory_entities m) m (_ensure_employee_entity uid m).2.
Proof.
  unfold _ensure_employee_entity. cbv zeta.
  destruct (employee_entities m !! _normalise_identifier uid); simpl.
  - apply touched_refl.
  - by apply touched_intro.
Qed.

(** *** [_write_back_inventory_to_ontology] *)

Lemma write_back_touched s nr m :
  touched
    (PyDict.set (book_isbn s) (book_isbn s)
       (PyDict.set (book_isbn s) (book_isbn s) (inventory_entities m)))
    m (_write_back_inventory_to_ontology s nr m).
Proof.
  unfold _write_back_inventory_to_ontology. cbv zeta.
  destruct (ensure_book_touched (book_isbn s) m) as (o & be & ce & ee & ->).
  unfold _ensure_inventory_entity. by apply touched_intro.
Qed.

Lemma write_back_frame s nr m :
  let m' := _write_back_inventory_to_ontology s nr m in
  same_control m m' ∧ inventory_snapshots m' = inventory_snapshots m ∧
  pending_restocks m' = pending_restocks m ∧ message_bus m' = message_bus m ∧
  purchase_log m' = purchase_log m ∧ restock_log m' = restock_log m ∧
  order_counter m' = order_counter m ∧ schedule m' = schedule m ∧ random m' = random m.
Proof.
  intros m'. destruct (write_back_touched s nr m) as (o & be & ce & ee & Hw).
  subst m'. rewrite Hw. unfold same_control. by repeat split.
Qed.

Lemma write_back_entities s nr m :
  inventory_entities (_write_back_inventory_to_ontology s nr m) =
  PyDict.set (book_isbn s) (book_isbn s)
    (PyDict.set (book_isbn s) (book_isbn s) (inventory_entities m)).
Proof. apply touched_entities with m, write_back_touched. Qed.

(** *** [restock_inventory] *)

Lemma restock_inventory_unknown book amount employee m :
  PyDict.get book (inventory_snapshots m) = None →
  restock_inventory book amount employee m = m.
Proof. intros Hg. unfold restock_inventory. by rewrite Hg. Qed.

(** A restock of a book of the ledger: the row, the pending set and the
    restock log are assigned, the ontology and the caches are touched. *)
Lemma restock_inventory_shape book amount employee m s :
  PyDict.get book (inventory_snapshots m) = Some s →
  let s' := with_quantity (quantity s + Z.max amount 0) s in
  ∃ m1,
    touched
      (PyDict.set (book_isbn s) (book_isbn s)
         (PyDict.set (book_isbn s) (book_isbn s) (inventory_entities m)))
      (set_pending_restocks (pending_restocks m ∖ {[book]})
         (set_inventory_snapshots (PyDict.set book s' (inventory_snapshots m)) m))
      m1 ∧
    restock_inventory book amount employee m =
      set_restock_log
        (restock_log m ++
           [{| ev_step := step_count m; ev_book_isbn := book;
               ev_amount := Z.max amount 0; ev_employee_id := employee |}])
        m1.
Proof.
  intros Hg s'. unfold restock_inventory. rewrite Hg. cbv zeta. fold s'.
  set (m0 := set_pending_restocks _ _).
  match goal with |- context [_write_back_inventory_to_ontology ?a ?b ?c] =>
    destruct (write_back_touched a b c) as (o1 & be1 & ce1 & ee1 & ->)
  end.
  set (ie := PyDict.set _ _ _). set (mw := touch o1 ie be1 ce1 ee1 m0).
  assert (∃ o2 be2 ce2 ee2,
            match employee with
            | Some uid =>
                let '(employee, m) := _ensure_employee_entity uid mw in
                match PyDict.get book (inventory_entities m) with
                | Some item =>
                    set_ontology
                      (with_Employee
                         (PyDict.set employee
                            (append_if_missing item
                               (default [] (PyDict.get employee
                                              (onto_Employee (ontology m)))))
                            (onto_Employee (ontology m))) (ontology m)) m
                | None => m
                end
            | None => mw
            end = touch o2 ie be2 ce2 ee2 m0) as (o2 & be2 & ce2 & ee2 & ->).
  { destruct employee as [uid|]; [|by exists o1, be1, ce1, ee1].
    destruct (ensure_employee_touched uid mw) as (o3 & be3 & ce3 & ee3 & Hte).
    destruct (_ensure_employee_entity uid mw) as [e me]. simpl in Hte. subst me.
    simpl. destruct (PyDict.get book ie); [|by exists o3, be3, ce3, ee3].
    match goal with |- ∃ _ _ _ _, ?X = _ => by exists (ontology X), be3, ce3, ee3 end. }
  exists (touch o2 ie be2 ce2 ee2 m0). split; [apply touched_touch | reflexivity].
Qed.

Lemma restock_inventory_frame book amount employee m :
  let m' := restock_inventory book amount employee m in
  same_control m m' ∧ message_bus m' = message_bus m ∧
  purchase_log m' = purchase_log m ∧ order_counter m' = order_counter m ∧
  schedule m' = schedule m ∧ random m' = random m.
Proof.
  intros m'. subst m'. destruct (PyDict.get book (inventory_snapshots m)) as [s|] eqn:Hg.
  - destruct (restock_inventory_shape book amount employee m s Hg)
      as (m1 & (?&?&?&?&->) & ->).
    unfold same_control. by repeat split.
  - rewrite restock_inventory_unknown by done. unfold same_control. by repeat split.
Qed.

Lemma restock_inventory_known book amount employee m s :
  PyDict.get book (inventory_snapshots m) = Some s →
  let m' := restock_inventory book amount employee m in
  let s' := with_quantity (quantity s + Z.max amount 0) s in
  inventory_snapshots m' = PyDict.set book s' (inventory_snapshots m) ∧
  pending_restocks m' = pending_restocks m ∖ {[book]} ∧
  restock_log m' =
    restock_log m ++
      [{| ev_step := step_count m; ev_book_isbn := book;
          ev_amount := Z.max amount 0; ev_employee_id := employee |}] ∧
  inventory_entities m' =
    PyDict.set (book_isbn s) (book_isbn s)
      (PyDict.set (book_isbn s) (book_isbn s) (inventory_entities m)).
Proof.
  intros Hg m' s'. subst m'.
  destruct (restock_inventory_shape book amount employee m s Hg)
    as (m1 & (?&?&?&?&->) & ->).
  by repeat split.
Qed.

(** *** [_record_purchase] and the purchase loop body *)

Lemma record_purchase_shape customer book price m :
  ∃ m1,
    touched (inventory_entities m) m m1 ∧
    _record_purchase customer book price m =
      set_purchase_log
        (purchase_log m ++
           [{| pr_order := order_name (order_counter m); pr_customer := customer;
               pr_book := book; pr_price := price; pr_step := step_count m |}])
        (set_order_counter (order_counter m + 1) m1).
Proof.
  unfold _record_purchase.
  pose proof (ensure_customer_touched customer m) as Hc.
  destruct (_ensure_customer_entity customer m) as [c mc]. simpl in Hc.
  pose proof (ensure_book_touched book mc) as Hb.
  rewrite (touched_entities _ m mc Hc) in Hb.
  destruct (touched_trans _ _ _ _ _ Hc Hb) as (o & be & ce & ee & ->).
  cbv zeta.
  match goal with |- ∃ m1, _ ∧ ?X = _ =>
    exists (touch (ontology X) (inventory_entities m) be ce ee m)
  end.
  split; [apply touched_touch | reflexivity].
Qed.

Lemma record_purchase_frame customer book price m :
  let m' := _record_purchase customer book price m in
  same_control m m' ∧ inventory_snapshots m' = inventory_snapshots m ∧
  inventory_entities m' = inventory_entities m ∧
  pending_restocks m' = pending_restocks m ∧ message_bus m' = message_bus m ∧
  restock_log m' = restock_log m ∧ schedule m' = schedule m ∧ random m' = random m.
Proof.
  intros m'. subst m'.
  destruct (record_purchase_shape customer book price m) as (m1 & (?&?&?&?&->) & ->).
  unfold same_control. by repeat split.
Qed.

Lemma record_purchase_log customer book price m :
  let m' := _record_purchase customer book price m in
  order_counter m' = order_counter m + 1 ∧
  purchase_log m' =
    purchase_log m ++
      [{| pr_order := order_name (order_counter m); pr_customer := customer;
          pr_book := book; pr_price := price; pr_step := step_count m |}].
Proof.
  intros m'. subst m'.
  by destruct (record_purchase_shape customer book price m) as (m1 & (?&?&?&?&->) & ->).
Qed.

(** The guard of the loop body: the message names a book and a customer,
    the book is in the ledger and in stock. *)
Definition purchase_applies (message : Message) m
  : option (string * string * InventorySnapshot) :=
  match book_id (payload message), customer_id (payload message) with
  | Some (String c rest as book), Some customer =>
      match PyDict.get book (inventory_snapshots m) with
      | Some s => if quantity s <=? 0 then None else Some (book, customer, s)
      | None => None
      end
  | _, _ => None
  end.

Lemma process_purchase_message_skip message m :
  purchase_applies message m = None → _process_purchase_message message m = m.
Proof.
  unfold purchase_applies, _process_purchase_message.
  destruct (book_id (payload message)) as [[|c rest]|]; try done;
    destruct (customer_id (payload message)) as [cust|]; try done.
  simpl. destruct (PyDict.get _ _) as [s|]; [|done]. by destruct (quantity s <=? 0).
Qed.

(** An applied purchase: the row and the two order attributes are
    assigned, the ontology and the caches are touched. *)
Lemma process_purchase_message_shape message m book customer s :
  purchase_applies message m = Some (book, customer, s) →
  let s' := with_quantity (quantity s - 1) s in
  ∃ m1,
    touched
      (PyDict.set (book_isbn s) (book_isbn s)
         (PyDict.set (book_isbn s) (book_isbn s) (inventory_entities m)))
      (set_inventory_snapshots (PyDict.set book s' (inventory_snapshots m)) m) m1 ∧
    _process_purchase_message message m =
      set_purchase_log
        (purchase_log m ++
           [{| pr_order := order_name (order_counter m); pr_customer := customer;
               pr_book := book;
               pr_price := default 0%float (payload_price (payload message));
               pr_step := step_count m |}])
        (set_order_counter (order_counter m + 1) m1).
Proof.
  intros Ha s'. unfold purchase_applies, _process_purchase_message in *.
  destruct (book_id (payload message)) as [[|c rest]|]; try done;
    destruct (customer_id (payload message)) as [cust|]; try done.
  simpl. destruct (PyDict.get _ _) as [s0|]; [|done].
  destruct (quantity s0 <=? 0) eqn:Hq; [done|]. simplify_eq.
  assert (Z.max (quantity s - 1) 0 = quantity s - 1) as -> by lia. fold s'.
  set (m0 := set_inventory_snapshots _ _).
  match goal with |- context [_write_back_inventory_to_ontology ?a ?b ?c] =>
    destruct (write_back_touched a b c) as (o1 & be1 & ce1 & ee1 & ->)
  end.
  match goal with |- context [_record_purchase ?a ?b ?c ?d] =>
    destruct (record_purchase_shape a b c d) as (m1 & (o2 & be2 & ce2 & ee2 & ->) & ->)
  end.
  exists (touch o2
            (PyDict.set (book_isbn s) (book_isbn s)
               (PyDict.set (book_isbn s) (book_isbn s) (inventory_entities m)))
            be2 ce2 ee2 m0).
  split; [apply touched_touch | reflexivity].
Qed.

Lemma process_purchase_message_frame message m :
  let m' := _process_purchase_message message m in
  same_control m m' ∧ pending_restocks m' = pending_restocks m ∧
  message_bus m' = message_bus m ∧ restock_log m' = restock_log m ∧
  schedule m' = schedule m ∧ random m' = random m.
Proof.
  intros m'. subst m'.
  destruct (purchase_applies message m) as [[[book customer] s]|] eqn:Ha.
  - destruct (process_purchase_message_shape message m _ _ _ Ha)
      as (m1 & (?&?&?&?&->) & ->).
    unfold same_control. by repeat split.
  - rewrite process_purchase_message_skip by done. unfold same_control. by repeat split.
Qed.

Lemma process_purchase_message_apply message m book customer s :
  purchase_applies message m = Some (book, customer, s) →
  let m' := _process_purchase_message message m in
  let s' := with_quantity (quantity s - 1) s in
  inventory_snapshots m' = PyDict.set book s' (inventory_snapshots m) ∧
  order_counter m' = order_counter m + 1 ∧
  purchase_log m' =
    purchase_log m ++
      [{| pr_order := order_name (order_counter m); pr_customer := customer;
          pr_book := book; pr_price := default 0%float (payload_price (payload message));
          pr_step := step_count m |}] ∧
  inventory_entities m' =
    PyDict.set (book_isbn s) (book_isbn s)
      (PyDict.set (book_isbn s) (book_isbn s) (inventory_entities m)).
Proof.
  intros Ha m' s'. subst m'.
  destruct (process_purchase_message_shape message m _ _ _ Ha)
    as (m1 & (?&?&?&?&->) & ->).
  by repeat split.
Qed.

(** *** [CustomerAgent.step] *)

(** A customer step draws from the generator and, when it buys, pays from
    its budget and publishes one purchase message. *)
Lemma customer_step_shape uid policy budget m :
  ∃ rng agents bus,
    CustomerAgent_step uid policy budget m =
      set_message_bus bus (set_schedule agents (set_random rng m)) ∧
    (bus = message_bus m ∨
     ∃ book unit_price,
       bus = MessageBus.publish "purchases"
               {| book_id := Some book; customer_id := Some uid;
                  payload_price := Some unit_price; amount := None |}
               (message_bus m)).
Proof.
  assert (∀ rng, set_random rng m =
                 set_message_bus (message_bus m) (set_schedule (schedule m) (set_random rng m)))
    as Hid by (by destruct m).
  unfold CustomerAgent_step.
  destruct (rng_random (random m)) as [draw rng].
  destruct (PrimFloat.ltb _ draw); [by eauto 10|].
  simpl. destruct (choose_purchase _ _ _ _) as [[[book unit_price]|] rng'];
    [|by eauto 10].
  destruct (PrimFloat.ltb budget unit_price); [by eauto 10|].
  unfold publish. simpl. eexists _, _, _. split; [reflexivity|]. right. by eauto.
Qed.

Lemma customer_step_frame uid policy budget m :
  let m' := CustomerAgent_step uid policy budget m in
  same_control m m' ∧ inventory_snapshots m' = inventory_snapshots m ∧
  inventory_entities m' = inventory_entities m ∧
  pending_restocks m' = pending_restocks m ∧ ontology m' = ontology m ∧
  purchase_log m' = purchase_log m ∧ order_counter m' = order_counter m ∧
  restock_log m' = restock_log m ∧
  MessageBus.queue "restock" (message_bus m') = MessageBus.queue "restock" (message_bus m).
Proof.
  intros m'. subst m'.
  destruct (customer_step_shape uid policy budget m) as (rng & agents & bus & -> & Hbus).
  unfold same_control. simpl. repeat split.
  destruct Hbus as [-> | (book & unit_price & ->)]; [done|].
  by rewrite MessageBusFacts.queue_publish_ne.
Qed.
End frames.

(** ** The loops *)

Section loops.
Context `{Random} `{Owlready}.
Implicit Types (m : BookstoreModel) (P : BookstoreModel → Prop)
  (R : relation BookstoreModel).

(** *** Draining the purchase queue *)

Lemma purchase_loop_ind P fuel m :
  (∀ m message bus,
     P m → MessageBus.poll "purchases" (message_bus m) = (Some message, bus) →
     P (_process_purchase_message message (set_message_bus bus m))) →
  P m → P (purchase_loop fuel m).
Proof.
  intros Hbody. revert m. induction fuel as [|fuel IH]; intros m HP; simpl; [done|].
  destruct (MessageBus.poll "purchases" (message_bus m)) as [[message|] bus] eqn:Hpoll;
    [|done].
  apply IH. by eapply Hbody.
Qed.

Lemma purchase_loop_rel R `{!Reflexive R, !Transitive R} fuel m :
  (∀ m message bus,
     MessageBus.poll "purchases" (message_bus m) = (Some message, bus) →
     R m (_process_purchase_message message (set_message_bus bus m))) →
  R m (purchase_loop fuel m).
Proof.
  intros Hbody. apply (purchase_loop_ind (R m)); [|done].
  intros m1 message bus HR Hpoll. etrans; [done|]. by apply Hbody.
Qed.

(** With the fuel [_process_purchase_events] gives it, the loop stops on
    the empty queue. *)
Lemma purchase_loop_drained fuel m :
  (length (MessageBus.queue "purchases" (message_bus m)) ≤ fuel)%nat →
  MessageBus.queue "purchases" (message_bus (purchase_loop fuel m)) = [].
Proof.
  revert m. induction fuel as [|fuel IH]; intros m Hlen; simpl.
  - destruct (MessageBus.queue _ _); [done | simpl in Hlen; lia].
  - destruct (MessageBus.poll "purchases" (message_bus m)) as [[message|] bus] eqn:Hpoll.
    + apply IH. destruct (process_purchase_message_frame message (set_message_bus bus m))
        as (_ & _ & -> & _). simpl.
      apply MessageBusFacts.poll_Some in Hpoll as [Hq _]. rewrite Hq in Hlen.
      simpl in Hlen. lia.
    + by apply MessageBusFacts.poll_None in Hpoll as [? _].
Qed.

Lemma process_purchase_events_drained m :
  MessageBus.queue "purchases" (message_bus (_process_purchase_events m)) = [].
Proof. by apply purchase_loop_drained. Qed.

(** *** The employee's loop *)

Lemma employee_loop_ind P fuel uid m :
  (∀ m message bus,
     P m → MessageBus.poll "restock" (message_bus m) = (Some message, bus) →
     P (EmployeeAgent_handle uid message (set_message_bus bus m))) →
  P m → P (employee_loop fuel uid m).
Proof.
  intros Hbody. revert m. induction fuel as [|fuel IH]; intros m HP; simpl; [done|].
  destruct (MessageBus.poll "restock" (message_bus m)) as [[message|] bus] eqn:Hpoll;
    [|done].
  apply IH. by eapply Hbody.
Qed.

Lemma employee_loop_rel R `{!Reflexive R, !Transitive R} fuel uid m :
  (∀ m message bus,
     MessageBus.poll "restock" (message_bus m) = (Some message, bus) →
     R m (EmployeeAgent_handle uid message (set_message_bus bus m))) →
  R m (employee_loop fuel uid m).
Proof.
  intros Hbody. apply (employee_loop_ind (R m)); [|done].
  intros m1 message bus HR Hpoll. etrans; [done|]. by apply Hbody.
Qed.

Lemma employee_handle_bus uid message m :
  message_bus (EmployeeAgent_handle uid message m) = message_bus m.
Proof.
  unfold EmployeeAgent_handle. destruct (book_id (payload message)); [|done].
  by destruct (restock_inventory_frame s
    (default (restock_amount (config m)) (amount (payload message))) (Some uid) m)
    as (_ & -> & _).
Qed.

Lemma employee_loop_drained fuel uid m :
  (length (MessageBus.queue "restock" (message_bus m)) ≤ fuel)%nat →
  MessageBus.queue "restock" (message_bus (employee_loop fuel uid m)) = [].
Proof.
  revert m. induction fuel as [|fuel IH]; intros m Hlen; simpl.
  - destruct (MessageBus.queue _ _); [done | simpl in Hlen; lia].
  - destruct (MessageBus.poll "restock" (message_bus m)) as [[message|] bus] eqn:Hpoll.
    + apply IH. rewrite employee_handle_bus. simpl.
      apply MessageBusFacts.poll_Some in Hpoll as [Hq _]. rewrite Hq in Hlen.
      simpl in Hlen. lia.
    + by apply MessageBusFacts.poll_None in Hpoll as [? _].
Qed.

Lemma employee_step_drained uid m :
  MessageBus.queue "restock" (message_bus (EmployeeAgent_step uid m)) = [].
Proof. by apply employee_loop_drained. Qed.

(** *** Activation of the agents *)

Lemma activate_ind P m uid :
  (∀ a m, P m → P (agent_step a m)) → P m → P (activate m uid).
Proof. intros Hstep HP. unfold activate. case_match; auto. Qed.

Lemma schedule_step_ind P m :
  (∀ m rng, P m → P (set_random rng m)) →
  (∀ a m, P m → P (agent_step a m)) →
  P m → P (schedule_step m).
Proof.
  intros Hrng Hstep HP. unfold schedule_step.
  destruct (rng_shuffle _ _) as [order rng].
  generalize (Hrng m rng HP). generalize (set_random rng m). clear HP.
  induction order as [|uid order IH]; intros m1 HP; simpl; [done|].
  apply IH. by apply activate_ind.
Qed.

(** *** Publishing restock requests *)

Lemma enqueue_loop_ind P fallback items m m' :
  (∀ m isbn,
     P m → isbn ∉ pending_restocks m →
     P (set_pending_restocks ({[isbn]} ∪ pending_restocks m)
          (publish "restock" (restock_request isbn m) m))) →
  P m → enqueue_loop fallback items m = Some m' → P m'.
Proof.
  intros Hbody. revert m. induction items as [|[isbn item] items IH]; intros m HP; simpl.
  - by intros [= <-].
  - destruct (PyDict.get isbn (inventory_snapshots m)) as [s|]; [simpl|done].
    destruct (negb _ || bool_decide _) eqn:Hskip; [by apply IH|].
    apply IH. apply Hbody; [done|].
    apply orb_false_iff in Hskip as [_ Hp]. by apply bool_decide_eq_false in Hp.
Qed.

(** The loop writes the bus and the pending set only. *)
Definition enqueue_frame m m' : Prop :=
  same_control m m' ∧ inventory_snapshots m' = inventory_snapshots m ∧
  inventory_entities m' = inventory_entities m ∧ ontology m' = ontology m ∧
  purchase_log m' = purchase_log m ∧ order_counter m' = order_counter m ∧
  restock_log m' = restock_log m ∧ schedule m' = schedule m ∧ random m' = random m ∧
  MessageBus.queue "purchases" (message_bus m') =
    MessageBus.queue "purchases" (message_bus m).

Lemma enqueue_loop_frame fallback items m m' :
  enqueue_loop fallback items m = Some m' → enqueue_frame m m'.
Proof.
  apply (enqueue_loop_ind (enqueue_frame m)).
  - unfold enqueue_frame, same_control. intros m1 isbn Hf _. simpl.
    by rewrite MessageBusFacts.queue_publish_ne.
  - unfold enqueue_frame, same_control. by repeat split.
Qed.

(** The loop raises only on an entity whose isbn the ledger does not have. *)
Lemma enqueue_loop_total fallback items m :
  (∀ isbn, isbn ∈ PyDict.keys items → is_Some (PyDict.get isbn (inventory_snapshots m))) →
  is_Some (enqueue_loop fallback items m).
Proof.
  revert m. induction items as [|[isbn item] items IH]; intros m Hknown; simpl; [by eexists|].
  destruct (Hknown isbn) as [s Hs]; [unfold PyDict.keys; simpl; left|].
  rewrite Hs. simpl.
  assert (∀ k, k ∈ PyDict.keys items → is_Some (PyDict.get k (inventory_snapshots m))).
  { intros k Hk. apply Hknown. unfold PyDict.keys in *. simpl. by right. }
  case_match; by apply IH.
Qed.
End loops.

(** ** Invariants of the ledger *)

Section ledger.
Context `{Random} `{Owlready}.
Implicit Types (m : BookstoreModel).

(** A row is stored under its own isbn, and every cached inventory
    entity has a row: [self.inventory_snapshots[isbn]] cannot fail. *)
Definition ledger_wf m : Prop :=
  (∀ k s, (k, s) ∈ inventory_snapshots m → book_isbn s = k) ∧
  (∀ k, k ∈ PyDict.keys (inventory_entities m) →
        is_Some (PyDict.get k (inventory_snapshots m))).

(** The data-model invariant of a row. *)
Definition quantities_nonneg m : Prop :=
  ∀ k s, (k, s) ∈ inventory_snapshots m → 0 ≤ quantity s.

Lemma keys_set_elem {V} k k0 (v : V) d :
  k ∈ PyDict.keys (PyDict.set k0 v d) → k = k0 ∨ k ∈ PyDict.keys d.
Proof.
  intros Hin. destruct (decide (k = k0)) as [->|Hne]; [by left|]. right.
  apply PyDictFacts.get_is_Some_keys. apply PyDictFacts.get_is_Some_keys in Hin.
  by rewrite PyDictFacts.get_set_ne in Hin.
Qed.

(** The effect of a purchase or of a restock on the two dictionaries. *)
Definition row_updated m m' (book : string) (s : InventorySnapshot) (q : Z) : Prop :=
  PyDict.get book (inventory_snapshots m) = Some s ∧
  inventory_snapshots m' = PyDict.set book (with_quantity q s) (inventory_snapshots m) ∧
  inventory_entities m' =
    PyDict.set (book_isbn s) (book_isbn s)
      (PyDict.set (book_isbn s) (book_isbn s) (inventory_entities m)).

Lemma ledger_wf_row_updated m m' book s q :
  row_updated m m' book s q → ledger_wf m → ledger_wf m'.
Proof.
  intros (Hg & Hsnap & Hent) [Hkey Hknown].
  assert (book_isbn s = book) as Hb by (by apply Hkey, PyDictFacts.get_Some_elem_of).
  split.
  - intros k s' Hin. rewrite Hsnap in Hin.
    apply PyDictFacts.elem_of_set in Hin as [[-> ->] | Hin]; [done | by apply Hkey].
  - intros k Hin. rewrite Hent, Hb in Hin. rewrite Hsnap.
    apply PyDictFacts.get_set_is_Some.
    apply keys_set_elem in Hin as [-> | Hin]; [by eexists|].
    apply keys_set_elem in Hin as [-> | Hin]; [by eexists | by apply Hknown].
Qed.

Lemma quantities_nonneg_row_updated m m' book s q :
  row_updated m m' book s q → 0 ≤ q → quantities_nonneg m → quantities_nonneg m'.
Proof.
  intros (Hg & Hsnap & _) Hq Hnn k s' Hin. rewrite Hsnap in Hin.
  apply PyDictFacts.elem_of_set in Hin as [[-> ->] | Hin]; [done | by eapply Hnn].
Qed.

(** Operations that leave both dictionaries alone keep the invariants. *)
Lemma ledger_wf_same m m' :
  inventory_snapshots m' = inventory_snapshots m →
  inventory_entities m' = inventory_entities m → ledger_wf m → ledger_wf m'.
Proof. unfold ledger_wf. by intros -> ->. Qed.

Lemma quantities_nonneg_same m m' :
  inventory_snapshots m' = inventory_snapshots m → quantities_nonneg m → quantities_nonneg m'.
Proof. unfold quantities_nonneg. by intros ->. Qed.

(** *** The two mutations *)

Lemma restock_inventory_row book amount employee m s :
  PyDict.get book (inventory_snapshots m) = Some s →
  row_updated m (restock_inventory book amount employee m) book s
    (quantity s + Z.max amount 0).
Proof.
  intros Hg. destruct (restock_inventory_known book amount employee m s Hg) as (?&_&_&?).
  by repeat split.
Qed.

Lemma purchase_applies_get message m book customer s :
  purchase_applies message m = Some (book, customer, s) →
  PyDict.get book (inventory_snapshots m) = Some s ∧ 0 < quantity s.
Proof. unfold purchase_applies. intros. repeat case_match; simplify_eq. split; [done | lia]. Qed.

Lemma process_purchase_message_row message m book customer s :
  purchase_applies message m = Some (book, customer, s) →
  row_updated m (_process_purchase_message message m) book s (quantity s - 1).
Proof.
  intros Ha. destruct (process_purchase_message_apply message m _ _ _ Ha) as (?&_&_&?).
  apply purchase_applies_get in Ha as [? _]. by repeat split.
Qed.

Lemma restock_inventory_wf book amount employee m :
  ledger_wf m → ledger_wf (restock_inventory book amount employee m).
Proof.
  destruct (PyDict.get book (inventory_snapshots m)) as [s|] eqn:Hg.
  - eapply ledger_wf_row_updated. by apply restock_inventory_row.
  - by rewrite restock_inventory_unknown.
Qed.

Lemma restock_inventory_nonneg book amount employee m :
  quantities_nonneg m → quantities_nonneg (restock_inventory book amount employee m).
Proof.
  intros Hnn. destruct (PyDict.get book (inventory_snapshots m)) as [s|] eqn:Hg.
  - eapply quantities_nonneg_row_updated; [by apply restock_inventory_row| |done].
    apply PyDictFacts.get_Some_elem_of, Hnn in Hg. lia.
  - by rewrite restock_inventory_unknown.
Qed.

Lemma process_purchase_message_wf message m :
  ledger_wf m → ledger_wf (_process_purchase_message message m).
Proof.
  destruct (purchase_applies message m) as [[[book customer] s]|] eqn:Ha.
  - eapply ledger_wf_row_updated. by eapply process_purchase_message_row.
  - by rewrite process_purchase_message_skip.
Qed.

Lemma process_purchase_message_nonneg message m :
  quantities_nonneg m → quantities_nonneg (_process_purchase_message message m).
Proof.
  intros Hnn. destruct (purchase_applies message m) as [[[book customer] s]|] eqn:Ha.
  - eapply quantities_nonneg_row_updated; [by eapply process_purchase_message_row| |done].
    apply purchase_applies_get in Ha as [_ ?]. lia.
  - by rewrite process_purchase_message_skip.
Qed.

(** *** The phases of a tick *)

(** An invariant of the rows and of the cached entities that the two
    mutations keep is kept by every phase. *)
Definition ledger_property (P : BookstoreModel → Prop) : Prop :=
  (∀ m m', inventory_snapshots m' = inventory_snapshots m →
           inventory_entities m' = inventory_entities m → P m → P m') ∧
  (∀ book amount employee m, P m → P (restock_inventory book amount employee m)) ∧
  (∀ message m, P m → P (_process_purchase_message message m)).

Lemma ledger_wf_property : ledger_property ledger_wf.
Proof.
  split_and!; eauto using ledger_wf_same, restock_inventory_wf, process_purchase_message_wf.
Qed.

Lemma quantities_nonneg_property : ledger_property quantities_nonneg.
Proof.
  split_and!; eauto using restock_inventory_nonneg, process_purchase_message_nonneg.
  intros m m' Hs _. by apply quantities_nonneg_same.
Qed.

Lemma agent_step_ledger P a m : ledger_property P → P m → P (agent_step a m).
Proof.
  intros (Hsame & Hrestock & _) HP. destruct a as [uid isbn|uid policy budget|uid]; simpl.
  - done.
  - destruct (customer_step_frame uid policy budget m) as (_ & Hs & He & _).
    by apply (Hsame m).
  - unfold EmployeeAgent_step. apply employee_loop_ind; [|done].
    intros m1 message bus HP1 _. unfold EmployeeAgent_handle.
    destruct (book_id (payload message)); [apply Hrestock|]; by apply (Hsame m1).
Qed.

Lemma schedule_step_ledger P m : ledger_property P → P m → P (schedule_step m).
Proof.
  intros HP. apply schedule_step_ind.
  - intros m1 rng. by apply (proj1 HP m1).
  - intros a m1. by apply agent_step_ledger.
Qed.

Lemma process_purchase_events_ledger P m :
  ledger_property P → P m → P (_process_purchase_events m).
Proof.
  intros (Hsame & _ & Hpurchase). unfold _process_purchase_events.
  apply purchase_loop_ind. intros m1 message bus HP1 _.
  apply Hpurchase. by apply (Hsame m1).
Qed.

(** What a reasoner synchronisation leaves alone. *)
Definition sync_frame m m' : Prop :=
  config m' = config m ∧ customer_policy m' = customer_policy m ∧
  step_count m' = step_count m ∧ inventory_snapshots m' = inventory_snapshots m ∧
  inventory_entities m' = inventory_entities m ∧
  purchase_log m' = purchase_log m ∧ order_counter m' = order_counter m ∧
  restock_log m' = restock_log m ∧ schedule m' = schedule m ∧ random m' = random m ∧
  MessageBus.queue "purchases" (message_bus m') =
    MessageBus.queue "purchases" (message_bus m).

Lemma enqueue_sync_frame fallback m0 m m' :
  sync_frame m0 m →
  _enqueue_restock_requests_from_ontology fallback m = Some m' → sync_frame m0 m'.
Proof.
  intros Hf He. apply enqueue_loop_frame in He.
  unfold sync_frame, enqueue_frame, same_control in *. destruct_and!.
  repeat split; congruence.
Qed.

Lemma sync_reasoner_frame pellet force m m' :
  _sync_reasoner_if_needed pellet force m = Some m' → sync_frame m m'.
Proof.
  unfold _sync_reasoner_if_needed. repeat case_match; apply enqueue_sync_frame.
  all: unfold sync_frame, _log_reasoner_warning; try case_match; by repeat split.
Qed.

Lemma sync_reasoner_ledger P pellet force m m' :
  ledger_property P → _sync_reasoner_if_needed pellet force m = Some m' → P m → P m'.
Proof.
  intros (Hsame & _) Hs%sync_reasoner_frame. unfold sync_frame in Hs. destruct_and!.
  by apply (Hsame m).
Qed.

Lemma step_ledger P pellet m m' : ledger_property P → step pellet m = Some m' → P m → P m'.
Proof.
  intros HP Hstep HPm. unfold step in Hstep.
  eapply sync_reasoner_ledger; [done..|].
  apply process_purchase_events_ledger, schedule_step_ledger; [done..|].
  by apply (proj1 HP m).
Qed.

Lemma generate_report_ledger P pellet m r m' :
  ledger_property P → generate_report pellet m = Some (r, m') → P m → P m'.
Proof.
  intros HP Hrep. unfold generate_report in Hrep.
  destruct (_sync_reasoner_if_needed pellet true m) as [m1|] eqn:Hs; simplify_eq/=.
  by eapply sync_reasoner_ledger.
Qed.

(** *** No [KeyError] *)

Lemma sync_reasoner_total pellet force m :
  ledger_wf m → is_Some (_sync_reasoner_if_needed pellet force m).
Proof.
  intros [_ Hknown]. unfold _sync_reasoner_if_needed, _enqueue_restock_requests_from_ontology.
  repeat case_match; apply enqueue_loop_total; try done.
  unfold _log_reasoner_warning. by case_match.
Qed.

Lemma step_total pellet m : ledger_wf m → is_Some (step pellet m).
Proof.
  intros Hwf. unfold step. apply sync_reasoner_total.
  apply process_purchase_events_ledger, schedule_step_ledger;
    try apply ledger_wf_property.
  by apply (ledger_wf_same m).
Qed.

Lemma generate_report_total pellet m : ledger_wf m → is_Some (generate_report pellet m).
Proof.
  intros Hwf. unfold generate_report.
  destruct (sync_reasoner_total pellet true m Hwf) as [m' ->]. by eexists.
Qed.
End ledger.

(** ** What each phase of a tick leaves alone *)

Section phases.
Context `{Random} `{Owlready}.
Implicit Types (m : BookstoreModel).

(** Agent activation mints no order and writes no control attribute. *)
Definition activation_frame m m' : Prop :=
  same_control m m' ∧ purchase_log m' = purchase_log m ∧
  order_counter m' = order_counter m.

#[local] Instance activation_frame_refl : Reflexive activation_frame.
Proof. intros m. unfold activation_frame. eauto using same_control_refl. Qed.

#[local] Instance activation_frame_trans : Transitive activation_frame.
Proof.
  intros m1 m2 m3 (?&?&?) (?&?&?). unfold activation_frame.
  split; [by eapply same_control_trans|]. split; congruence.
Qed.

Lemma agent_step_frame a m : activation_frame m (agent_step a m).
Proof.
  destruct a as [uid isbn|uid policy budget|uid]; simpl.
  - done.
  - destruct (customer_step_frame uid policy budget m) as (?&_&_&_&_&?&?&_). by split.
  - unfold EmployeeAgent_step. apply employee_loop_rel; [apply _..|].
    intros m1 message bus _. unfold EmployeeAgent_handle.
    destruct (book_id (payload message)) as [book|]; [|by repeat split].
    destruct (restock_inventory_frame book
      (default (restock_amount (config (set_message_bus bus m1))) (amount (payload message)))
      (Some uid) (set_message_bus bus m1)) as (?&_&?&?&_).
    by split.
Qed.

Lemma schedule_step_frame m : activation_frame m (schedule_step m).
Proof.
  apply (schedule_step_ind (activation_frame m)); [| |done].
  - intros m1 rng Hf. etrans; [done|]. by repeat split.
  - intros a m1 Hf. etrans; [done|]. apply agent_step_frame.
Qed.

(** Purchase processing fulfils and requests no restock. *)
Definition purchases_frame m m' : Prop :=
  same_control m m' ∧ pending_restocks m' = pending_restocks m ∧
  restock_log m' = restock_log m ∧ schedule m' = schedule m ∧ random m' = random m ∧
  MessageBus.queue "restock" (message_bus m') = MessageBus.queue "restock" (message_bus m).

#[local] Instance purchases_frame_refl : Reflexive purchases_frame.
Proof. intros m. unfold purchases_frame. eauto 10 using same_control_refl. Qed.

#[local] Instance purchases_frame_trans : Transitive purchases_frame.
Proof.
  intros m1 m2 m3 (?&?&?&?&?&?) (?&?&?&?&?&?). unfold purchases_frame.
  split; [by eapply same_control_trans|]. repeat split; congruence.
Qed.

Lemma process_purchase_events_frame m : purchases_frame m (_process_purchase_events m).
Proof.
  unfold _process_purchase_events. apply purchase_loop_rel; [apply _..|].
  intros m1 message bus Hpoll.
  destruct (process_purchase_message_frame message (set_message_bus bus m1))
    as (Hc&?&Hbus&?&?&?).
  split; [exact Hc|]. repeat split; try done. rewrite Hbus. simpl.
  by eapply MessageBusFacts.poll_other.
Qed.

Lemma step_count_step pellet m m' : step pellet m = Some m' → step_count m' = step_count m + 1.
Proof.
  unfold step. intros Hs%sync_reasoner_frame. destruct Hs as (_&_&->&_).
  destruct (process_purchase_events_frame (schedule_step (set_step_count (step_count m + 1) m)))
    as ((_&_&->&_)&_).
  by destruct (schedule_step_frame (set_step_count (step_count m + 1) m)) as ((_&_&->&_)&_).
Qed.
End phases.

(** ** Calls of the service facade and reachable models *)

Inductive Call :=
  | Tick (pellet : Pellet)
  | ReportCall (pellet : Pellet)
  | SetInterval (interval : Z)
  | Reseed (seed : Z).

Section reachable.
Context `{Random} `{Owlready}.
Implicit Types (m : BookstoreModel).

(** A tick, a report, or one of the two overrides of [run_steps]. *)
Definition call (c : Call) m : option BookstoreModel :=
  match c with
  | Tick pellet => step pellet m
  | ReportCall pellet => snd <$> generate_report pellet m
  | SetInterval interval => Some (set_config (with_interval interval (config m)) m)
  | Reseed s => Some (set_random (rng_seed s) (set_config (with_seed s (config m)) m))
  end.

Fixpoint calls (cs : list Call) m : option BookstoreModel :=
  match cs with
  | [] => Some m
  | c :: cs' => m ← call c m; calls cs' m
  end.

Inductive reachable : BookstoreModel → Prop :=
  | reachable_init onto config policy imported entropy :
      reachable (BookstoreModel_init onto config policy imported entropy)
  | reachable_call c m m' : reachable m → call c m = Some m' → reachable m'.

Lemma reachable_calls cs m m' : reachable m → calls cs m = Some m' → reachable m'.
Proof.
  revert m. induction cs as [|c cs IH]; intros m Hr; simpl; [by intros [= <-]|].
  destruct (call c m) as [m1|] eqn:Hc; [simpl|done].
  apply IH. by eapply reachable_call.
Qed.

Lemma run_calls pellets m : run pellets m = calls (Tick <$> pellets) m.
Proof.
  revert m. induction pellets as [|p ps IH]; intros m; simpl; [done|].
  destruct (step p m); simpl; [apply IH | done].
Qed.

(** *** The model after construction *)

(** Loading the inventory and registering the agents assign the
    dictionaries, the caches, the ontology and the schedule only. *)
Definition construction_frame m m' : Prop :=
  same_control m m' ∧ message_bus m' = message_bus m ∧
  pending_restocks m' = pending_restocks m ∧ purchase_log m' = purchase_log m ∧
  restock_log m' = restock_log m ∧ order_counter m' = order_counter m ∧
  random m' = random m.

#[local] Instance construction_frame_refl : Reflexive construction_frame.
Proof. intros m. unfold construction_frame. eauto 10 using same_control_refl. Qed.

#[local] Instance construction_frame_trans : Transitive construction_frame.
Proof.
  intros m1 m2 m3 (?&?&?&?&?&?&?) (?&?&?&?&?&?&?). unfold construction_frame.
  split; [by eapply same_control_trans|]. repeat split; congruence.
Qed.

Lemma foldl_rel {A B} (R : relation A) `{!Reflexive R, !Transitive R}
    (f : A → B → A) (l : list B) (a : A) :
  (∀ a b, R a (f a b)) → R a (foldl f a l).
Proof.
  intros Hf. revert a. induction l as [|b l IH]; intros a; simpl; [done|].
  etrans; [apply Hf | apply IH].
Qed.

Lemma foldl_inv {A B} (P : A → Prop) (f : A → B → A) (l : list B) (a : A) :
  (∀ a b, P a → P (f a b)) → P a → P (foldl f a l).
Proof. intros Hf. revert a. induction l as [|b l IH]; intros a Ha; simpl; auto. Qed.

Lemma load_inventory_frame m : construction_frame m (_load_inventory_from_ontology m).
Proof.
  unfold _load_inventory_from_ontology. apply foldl_rel; [apply _..|].
  intros m1 [isbn book]. unfold _load_book, construction_frame, same_control.
  by destruct (ensure_inventory_for isbn (ontology m1)).
Qed.

Lemma register_agents_frame m : construction_frame m (_register_agents m).
Proof.
  unfold _register_agents. cbv zeta.
  match goal with |- construction_frame _ (foldl ?f (schedule_add ?e (?g (foldl ?h _ ?l)).2) ?k) =>
    assert (construction_frame m (foldl h m l)) as H1;
    [|assert (construction_frame (foldl h m l) (schedule_add e (g (foldl h m l)).2)) as H2;
      [|assert (construction_frame (schedule_add e (g (foldl h m l)).2)
                  (foldl f (schedule_add e (g (foldl h m l)).2) k)) as H3]]
  end.
  - apply (foldl_rel construction_frame). intros m1 s.
    by unfold construction_frame, same_control.
  - unfold construction_frame, same_control. frame.
  - apply (foldl_rel construction_frame). intros m1 idx.
    unfold _register_customer, construction_frame, same_control. frame.
  - etrans; [exact H1|]. etrans; [exact H2 | exact H3].
Qed.

Lemma init_frame onto cfg policy imported entropy :
  let m := BookstoreModel_init onto cfg policy imported entropy in
  message_bus m = ∅ ∧ pending_restocks m = ∅ ∧ purchase_log m = [] ∧
  restock_log m = [] ∧ order_counter m = 0 ∧ step_count m = 0 ∧
  _reasoner_available m = imported ∧ _reasoner_warning_emitted m = false ∧ log m = [] ∧
  config m = default load_config cfg.
Proof.
  intros m. unfold m, BookstoreModel_init.
  match goal with |- context [_register_agents (_load_inventory_from_ontology ?x)] =>
    pose proof (load_inventory_frame x) as Hl;
    pose proof (register_agents_frame (_load_inventory_from_ontology x)) as Hr
  end.
  destruct (transitivity Hl Hr) as ((?&?&?&?&?&?)&?&?&?&?&?&?).
  repeat split; (etrans; [eassumption | reflexivity]).
Qed.

Lemma load_inventory_wf m : ledger_wf m → ledger_wf (_load_inventory_from_ontology m).
Proof.
  unfold _load_inventory_from_ontology. apply foldl_inv.
  intros m1 [isbn book] [Hkey Hknown]. unfold _load_book.
  destruct (ensure_inventory_for isbn (ontology m1)) as [inventory o]. split; simpl.
  - intros k s Hin. apply PyDictFacts.elem_of_set in Hin as [[-> ->] | Hin]; [done|].
    by apply Hkey.
  - intros k Hin. apply keys_set_elem in Hin as [-> | Hin].
    + rewrite PyDictFacts.get_set_eq. by eexists.
    + apply PyDictFacts.get_set_is_Some. by apply Hknown.
Qed.

Lemma register_agents_ledger m :
  inventory_snapshots (_register_agents m) = inventory_snapshots m ∧
  inventory_entities (_register_agents m) = inventory_entities m.
Proof.
  set (R := λ m1 m2 : BookstoreModel,
         inventory_snapshots m2 = inventory_snapshots m1 ∧
         inventory_entities m2 = inventory_entities m1).
  assert (Reflexive R) as HRr by (by intros ?).
  assert (Transitive R) as HRt by (intros ??? [??] [??]; split; congruence).
  change (R m (_register_agents m)).
  unfold _register_agents. cbv zeta.
  match goal with |- R _ (foldl ?f (schedule_add ?e (?g (foldl ?h _ ?l)).2) ?k) =>
    assert (R m (foldl h m l)) as Hbooks;
    [|assert (R (foldl h m l) (schedule_add e (g (foldl h m l)).2)) as Hemp;
      [|assert (R (schedule_add e (g (foldl h m l)).2)
                  (foldl f (schedule_add e (g (foldl h m l)).2) k)) as Hcust]]
  end.
  - apply (foldl_rel R). by intros m1 s.
  - unfold R. frame.
  - apply (foldl_rel R). intros m1 idx. unfold R, _register_customer. frame.
  - etrans; [exact Hbooks|]. etrans; [exact Hemp | exact Hcust].
Qed.

Lemma init_wf onto config policy imported entropy :
  ledger_wf (BookstoreModel_init onto config policy imported entropy).
Proof.
  unfold BookstoreModel_init.
  match goal with |- ledger_wf (_register_agents ?x) =>
    destruct (register_agents_ledger x) as [Hs He]; apply (ledger_wf_same x); [done..|]
  end.
  apply load_inventory_wf. split; simpl.
  - by intros k s ?%elem_of_nil.
  - by intros k ?%elem_of_nil.
Qed.

(** *** Reachable models cannot raise *)

Lemma call_ledger P c m m' : ledger_property P → call c m = Some m' → P m → P m'.
Proof.
  intros HP Hc HPm. destruct c as [pellet|pellet|interval|s]; simpl in Hc.
  - by eapply step_ledger.
  - destruct (generate_report pellet m) as [[r m1]|] eqn:Hrep; simplify_eq/=.
    by eapply generate_report_ledger.
  - simplify_eq. by apply (proj1 HP m).
  - simplify_eq. by apply (proj1 HP m).
Qed.

Lemma reachable_wf m : reachable m → ledger_wf m.
Proof.
  induction 1 as [|c m m' _ IH Hc]; [apply init_wf|].
  eapply call_ledger; [apply ledger_wf_property|done..].
Qed.

Lemma call_total c m : ledger_wf m → is_Some (call c m).
Proof.
  intros Hwf. destruct c as [pellet|pellet|interval|s]; simpl; [| |by eexists..].
  - by apply step_total.
  - destruct (generate_report_total pellet m Hwf) as [[r m'] ->]. by eexists.
Qed.

Lemma calls_total cs m : ledger_wf m → is_Some (calls cs m).
Proof.
  revert m. induction cs as [|c cs IH]; intros m Hwf; simpl; [by eexists|].
  destruct (call_total c m Hwf) as [m1 Hc]. rewrite Hc. simpl.
  apply IH. eapply call_ledger; [apply ledger_wf_property|done..].
Qed.
End reachable.

(** ** A model to run: the sample store, greedy customers, a generator
    that always lets the customers in *)

Definition sample_random : Random := constant_random 0%float.

(** Owlready2 on a world without numbered individuals: [customer1]. *)
Definition sample_owlready : Owlready :=
  {| generated_name := λ class_name _, class_name +:+ "1" |}.
#[global] Existing Instance sample_owlready | 100.

Definition sample_model : @BookstoreModel sample_random :=
  @BookstoreModel_init sample_random sample_owlready sample_ontology None (Some GreedyPurchasePolicy) true ().

Definition sample_row (q : Z) : InventorySnapshot :=
  {| book_isbn := "A"; title := "Alpha"; quantity := q; price := 10%float;
     low_threshold := 5 |}.

Definition purchase_message (book customer : option string) : Message :=
  {| topic := "purchases";
     payload := {| book_id := book; customer_id := customer;
                   payload_price := Some 10%float; amount := None |} |}.

(** ** The ledger: purchases and restocks *)

Section ledger_claims.
Context `{Random} `{Owlready}.
Implicit Types (m : BookstoreModel).

Lemma set_same {V} k (v : V) d : PyDict.get k d = Some v → PyDict.set k v d = d.
Proof.
  unfold PyDict.get, PyDict.set. induction d as [|[k' v'] d IH]; [done|].
  destruct (decide (k = k')) as [->|]; [by intros [= ->]|].
  intros Hg. by rewrite IH.
Qed.

Lemma with_quantity_same s : with_quantity (quantity s) s = s.
Proof. by destruct s. Qed.

Lemma purchase_applies_spec message m isbn customer :
  book_id (payload message) = Some isbn → isbn ≠ "" →
  customer_id (payload message) = Some customer →
  purchase_applies message m =
    match PyDict.get isbn (inventory_snapshots m) with
    | Some s => if quantity s <=? 0 then None else Some (isbn, customer, s)
    | None => None
    end.
Proof. unfold purchase_applies. intros -> Hne ->. by destruct isbn. Qed.

(** C6.  A purchase message that names a book and a customer fails with
    no mutation when the book is not in the ledger or its row has no copy
    left; otherwise it takes exactly one copy from that row, keeps the
    rows and their order, leaves every other row as it was and appends
    one purchase record. *)
Theorem purchase_applies_or_fails (message : Message) m (isbn customer : string) :
  book_id (payload message) = Some isbn → isbn ≠ "" →
  customer_id (payload message) = Some customer →
  let m' := _process_purchase_message message m in
  (PyDict.get isbn (inventory_snapshots m) = None → m' = m) ∧
  (∀ s, PyDict.get isbn (inventory_snapshots m) = Some s → quantity s ≤ 0 → m' = m) ∧
  (∀ s, PyDict.get isbn (inventory_snapshots m) = Some s → 0 < quantity s →
     PyDict.get isbn (inventory_snapshots m') = Some (with_quantity (quantity s - 1) s) ∧
     PyDict.keys (inventory_snapshots m') = PyDict.keys (inventory_snapshots m) ∧
     (∀ k, k ≠ isbn →
        PyDict.get k (inventory_snapshots m') = PyDict.get k (inventory_snapshots m)) ∧
     ∃ record,
       purchase_log m' = purchase_log m ++ [record] ∧
       pr_book record = isbn ∧ pr_customer record = customer).
Proof.
  intros Hb Hne Hc m'. pose proof (purchase_applies_spec message m _ _ Hb Hne Hc) as Ha.
  split_and!.
  - intros Hg. rewrite Hg in Ha. by apply process_purchase_message_skip.
  - intros s Hg Hq. rewrite Hg in Ha. apply process_purchase_message_skip.
    rewrite Ha. by apply Z.leb_le in Hq as ->.
  - intros s Hg Hq. rewrite Hg in Ha.
    assert ((quantity s <=? 0) = false) as Hq' by lia. rewrite Hq' in Ha.
    destruct (process_purchase_message_apply message m _ _ _ Ha) as (Hs & _ & Hl & _).
    fold m' in Hs, Hl. rewrite Hs. split_and!.
    + apply PyDictFacts.get_set_eq.
    + apply PyDictFacts.keys_set_present. by eexists.
    + intros k Hk. by apply PyDictFacts.get_set_ne.
    + by eexists.
Qed.

(** C9.  For a book of the ledger, [restock_inventory] with an amount
    that is not positive leaves every row as it was, removes the isbn from
    the pending set and appends a restock event whose amount is 0; for a
    book the ledger does not have, it changes nothing at all. *)
Theorem restock_nonpositive_amount (book : string) (amount : Z)
    (employee : option string) m :
  let m' := restock_inventory book amount employee m in
  (∀ s, amount ≤ 0 → PyDict.get book (inventory_snapshots m) = Some s →
     inventory_snapshots m' = inventory_snapshots m ∧
     pending_restocks m' = pending_restocks m ∖ {[book]} ∧
     restock_log m' =
       restock_log m ++
         [{| ev_step := step_count m; ev_book_isbn := book; ev_amount := 0;
             ev_employee_id := employee |}]) ∧
  (PyDict.get book (inventory_snapshots m) = None → m' = m).
Proof.
  intros m'. split.
  - intros s Ha Hg.
    destruct (restock_inventory_known book amount employee m s Hg) as (Hs & Hp & Hl & _).
    fold m' in Hs, Hp, Hl. replace (Z.max amount 0) with 0 in * by lia.
    split_and!; [|done..].
    rewrite Hs, Z.add_0_r, with_quantity_same. by apply set_same.
  - by apply restock_inventory_unknown.
Qed.

(** C10.  A purchase message is dropped when its [book_id] is the empty
    string or when its [customer_id] is [None]: the loop only takes it off
    the queue.  A message whose [customer_id] is the empty string and whose
    book is in stock is applied: the row loses one copy and a purchase
    record for the customer [""] is appended. *)
Theorem purchase_validation_asymmetric (message : Message) m :
  let m' := _process_purchase_message message m in
  (book_id (payload message) = Some "" → m' = m) ∧
  (customer_id (payload message) = None → m' = m) ∧
  (book_id (payload message) = Some "" →
     MessageBus.queue "purchases" (message_bus m) = [message] →
     _process_purchase_events m =
       set_message_bus (<["purchases" := []]> (message_bus m)) m) ∧
  (∀ isbn s,
     customer_id (payload message) = Some "" →
     book_id (payload message) = Some isbn → isbn ≠ "" →
     PyDict.get isbn (inventory_snapshots m) = Some s → 0 < quantity s →
     PyDict.get isbn (inventory_snapshots m') = Some (with_quantity (quantity s - 1) s) ∧
     purchase_log m' =
       purchase_log m ++
         [{| pr_order := order_name (order_counter m); pr_customer := "";
             pr_book := isbn;
             pr_price := default 0%float (payload_price (payload message));
             pr_step := step_count m |}]).
Proof.
  intros m'.
  assert (∀ m1, book_id (payload message) = Some "" →
                _process_purchase_message message m1 = m1) as Hempty.
  { intros m1 Hb. apply process_purchase_message_skip. unfold purchase_applies.
    by rewrite Hb. }
  split_and!.
  - apply Hempty.
  - intros Hc. apply process_purchase_message_skip. unfold purchase_applies.
    rewrite Hc. by repeat case_match.
  - intros Hb Hq. unfold _process_purchase_events. rewrite Hq. simpl.
    rewrite (MessageBusFacts.poll_cons _ _ _ _ Hq), Hempty by done. done.
  - intros isbn s Hc Hb Hne Hg Hq.
    pose proof (purchase_applies_spec message m _ _ Hb Hne Hc) as Ha. rewrite Hg in Ha.
    assert ((quantity s <=? 0) = false) as Hq' by lia. rewrite Hq' in Ha.
    destruct (process_purchase_message_apply message m _ _ _ Ha) as (Hs & _ & Hl & _).
    fold m' in Hs, Hl. rewrite Hs. split; [apply PyDictFacts.get_set_eq | done].
Qed.

(** *** Quantities stay non-negative *)

(** The ledger mutations in any interleaving: a purchase message applied,
    a restock applied, or a whole call of the facade. *)
Inductive LedgerOp :=
  | ApplyPurchase (message : Message)
  | ApplyRestock (book : string) (amount : Z) (employee : option string)
  | FacadeCall (c : Call).

Definition apply_op (op : LedgerOp) m : option BookstoreModel :=
  match op with
  | ApplyPurchase message => Some (_process_purchase_message message m)
  | ApplyRestock book amount employee => Some (restock_inventory book amount employee m)
  | FacadeCall c => call c m
  end.

Fixpoint apply_ops (ops : list LedgerOp) m : option BookstoreModel :=
  match ops with
  | [] => Some m
  | op :: ops' => m ← apply_op op m; apply_ops ops' m
  end.

(** The store holds no negative quantity. *)
Definition stock_nonneg (o : Ontology) : Prop :=
  ∀ isbn inventory, PyDict.get isbn (onto_Inventory o) = Some inventory →
                    0 ≤ first_or 0 (AvailableQuantity inventory).

Lemma load_inventory_nonneg m :
  stock_nonneg (ontology m) → quantities_nonneg m →
  quantities_nonneg (_load_inventory_from_ontology m).
Proof.
  intros Ho Hq. unfold _load_inventory_from_ontology.
  cut (stock_nonneg (ontology (foldl (λ m '(isbn, book), _load_book isbn book m) m
                                 (onto_Book (ontology m)))) ∧
       quantities_nonneg (foldl (λ m '(isbn, book), _load_book isbn book m) m
                            (onto_Book (ontology m)))); [by intros [_ ?]|].
  apply (foldl_inv (λ m, stock_nonneg (ontology m) ∧ quantities_nonneg m)); [|done].
  clear. intros m [isbn book] [Ho Hq]. unfold _load_book, ensure_inventory_for, individual.
  unfold stock_nonneg, quantities_nonneg in *.
  destruct (PyDict.get isbn (onto_Inventory (ontology m))) as [inventory|] eqn:Hg; simpl.
  - split.
    + intros k inv. destruct (decide (isbn = k)) as [->|Hne].
      * rewrite PyDictFacts.get_set_eq. intros [= <-]. simpl. by eapply Ho.
      * rewrite PyDictFacts.get_set_ne by done. apply Ho.
    + intros k s Hin. apply PyDictFacts.elem_of_set in Hin as [[-> ->] | Hin].
      * simpl. by eapply Ho.
      * by eapply Hq.
  - split.
    + intros k inv. destruct (decide (isbn = k)) as [->|Hne].
      * rewrite PyDictFacts.get_set_eq. by intros [= <-].
      * rewrite !PyDictFacts.get_set_ne by done. apply Ho.
    + intros k s Hin. apply PyDictFacts.elem_of_set in Hin as [[-> ->] | Hin]; [done|].
      by eapply Hq.
Qed.

Lemma init_nonneg onto cfg policy imported entropy :
  stock_nonneg onto →
  quantities_nonneg (BookstoreModel_init onto cfg policy imported entropy).
Proof.
  intros Ho. unfold BookstoreModel_init.
  match goal with |- quantities_nonneg (_register_agents ?x) =>
    destruct (register_agents_ledger x) as [Hs _]; apply (quantities_nonneg_same x); [done|]
  end.
  apply load_inventory_nonneg; [done|]. by intros k s ?%elem_of_nil.
Qed.

(** C5.  A model built on a store without negative quantities has none,
    and whatever ticks, reports, purchase applications and restock
    applications follow, in any order, no row of the ledger ever holds a
    negative quantity. *)
Theorem quantity_never_negative :
  (∀ onto cfg policy imported entropy,
     stock_nonneg onto →
     quantities_nonneg (BookstoreModel_init onto cfg policy imported entropy)) ∧
  (∀ ops m m', quantities_nonneg m → apply_ops ops m = Some m' → quantities_nonneg m').
Proof.
  split; [apply init_nonneg|].
  induction ops as [|op ops IH]; intros m m' Hq; simpl; [by intros [= <-]|].
  destruct (apply_op op m) as [m1|] eqn:Hop; [simpl|done].
  apply IH. destruct op as [message|book amount employee|c]; simpl in Hop; simplify_eq.
  - by apply process_purchase_message_nonneg.
  - by apply restock_inventory_nonneg.
  - eapply call_ledger; [apply quantities_nonneg_property|done..].
Qed.
End ledger_claims.

(** The sample model: a purchase of the in-stock book. *)
Lemma purchase_applies_or_fails_witness :
  PyDict.get "A"
    (inventory_snapshots
       (_process_purchase_message (purchase_message (Some "A") (Some "customer::0"))
          sample_model)) =
    Some (sample_row 2).
Proof.
  destruct (purchase_applies_or_fails (purchase_message (Some "A") (Some "customer::0"))
              sample_model "A" "customer::0") as (_ & _ & Happly); [done..|].
  destruct (Happly (sample_row 3)) as (Hrow & _); [done | done | exact Hrow].
Defined.

(** The sample model: a restock of amount [-4]. *)
Lemma restock_nonpositive_amount_witness :
  restock_log (restock_inventory "A" (-4) (Some "employee::0") sample_model) =
    [{| ev_step := 0; ev_book_isbn := "A"; ev_amount := 0;
        ev_employee_id := Some "employee::0" |}].
Proof.
  destruct (restock_nonpositive_amount "A" (-4) (Some "employee::0") sample_model)
    as (Hknown & _).
  destruct (Hknown (sample_row 3)) as (_ & _ & Hlog); [done | done | exact Hlog].
Defined.

(** The sample model: a purchase by the customer [""]. *)
Lemma purchase_validation_asymmetric_witness :
  pr_customer <$>
    purchase_log (_process_purchase_message (purchase_message (Some "A") (Some ""))
                    sample_model) = [""].
Proof.
  destruct (purchase_validation_asymmetric (purchase_message (Some "A") (Some ""))
              sample_model) as (_ & _ & _ & Happly).
  destruct (Happly "A" (sample_row 3)) as (_ & Hlog); [done..|].
  by rewrite Hlog.
Defined.

(** The sample model after two ticks, the second with a failing reasoner,
    and a direct restock. *)
Definition sample_ops : list (@LedgerOp) :=
  [FacadeCall (Tick pellet_idle); FacadeCall (Tick pellet_down); ApplyRestock "A" (-1) None].

Lemma sample_model_rows : inventory_snapshots sample_model = [("A", sample_row 3)].
Proof. vm_compute. reflexivity. Qed.

Lemma quantity_never_negative_witness :
  from_option quantities_nonneg False (apply_ops sample_ops sample_model).
Proof.
  assert (∃ m', apply_ops sample_ops sample_model = Some m') as [m' Hrun]
    by (vm_compute; eexists; reflexivity).
  rewrite Hrun. simpl.
  apply (proj2 (@quantity_never_negative sample_random sample_owlready) sample_ops sample_model m'); [|done].
  clear Hrun. intros k s Hin. rewrite sample_model_rows in Hin.
  apply list_elem_of_singleton in Hin. injection Hin as -> ->. simpl. lia.
Defined.

(** ** Order ids *)

Section orders.
Context `{Random} `{Owlready}.
Implicit Types (m : BookstoreModel).

(** The purchase log of a model holds the ids [order_0], [order_1], ...
    in this order, up to the order counter. *)
Definition orders_ok m : Prop :=
  0 ≤ order_counter m ∧
  pr_order <$> purchase_log m = order_name <$> seqZ 0 (order_counter m).

Lemma orders_ok_same m m' :
  purchase_log m' = purchase_log m → order_counter m' = order_counter m →
  orders_ok m → orders_ok m'.
Proof. unfold orders_ok. by intros -> ->. Qed.

Lemma process_purchase_message_orders message m :
  orders_ok m → orders_ok (_process_purchase_message message m).
Proof.
  intros [Hc Hl]. destruct (purchase_applies message m) as [[[book customer] s]|] eqn:Ha.
  - destruct (process_purchase_message_apply message m _ _ _ Ha) as (_ & Hc' & Hl' & _).
    split; [lia|]. rewrite Hc', Hl', fmap_app, Hl, seqZ_app, fmap_app by lia.
    by f_equal.
  - by rewrite process_purchase_message_skip.
Qed.

Lemma call_orders c m m' : call c m = Some m' → orders_ok m → orders_ok m'.
Proof.
  intros Hc Hok. destruct c as [pellet|pellet|interval|s]; simpl in Hc.
  - unfold step in Hc. apply sync_reasoner_frame in Hc as (_&_&_&_&_&Hl&Ho&_).
    eapply orders_ok_same; [done..|].
    unfold _process_purchase_events. apply purchase_loop_ind.
    { intros m1 message bus Hok1 _. apply process_purchase_message_orders.
      by apply (orders_ok_same m1). }
    destruct (schedule_step_frame (set_step_count (step_count m + 1) m)) as (_&Hl'&Ho').
    by eapply orders_ok_same.
  - destruct (generate_report pellet m) as [[r m1]|] eqn:Hrep; simplify_eq/=.
    unfold generate_report in Hrep.
    destruct (_sync_reasoner_if_needed pellet true m) as [m1|] eqn:Hs; simplify_eq/=.
    apply sync_reasoner_frame in Hs as (_&_&_&_&_&Hl&Ho&_). by eapply orders_ok_same.
  - simplify_eq. by apply (orders_ok_same m).
  - simplify_eq. by apply (orders_ok_same m).
Qed.

Lemma reachable_orders m : reachable m → orders_ok m.
Proof.
  induction 1 as [onto cfg policy imported entropy|c m m' _ IH Hc].
  - pose proof (init_frame onto cfg policy imported entropy) as Hf.
    revert Hf. generalize (BookstoreModel_init onto cfg policy imported entropy).
    intros m0 (_&_&Hl&_&Ho&_). unfold orders_ok. by rewrite Hl, Ho.
  - by eapply call_orders.
Qed.

(** The model that [_create_model] builds is a reachable one. *)
Lemma with_seed_same s c : random_seed c = Some s → with_seed s c = c.
Proof. destruct c. simpl. by intros ->. Qed.

Lemma set_config_same m : set_config (config m) m = m.
Proof. by destruct m. Qed.

Lemma create_model_reachable onto cfg imported entropy :
  reachable (_create_model onto cfg imported entropy).
Proof.
  unfold _create_model. destruct (random_seed cfg) as [s|] eqn:Hs; [|apply reachable_init].
  apply (reachable_call (Reseed s)
           (BookstoreModel_init onto (Some cfg) None imported entropy));
    [apply reachable_init|]. unfold call.
  pose proof (init_frame onto (Some cfg) None imported entropy) as Hf.
  revert Hf. generalize (BookstoreModel_init onto (Some cfg) None imported entropy).
  intros m0 (_&_&_&_&_&_&_&_&_&Hc).
  change (default load_config (Some cfg)) with cfg in Hc.
  do 2 f_equal. subst cfg. rewrite with_seed_same by done.
  apply set_config_same.
Qed.

Lemma create_model_fresh onto cfg imported entropy :
  order_counter (_create_model onto cfg imported entropy) = 0 ∧
  purchase_log (_create_model onto cfg imported entropy) = [] ∧
  step_count (_create_model onto cfg imported entropy) = 0.
Proof.
  pose proof (init_frame onto (Some cfg) None imported entropy) as Hf.
  unfold _create_model.
  revert Hf. generalize (BookstoreModel_init onto (Some cfg) None imported entropy).
  intros m0 (_&_&Hl&_&Ho&Hs&_). destruct (random_seed cfg); auto.
Qed.

(** X22.  Within one model order ids are never reused.  In every model
    reachable from its construction by ticks, reports and overrides, the
    record at position [i] of the purchase log carries the id [order_i]:
    the ids grow strictly along the log and no two records share one. *)
Theorem order_ids_increase_within_a_model m (i j : nat) (ri rj : PurchaseRecord) :
  reachable m → (i < j)%nat →
  purchase_log m !! i = Some ri → purchase_log m !! j = Some rj →
  pr_order ri = order_name (Z.of_nat i) ∧ pr_order rj = order_name (Z.of_nat j) ∧
  pr_order ri ≠ pr_order rj.
Proof.
  intros [Hc Hl]%reachable_orders.
  assert (∀ i r, purchase_log m !! i = Some r → pr_order r = order_name (Z.of_nat i))
    as Hid.
  { intros k r Hi.
    assert ((pr_order <$> purchase_log m) !! k = Some (pr_order r)) as Hi'
      by (by rewrite list_lookup_fmap, Hi).
    rewrite Hl, list_lookup_fmap in Hi'.
    destruct (seqZ 0 (order_counter m) !! k) as [n|] eqn:Hk; simplify_eq/=.
    apply lookup_seqZ in Hk as [-> _]. by rewrite Z.add_0_l in Hi'. }
  intros Hij Hi Hj. rewrite (Hid i ri Hi), (Hid j rj Hj).
  split_and!; [done..|]. unfold order_name. intros Heq.
  apply (inj (String.app "order_")) in Heq. apply (inj pretty) in Heq. lia.
Qed.

(** What [reset] does to the order counter: the new model starts from 0
    whatever the store holds; no code reads the persisted orders. *)
Lemma reset_restarts_order_counter imported entropy (mgr : SimulationManager) :
  let mgr' := (reset imported entropy mgr).2 in
  order_counter (model mgr') = 0 ∧ purchase_log (model mgr') = [] ∧
  reachable (model mgr').
Proof.
  unfold reset.
  destruct (_seed_customers_if_missing _ _ _) as [onto file]. simpl.
  destruct (create_model_fresh onto (config (model mgr)) imported entropy) as (?&?&_).
  split_and!; [done..|]. apply create_model_reachable.
Qed.

(** What a report leaves alone. *)
Lemma generate_report_frame pellet m r m' :
  generate_report pellet m = Some (r, m') →
  inventory_snapshots m' = inventory_snapshots m ∧ purchase_log m' = purchase_log m ∧
  restock_log m' = restock_log m ∧ step_count m' = step_count m.
Proof.
  unfold generate_report. intros Hrep.
  destruct (_sync_reasoner_if_needed pellet true m) as [m1|] eqn:Hs; simplify_eq/=.
  by apply sync_reasoner_frame in Hs as (_&_&?&?&_&?&_&?&_).
Qed.
End orders.

(** The sample store behind the facade, with the default configuration. *)
Definition sample_manager : @SimulationManager sample_random :=
  {| storage := Some sample_ontology; customer_seed_data := [];
     model := @_create_model sample_random sample_owlready sample_ontology load_config true () |}.

(** One tick, a reset, one more tick. *)
Definition first_batch : option (@SimulationManager sample_random) :=
  snd <$> @run_steps sample_random sample_owlready 1 None None (λ _, pellet_idle) sample_manager.
Definition after_reset : option (@SimulationManager sample_random) :=
  (λ mgr, (@reset sample_random sample_owlready true () mgr).2) <$> first_batch.
Definition second_batch : option (@SimulationManager sample_random) :=
  mgr ← after_reset; snd <$> @run_steps sample_random sample_owlready 1 None None (λ _, pellet_idle) mgr.

Definition order_ids (mgr : @SimulationManager sample_random) : list string :=
  pr_order <$> purchase_log (model mgr).
Definition persisted_orders (mgr : @SimulationManager sample_random) : option nat :=
  (λ o, length (onto_Order o)) <$> storage mgr.

(** The order individuals of the store the facade will save. *)
Definition stored_orders (mgr : @SimulationManager sample_random) : list string :=
  PyDict.keys (onto_Order (ontology (model mgr))).

(** C1.  The code mints [order_<counter>] and creates or fetches the
    [Order] individual of that name, the counter starting from 0 in every new
    model.  On the sample store one tick mints [order_0] and [order_1] and
    two order individuals are saved.  After a reset the counter is 0, not 2:
    the next purchase is given the id [order_0] again, and it is written
    over the saved individual [order_0], so that three purchases have left
    two order individuals. *)
Lemma order_ids_reused_after_reset :
  order_ids <$> first_batch = Some ["order_0"; "order_1"] ∧
  first_batch ≫= persisted_orders = Some 2%nat ∧
  (λ mgr, order_counter (model mgr)) <$> after_reset = Some 0 ∧
  stored_orders <$> after_reset = Some ["order_0"; "order_1"] ∧
  order_ids <$> second_batch = Some ["order_0"] ∧
  stored_orders <$> second_batch = Some ["order_0"; "order_1"] ∧
  second_batch ≫= persisted_orders = Some 2%nat.
Proof. vm_compute. done. Qed.

(** The sample model after its first tick: two purchases, [order_0] and
    [order_1]. *)
Lemma order_ids_increase_within_a_model_witness :
  ∃ m1 r0 r1,
    step pellet_idle sample_model = Some m1 ∧
    purchase_log m1 !! 0%nat = Some r0 ∧ purchase_log m1 !! 1%nat = Some r1 ∧
    pr_order r0 = "order_0" ∧ pr_order r1 = "order_1" ∧ pr_order r0 ≠ pr_order r1.
Proof.
  assert (∃ m1 r0 r1, step pellet_idle sample_model = Some m1 ∧
                      purchase_log m1 !! 0%nat = Some r0 ∧
                      purchase_log m1 !! 1%nat = Some r1)
    as (m1 & r0 & r1 & Hstep & H0 & H1)
    by (vm_compute; eexists _, _, _; split_and!; reflexivity).
  exists m1, r0, r1.
  destruct (@order_ids_increase_within_a_model sample_random sample_owlready m1 0 1 r0 r1)
    as (Hi & Hj & Hne); [|lia|done..|by split_and!].
  apply (reachable_call (Tick pellet_idle) sample_model); [apply reachable_init | exact Hstep].
Defined.

(** C8.  A report never changes a row of the ledger, the purchase log, the
    restock log or the tick count; but it is not read-only: on the sample
    model, fresh from construction, it publishes a restock request for [A]
    and puts [A] in the pending set, and the next tick then fulfils a
    restock that it would not have fulfilled otherwise. *)
Theorem report_publishes_but_keeps_ledger :
  (∀ (R : Random) (pellet : Pellet) (m : @BookstoreModel R) r m',
     generate_report pellet m = Some (r, m') →
     inventory_snapshots m' = inventory_snapshots m ∧ purchase_log m' = purchase_log m ∧
     restock_log m' = restock_log m ∧ step_count m' = step_count m) ∧
  reachable sample_model ∧
  ∃ r m',
    generate_report pellet_idle sample_model = Some (r, m') ∧
    MessageBus.queue "restock" (message_bus sample_model) = [] ∧
    MessageBus.queue "restock" (message_bus m') =
      [{| topic := "restock"; payload := restock_request "A" sample_model |}] ∧
    pending_restocks sample_model = ∅ ∧ pending_restocks m' = {["A"]} ∧
    restock_log <$> step pellet_idle sample_model = Some [] ∧
    restock_log <$> step pellet_idle m' =
      Some [{| ev_step := 1; ev_book_isbn := "A"; ev_amount := 10;
               ev_employee_id := Some "employee::0" |}].
Proof.
  split_and!.
  - intros R pellet m r m'. apply generate_report_frame.
  - apply reachable_init.
  - assert (∃ x, generate_report pellet_idle sample_model = Some x) as [[r m'] Hrep]
      by (vm_compute; eexists; reflexivity).
    exists r, m'. split; [done|].
    assert (Some m' = snd <$> generate_report pellet_idle sample_model) as Hm
      by (by rewrite Hrep).
    clear Hrep. vm_compute in Hm. injection Hm as ->. vm_compute. done.
Qed.

(** The sample model: a report keeps the rows. *)
Lemma report_publishes_but_keeps_ledger_witness :
  (λ x, inventory_snapshots x.2) <$> generate_report pellet_idle sample_model =
    Some (inventory_snapshots sample_model).
Proof.
  assert (∃ x, generate_report pellet_idle sample_model = Some x) as [[r m'] Hrep]
    by (vm_compute; eexists; reflexivity).
  destruct (proj1 report_publishes_but_keeps_ledger sample_random pellet_idle
              sample_model r m' Hrep) as (Hs & _).
  rewrite Hrep. clear Hrep.
  change (Some (inventory_snapshots m') = Some (inventory_snapshots sample_model)).
  rewrite Hs. reflexivity.
Defined.

(** ** Restock requests: publication, deduplication, fulfilment *)

Section restock.
Context `{Random} `{Owlready}.
Implicit Types (m : BookstoreModel).

(** The isbns of the requests waiting on the [restock] topic, oldest first. *)
Definition requested m : list string :=
  omap (λ message, book_id (payload message)) (MessageBus.queue "restock" (message_bus m)).

(** The number of published and not yet fulfilled requests for [isbn]. *)
Definition outstanding (isbn : string) m : nat :=
  length (filter (λ k, k = isbn) (requested m)).

(** The deduplication contract. *)
Definition dedup_inv m : Prop :=
  NoDup (requested m) ∧ ∀ isbn, isbn ∈ requested m → isbn ∈ pending_restocks m.

Lemma filter_eq_nil (x : string) (l : list string) : x ∉ l → filter (λ k, k = x) l = [].
Proof.
  induction l as [|y l IH]; [done|]. rewrite not_elem_of_cons. intros [Hne Hnin].
  rewrite filter_cons_False by done. by apply IH.
Qed.

Lemma NoDup_filter_eq_length (x : string) (l : list string) :
  NoDup l → (length (filter (λ k, k = x) l) ≤ 1)%nat.
Proof.
  induction 1 as [|y l Hnin Hnd IH]; [simpl; lia|].
  destruct (decide (y = x)) as [->|Hne].
  - rewrite filter_cons_True by done. rewrite filter_eq_nil by done. simpl. lia.
  - by rewrite filter_cons_False.
Qed.

Lemma dedup_inv_outstanding isbn m : dedup_inv m → (outstanding isbn m ≤ 1)%nat.
Proof. intros [Hnd _]. by apply NoDup_filter_eq_length. Qed.

Lemma dedup_inv_same m m' :
  MessageBus.queue "restock" (message_bus m') = MessageBus.queue "restock" (message_bus m) →
  pending_restocks m' = pending_restocks m → dedup_inv m → dedup_inv m'.
Proof. unfold dedup_inv, requested. by intros -> ->. Qed.

Lemma dedup_inv_drained m :
  MessageBus.queue "restock" (message_bus m) = [] → dedup_inv m.
Proof.
  unfold dedup_inv, requested. intros ->. simpl. split; [constructor|].
  by intros isbn ?%elem_of_nil.
Qed.

Lemma requested_publish isbn m :
  requested (publish "restock" (restock_request isbn m) m) = requested m ++ [isbn].
Proof.
  unfold requested, publish. simpl.
  by rewrite MessageBusFacts.queue_publish_eq, omap_app.
Qed.

Lemma requested_enqueued isbn pending m :
  requested (set_pending_restocks pending (publish "restock" (restock_request isbn m) m)) =
  requested m ++ [isbn].
Proof. apply requested_publish. Qed.

(** *** The phases keep the contract *)

Lemma agent_step_dedup a m : dedup_inv m → dedup_inv (agent_step a m).
Proof.
  intros Hinv. destruct a as [uid isbn|uid policy budget|uid]; simpl.
  - done.
  - destruct (customer_step_frame uid policy budget m) as (_&_&_&Hp&_&_&_&_&Hq).
    by apply (dedup_inv_same m).
  - apply dedup_inv_drained, employee_step_drained.
Qed.

Lemma schedule_step_dedup m : dedup_inv m → dedup_inv (schedule_step m).
Proof.
  apply schedule_step_ind.
  - intros m1 rng. by apply dedup_inv_same.
  - intros a m1. apply agent_step_dedup.
Qed.

Lemma enqueue_loop_dedup fallback items m m' :
  enqueue_loop fallback items m = Some m' → dedup_inv m → dedup_inv m'.
Proof.
  intros He Hinv. revert He. apply enqueue_loop_ind; [|done].
  clear. intros m isbn [Hnd Hsub] Hnew. split.
  - rewrite requested_enqueued. apply NoDup_app.
    split_and!; [done| |apply NoDup_singleton].
    intros k Hk ->%list_elem_of_singleton. by apply Hnew, Hsub.
  - intros k. rewrite requested_enqueued. simpl.
    rewrite elem_of_app, list_elem_of_singleton, elem_of_union, elem_of_singleton.
    intros [Hk | ->]; [right; by apply Hsub | by left].
Qed.

Lemma sync_reasoner_dedup pellet force m m' :
  _sync_reasoner_if_needed pellet force m = Some m' → dedup_inv m → dedup_inv m'.
Proof.
  unfold _sync_reasoner_if_needed, _enqueue_restock_requests_from_ontology.
  intros Hs Hinv. repeat case_match; (eapply enqueue_loop_dedup; [exact Hs|]);
    try done; try by apply (dedup_inv_same m).
  unfold _log_reasoner_warning. case_match; [done | by apply (dedup_inv_same m)].
Qed.

Lemma call_dedup c m m' : call c m = Some m' → dedup_inv m → dedup_inv m'.
Proof.
  intros Hc Hinv. destruct c as [pellet|pellet|interval|s]; simpl in Hc.
  - unfold step in Hc. eapply sync_reasoner_dedup; [exact Hc|].
    match goal with |- dedup_inv (_process_purchase_events ?x) =>
      destruct (process_purchase_events_frame x) as (_&Hp&_&_&_&Hq);
      apply (dedup_inv_same x); [done..|]
    end.
    apply schedule_step_dedup. by apply (dedup_inv_same m).
  - destruct (generate_report pellet m) as [[r m1]|] eqn:Hrep; simplify_eq/=.
    unfold generate_report in Hrep.
    destruct (_sync_reasoner_if_needed pellet true m) as [m1|] eqn:Hs; simplify_eq/=.
    by eapply sync_reasoner_dedup.
  - simplify_eq. by apply (dedup_inv_same m).
  - simplify_eq. by apply (dedup_inv_same m).
Qed.

Lemma reachable_dedup m : reachable m → dedup_inv m.
Proof.
  induction 1 as [onto cfg policy imported entropy|c m m' _ IH Hc].
  - pose proof (init_frame onto cfg policy imported entropy) as Hf.
    revert Hf. generalize (BookstoreModel_init onto cfg policy imported entropy).
    intros m0 (Hbus&_). apply dedup_inv_drained. by rewrite Hbus.
  - by eapply call_dedup.
Qed.

(** *** What the restock pass publishes *)

(** The restock flag of a row, as the pass reads it: the procedural check
    in fallback mode, the [NeedsRestock] value of the store otherwise. *)
Definition flagged (fallback : bool) m (item : string) (s : InventorySnapshot) : bool :=
  if fallback then quantity s <? low_threshold s
  else first_or false (NeedsRestock (inventory_ind item (ontology m))).

Definition request_message m (isbn : string) : Message :=
  {| topic := "restock"; payload := restock_request isbn m |}.

(** The requests of one pass: [new] lists their isbns in publication order. *)
Definition published (fallback : bool) (items : list (string * string)) m m'
    (new : list string) : Prop :=
  MessageBus.queue "restock" (message_bus m') =
    MessageBus.queue "restock" (message_bus m) ++ (request_message m <$> new) ∧
  pending_restocks m' = pending_restocks m ∪ list_to_set new ∧
  NoDup new ∧
  ∀ isbn, isbn ∈ new →
    isbn ∉ pending_restocks m ∧
    ∃ item s, (isbn, item) ∈ items ∧
              PyDict.get isbn (inventory_snapshots m) = Some s ∧
              flagged fallback m item s = true.

Lemma enqueue_loop_published fallback items m m' :
  enqueue_loop fallback items m = Some m' → ∃ new, published fallback items m m' new.
Proof.
  revert m. induction items as [|[isbn item] items IH]; intros m; simpl.
  - intros [= <-]. exists []. unfold published. simpl.
    rewrite app_nil_r, union_empty_r_L. split_and!; [done..|constructor|].
    by intros isbn ?%elem_of_nil.
  - destruct (PyDict.get isbn (inventory_snapshots m)) as [s|] eqn:Hg; [simpl|done].
    fold (flagged fallback m item s).
    destruct (negb (flagged fallback m item s) || bool_decide (isbn ∈ pending_restocks m))
      eqn:Hskip.
    + intros (new & Hq & Hp & Hnd & Hnew)%IH. exists new. split_and!; [done..|].
      intros k Hk. destruct (Hnew k Hk) as (? & item' & s' & ? & ? & ?).
      split; [done|]. exists item', s'. split_and!; [by right|done..].
    + apply orb_false_iff in Hskip as [Hflag Hpend].
      apply negb_false_iff in Hflag. apply bool_decide_eq_false in Hpend.
      intros (new & Hq & Hp & Hnd & Hnew)%IH. simpl in Hq, Hp, Hnew.
      exists (isbn :: new). split_and!.
      * rewrite Hq, MessageBusFacts.queue_publish_eq. simpl. by rewrite <- app_assoc.
      * rewrite Hp. simpl. set_solver.
      * constructor; [|done]. intros Hin. destruct (Hnew isbn Hin) as [Hn _].
        apply Hn. set_solver.
      * intros k [-> | Hk]%elem_of_cons.
        { split; [done|]. exists item, s. split_and!; [by left|done..]. }
        destruct (Hnew k Hk) as (Hn & item' & s' & ? & ? & ?).
        split; [set_solver|]. exists item', s'. split_and!; [by right|done..].
Qed.

(** *** What the agents fulfil *)

(** From [m0] to [m] the agents have fulfilled requests that were waiting
    in [m0], each with an event of the current tick, and nothing else has
    touched the restock log, the pending set or the restock topic. *)
Definition fulfilment (m0 m : BookstoreModel) : Prop :=
  step_count m = step_count m0 ∧ config m = config m0 ∧
  MessageBus.queue "restock" (message_bus m) ⊆ MessageBus.queue "restock" (message_bus m0) ∧
  ∃ evs,
    restock_log m = restock_log m0 ++ evs ∧
    Forall (λ ev, ev_step ev = step_count m0 ∧
                  ∃ message, message ∈ MessageBus.queue "restock" (message_bus m0) ∧
                             book_id (payload message) = Some (ev_book_isbn ev)) evs ∧
    pending_restocks m = pending_restocks m0 ∖ list_to_set (ev_book_isbn <$> evs).

Lemma fulfilment_refl m : fulfilment m m.
Proof.
  split_and!; [done..|]. exists []. simpl.
  rewrite app_nil_r, difference_empty_L. by split_and!.
Qed.

Lemma fulfilment_same m0 m m' :
  same_control m m' → restock_log m' = restock_log m →
  pending_restocks m' = pending_restocks m →
  MessageBus.queue "restock" (message_bus m') = MessageBus.queue "restock" (message_bus m) →
  fulfilment m0 m → fulfilment m0 m'.
Proof.
  intros (Hc&_&Hs&_) Hl Hp Hq (?&?&?&evs&?&?&?).
  split_and!; [congruence..| by rewrite Hq |].
  exists evs. split_and!; [congruence | done | congruence].
Qed.

Lemma employee_handle_fulfilment uid m0 m message bus :
  MessageBus.poll "restock" (message_bus m) = (Some message, bus) →
  fulfilment m0 m → fulfilment m0 (EmployeeAgent_handle uid message (set_message_bus bus m)).
Proof.
  intros Hpoll (Hs & Hc & Hq & evs & Hl & Hev & Hp).
  destruct (MessageBusFacts.poll_Some _ _ _ _ Hpoll) as [Hcons _].
  assert (message ∈ MessageBus.queue "restock" (message_bus m0)) as Hin.
  { apply Hq. rewrite Hcons. left. }
  assert (MessageBus.queue "restock" bus ⊆ MessageBus.queue "restock" (message_bus m0))
    as Hq'.
  { intros x Hx. apply Hq. rewrite Hcons. by right. }
  set (m1 := set_message_bus bus m).
  assert (fulfilment m0 m1) as Hf1.
  { split_and!; [done..|]. by exists evs. }
  unfold EmployeeAgent_handle.
  destruct (book_id (payload message)) as [book|] eqn:Hb; [|done].
  set (amount := default _ _).
  destruct (PyDict.get book (inventory_snapshots m1)) as [s|] eqn:Hg;
    [|by rewrite restock_inventory_unknown].
  destruct (restock_inventory_frame book amount (Some uid) m1) as ((Hc'&_&Hs'&_)&Hbus&_).
  destruct (restock_inventory_known book amount (Some uid) m1 s Hg) as (_&Hp'&Hl'&_).
  split_and!.
  - by rewrite Hs'.
  - by rewrite Hc'.
  - by rewrite Hbus.
  - eexists (evs ++ [_]). split_and!.
    + rewrite Hl'. simpl. rewrite Hl. by rewrite <- app_assoc.
    + apply Forall_app. split; [done|]. apply Forall_singleton. simpl.
      split; [done|]. by exists message.
    + rewrite Hp'. simpl. rewrite Hp, fmap_app, list_to_set_app_L. simpl. set_solver.
Qed.

Lemma agent_step_fulfilment a m0 m : fulfilment m0 m → fulfilment m0 (agent_step a m).
Proof.
  intros Hf. destruct a as [uid isbn|uid policy budget|uid]; simpl.
  - done.
  - destruct (customer_step_frame uid policy budget m) as (?&_&_&?&_&_&_&?&?).
    by apply (fulfilment_same m0 m).
  - unfold EmployeeAgent_step. apply employee_loop_ind; [|done].
    intros m1 message bus Hf1 Hpoll. by apply employee_handle_fulfilment.
Qed.

Lemma schedule_step_fulfilment m : fulfilment m (schedule_step m).
Proof.
  apply (schedule_step_ind (fulfilment m)).
  - intros m1 rng. apply fulfilment_same; by try apply same_control_refl.
  - intros a m1. apply agent_step_fulfilment.
  - apply fulfilment_refl.
Qed.

(** The events of the restock log never carry a tick of the future. *)
Definition restock_steps_ok m : Prop :=
  Forall (λ ev, ev_step ev ≤ step_count m) (restock_log m).

Lemma call_restock_steps c m m' :
  call c m = Some m' → restock_steps_ok m → restock_steps_ok m'.
Proof.
  intros Hc Hok. destruct c as [pellet|pellet|interval|s]; simpl in Hc.
  - unfold step in Hc. apply sync_reasoner_frame in Hc as (_&_&Hs&_&_&_&_&Hl&_).
    unfold restock_steps_ok. rewrite Hl, Hs.
    match goal with |- context [_process_purchase_events ?x] =>
      destruct (process_purchase_events_frame x) as ((_&_&Hs'&_)&_&Hl'&_);
      rewrite Hl', Hs'
    end.
    destruct (schedule_step_fulfilment (set_step_count (step_count m + 1) m))
      as (Hs''&_&_&evs&Hl''&Hev&_).
    rewrite Hl'', Hs''. simpl. apply Forall_app. split.
    + eapply Forall_impl; [exact Hok|]. simpl. intros; lia.
    + eapply Forall_impl; [exact Hev|]. simpl. intros ev [-> _]. lia.
  - destruct (generate_report pellet m) as [[r m1]|] eqn:Hrep; simplify_eq/=.
    apply generate_report_frame in Hrep as (_&_&Hl&Hs).
    unfold restock_steps_ok. by rewrite Hl, Hs.
  - by simplify_eq.
  - by simplify_eq.
Qed.

Lemma reachable_restock_steps m : reachable m → restock_steps_ok m.
Proof.
  induction 1 as [onto cfg policy imported entropy|c m m' _ IH Hc].
  - pose proof (init_frame onto cfg policy imported entropy) as Hf.
    revert Hf. generalize (BookstoreModel_init onto cfg policy imported entropy).
    intros m0 (_&_&_&Hl&_). unfold restock_steps_ok. rewrite Hl. constructor.
  - by eapply call_restock_steps.
Qed.
End restock.

(** ** The tick: phases and restock latency *)

Section tick.
Context `{Random} `{Owlready}.
Implicit Types (m : BookstoreModel).

(** Before it publishes, a synchronisation may replace the ontology by the
    inferred one, clear the availability flag and log a warning. *)
Definition prepared m m1 : Prop :=
  ∃ o available emitted l,
    m1 = set_log l
           (set_reasoner_warning_emitted emitted
              (set_reasoner_available available (set_ontology o m))).

Lemma prepared_refl m : prepared m m.
Proof.
  exists (ontology m), (_reasoner_available m), (_reasoner_warning_emitted m), (log m).
  by destruct m.
Qed.

Lemma sync_reasoner_shape pellet force m m' :
  _sync_reasoner_if_needed pellet force m = Some m' →
  ∃ fallback m1,
    prepared m m1 ∧ _enqueue_restock_requests_from_ontology fallback m1 = Some m'.
Proof.
  unfold _sync_reasoner_if_needed. intros Hs.
  destruct (sync_skipped force m); [by eauto using prepared_refl|].
  destruct (_reasoner_available m) eqn:Ha; simpl in Hs.
  - destruct (pellet (ontology m)) as [exc|inferred].
    + eexists true, _. split; [|exact Hs].
      exists (ontology m), false, (_reasoner_warning_emitted m), (log m ++ [ReasonerFailed exc]).
      by destruct m.
    + eexists false, _. split; [|exact Hs].
      exists inferred, (_reasoner_available m), (_reasoner_warning_emitted m), (log m).
      by destruct m.
  - eexists true, _. split; [|exact Hs]. unfold _log_reasoner_warning.
    destruct (_reasoner_warning_emitted m) eqn:He; [apply prepared_refl|].
    exists (ontology m), (_reasoner_available m), true, (log m ++ [ReasonerUnavailable]).
    by destruct m.
Qed.

Lemma request_message_config m m1 :
  config m1 = config m → request_message m1 = request_message m.
Proof. unfold request_message, restock_request. by intros ->. Qed.

(** The requests a synchronisation publishes are appended to the topic
    and recorded as pending. *)
Lemma sync_reasoner_published pellet force m m' :
  _sync_reasoner_if_needed pellet force m = Some m' →
  ∃ fallback m1 new,
    prepared m m1 ∧ published fallback (inventory_entities m) m1 m' new.
Proof.
  intros (fallback & m1 & Hprep & He)%sync_reasoner_shape.
  apply enqueue_loop_published in He as [new Hpub].
  exists fallback, m1, new. split; [done|].
  destruct Hprep as (o & a & e & l & ->). exact Hpub.
Qed.

Lemma schedule_step_unfold m :
  schedule_step m =
    foldl activate (set_random (rng_shuffle (unique_id <$> schedule m) (random m)).2 m)
      (activation_order m).
Proof.
  unfold schedule_step, activation_order. by destruct (rng_shuffle _ _).
Qed.

(** C3.  In every reachable model there is at most one outstanding
    restock request per isbn.  The restock pass publishes a request for a
    row, and adds its isbn to the pending set, only when the row is
    flagged and its isbn is not pending; a pending isbn is skipped.  During
    a tick an isbn leaves the pending set only with a restock event for
    it, and a report takes no isbn out. *)
Theorem at_most_one_outstanding_request :
  (∀ m isbn, reachable m → (outstanding isbn m ≤ 1)%nat) ∧
  (∀ fallback m m',
     _enqueue_restock_requests_from_ontology fallback m = Some m' →
     ∃ new, published fallback (inventory_entities m) m m' new ∧
            ∀ isbn, isbn ∈ pending_restocks m → outstanding isbn m' = outstanding isbn m) ∧
  (∀ pellet m m' isbn,
     step pellet m = Some m' → isbn ∈ pending_restocks m → isbn ∉ pending_restocks m' →
     ∃ ev, ev ∈ restock_log m' ∧ ev_book_isbn ev = isbn ∧ ev_step ev = step_count m') ∧
  (∀ pellet m r m',
     generate_report pellet m = Some (r, m') → pending_restocks m ⊆ pending_restocks m').
Proof.
  split_and!.
  - intros m isbn Hr. by apply dedup_inv_outstanding, reachable_dedup.
  - intros fallback m m' He. apply enqueue_loop_published in He as [new Hpub].
    exists new. split; [done|]. destruct Hpub as (Hq & _ & _ & Hnew).
    intros isbn Hpend. unfold outstanding, requested. rewrite Hq, omap_app, filter_app.
    rewrite length_app.
    assert (omap (λ message, book_id (payload message)) (request_message m <$> new) = new)
      as ->.
    { clear. induction new as [|k new IH]; [done|]. simpl. by f_equal. }
    rewrite (filter_eq_nil isbn new); [simpl; lia|].
    intros Hin. by destruct (Hnew isbn Hin) as [Hn _].
  - intros pellet m m' isbn Hstep Hin Hout.
    pose proof (step_count_step _ _ _ Hstep) as Hcount.
    unfold step in Hstep.
    set (m0 := set_step_count (step_count m + 1) m) in *.
    pose proof (schedule_step_fulfilment m0) as (_ & _ & _ & evs & Hla & Hev & Hpa).
    destruct (process_purchase_events_frame (schedule_step m0)) as (_&Hpb&Hlb&_).
    pose proof (sync_reasoner_frame _ _ _ _ Hstep) as (_&_&_&_&_&_&_&Hlc&_).
    destruct (sync_reasoner_published _ _ _ _ Hstep)
      as (fallback & m1 & new & (o & a & e & l & ->) & _ & Hp & _).
    simpl in Hp. rewrite Hp, Hpb, Hpa in Hout. simpl in Hout.
    assert (isbn ∈ ev_book_isbn <$> evs) as (ev & -> & Hev')%list_elem_of_fmap.
    { destruct (decide (isbn ∈ ev_book_isbn <$> evs)); [done|]. set_solver. }
    exists ev. split_and!; [|done|].
    + rewrite Hlc, Hlb, Hla. apply elem_of_app. by right.
    + rewrite Forall_forall in Hev. destruct (Hev ev Hev') as [-> _]. by rewrite Hcount.
  - intros pellet m r m' Hrep. unfold generate_report in Hrep.
    destruct (_sync_reasoner_if_needed pellet true m) as [m1|] eqn:Hs; simplify_eq/=.
    destruct (sync_reasoner_published _ _ _ _ Hs)
      as (fallback & m1 & new & (o & a & e & l & ->) & _ & Hp & _).
    simpl in Hp. rewrite Hp. set_solver.
Qed.
End tick.

(** The sample model after its first tick, with the request for [A] in
    flight: a report then publishes nothing more for [A], and a second tick
    takes [A] out of the pending set with a restock event. *)
Lemma at_most_one_outstanding_request_witness :
  ∃ m1 r m2 m3 m4,
    step pellet_idle sample_model = Some m1 ∧
    _enqueue_restock_requests_from_ontology true m1 = Some m4 ∧
    outstanding "A" m4 = 1%nat ∧
    generate_report pellet_down m1 = Some (r, m2) ∧
    step pellet_idle m1 = Some m3 ∧
    outstanding "A" m1 = 1%nat ∧ "A" ∈ pending_restocks m1 ∧
    outstanding "A" m2 = 1%nat ∧ "A" ∈ pending_restocks m2 ∧
    "A" ∉ pending_restocks m3 ∧
    ∃ ev, ev ∈ restock_log m3 ∧ ev_book_isbn ev = "A" ∧ ev_step ev = 2.
Proof.
  assert (∃ m1, step pellet_idle sample_model = Some m1 ∧
                outstanding "A" m1 = 1%nat ∧ pending_restocks m1 = {["A"]})
    as (m1 & Hs1 & Hout1 & Hpend1)
    by (vm_compute; eexists; split_and!; reflexivity).
  assert (∃ x, (step pellet_idle sample_model ≫= generate_report pellet_down) = Some x)
    as [[r m2] Hrep] by (vm_compute; eexists; reflexivity).
  assert (∃ m3, (step pellet_idle sample_model ≫= step pellet_idle) = Some m3 ∧
                pending_restocks m3 = ∅ ∧ step_count m3 = 2)
    as (m3 & Hs3 & Hpend3 & Hcount3)
    by (vm_compute; eexists; split_and!; reflexivity).
  assert (∃ m4, (step pellet_idle sample_model ≫=
                   _enqueue_restock_requests_from_ontology true) = Some m4)
    as [m4 Hs4] by (vm_compute; eexists; reflexivity).
  rewrite Hs1 in Hrep, Hs3, Hs4.
  change (_enqueue_restock_requests_from_ontology true m1 = Some m4) in Hs4.
  change (generate_report pellet_down m1 = Some (r, m2)) in Hrep.
  change (step pellet_idle m1 = Some m3) in Hs3.
  assert (reachable m1) as Hr1.
  { apply (reachable_call (Tick pellet_idle) sample_model); [apply reachable_init | exact Hs1]. }
  assert (reachable m2) as Hr2.
  { apply (reachable_call (ReportCall pellet_down) m1); [exact Hr1|].
    simpl. by rewrite Hrep. }
  destruct (@at_most_one_outstanding_request sample_random sample_owlready)
    as (Hone & Hpass & Htick & Hreport).
  assert ("A" ∈ pending_restocks m1) as Hin1 by (rewrite Hpend1; by apply elem_of_singleton).
  assert ("A" ∈ pending_restocks m2) as Hin2 by (by apply (Hreport pellet_down m1 r m2 Hrep)).
  assert ("A" ∉ pending_restocks m3) as Hout3 by (rewrite Hpend3; apply not_elem_of_empty).
  destruct (Htick pellet_idle m1 m3 "A" Hs3 Hin1 Hout3) as (ev & Hev & Hbook & Hstep).
  destruct (Hpass true m1 m4 Hs4) as (new & _ & Hsame).
  exists m1, r, m2, m3, m4.
  split_and!; [exact Hs1 | exact Hs4 | by rewrite (Hsame "A" Hin1) | exact Hrep | exact Hs3
               | exact Hout1 | exact Hin1 | | exact Hin2 | exact Hout3 |].
  - pose proof (Hone m2 "A" Hr2) as Hle.
    assert (outstanding "A" m2 ≠ 0%nat); [|lia].
    clear -Hrep Hs1. intros Hz.
    assert (Some (outstanding "A" m2) =
            (λ x, outstanding "A" x.2) <$>
              (step pellet_idle sample_model ≫= generate_report pellet_down)) as Hc
      by (by rewrite Hs1; simpl; rewrite Hrep).
    rewrite Hz in Hc. clear Hs1 Hrep Hz. vm_compute in Hc. done.
  - exists ev. split_and!; [exact Hev | exact Hbook |]. by rewrite Hstep, Hcount3.
Defined.

(** ** The reasoner: failure and fallback *)

Section reasoner.
Context `{Random} `{Owlready}.
Implicit Types (m : BookstoreModel).





Lemma enqueue_control fallback m m' :
  _enqueue_restock_requests_from_ontology fallback m = Some m' → same_control m m'.
Proof. by intros (?&_)%enqueue_loop_frame. Qed.




(** *** Degraded mode *)

Lemma sync_reasoner_degraded pellet force m :
  _reasoner_available m = false →
  _sync_reasoner_if_needed pellet force m =
    _enqueue_restock_requests_from_ontology true
      (if sync_skipped force m then m else _log_reasoner_warning m).
Proof. unfold _sync_reasoner_if_needed. intros ->. by destruct (sync_skipped force m). Qed.

Lemma sync_reasoner_failure pellet force m exc :
  _reasoner_available m = true → sync_skipped force m = false →
  pellet (ontology m) = inl exc →
  _sync_reasoner_if_needed pellet force m =
    _enqueue_restock_requests_from_ontology true
      (set_log (log m ++ [ReasonerFailed exc]) (set_reasoner_available false m)).
Proof. unfold _sync_reasoner_if_needed. by intros -> -> ->. Qed.

Lemma log_reasoner_warning_available m :
  _reasoner_available (_log_reasoner_warning m) = _reasoner_available m.
Proof. unfold _log_reasoner_warning. by destruct (_reasoner_warning_emitted m). Qed.




(** The pass leaves no flagged row of a cached entity without a pending
    request. *)
Lemma enqueue_loop_complete fallback items m m' :
  enqueue_loop fallback items m = Some m' →
  ∀ isbn item s,
    (isbn, item) ∈ items → PyDict.get isbn (inventory_snapshots m) = Some s →
    flagged fallback m item s = true → isbn ∈ pending_restocks m'.
Proof.
  revert m. induction items as [|[k item0] items IH]; intros m He isbn item s Hin Hg Hflag.
  { by apply elem_of_nil in Hin. }
  simpl in He.
  destruct (PyDict.get k (inventory_snapshots m)) as [s0|] eqn:Hg0; [simpl in He|done].
  fold (flagged fallback m item0 s0) in He.
  destruct (negb (flagged fallback m item0 s0) || bool_decide (k ∈ pending_restocks m))
    eqn:Hskip.
  - apply elem_of_cons in Hin as [[= -> ->] | Hin]; [|by eapply IH].
    rewrite Hg in Hg0. injection Hg0 as <-. rewrite Hflag in Hskip. simpl in Hskip.
    apply bool_decide_eq_true in Hskip.
    apply enqueue_loop_published in He as (new & _ & -> & _). set_solver.
  - apply elem_of_cons in Hin as [[= -> ->] | Hin].
    + apply enqueue_loop_published in He as (new & _ & -> & _). simpl. set_solver.
    + eapply IH; [exact He | exact Hin | exact Hg | exact Hflag].
Qed.

End reasoner.




(** * Further properties of the modelled code *)

(** ** The message bus is a FIFO queue per topic *)

Section bus_order.
Implicit Types (bus : gmap string (list Message)) (t : string).

(** [publish] of several payloads in a row, and the messages that
    repeated polling returns until the topic is empty. *)
Definition publish_all t (ps : list Payload) bus : gmap string (list Message) :=
  foldl (λ bus p, MessageBus.publish t p bus) bus ps.

Fixpoint poll_all (fuel : nat) t bus : list Message * gmap string (list Message) :=
  match fuel with
  | O => ([], bus)
  | S fuel =>
      match MessageBus.poll t bus with
      | (Some message, bus) =>
          let '(messages, bus) := poll_all fuel t bus in (message :: messages, bus)
      | (None, bus) => ([], bus)
      end
  end.

Lemma queue_publish_all t ps bus :
  MessageBus.queue t (publish_all t ps bus) =
    MessageBus.queue t bus ++ ((λ p, {| topic := t; payload := p |}) <$> ps).
Proof.
  revert bus. induction ps as [|p ps IH]; intros bus; simpl; [by rewrite app_nil_r|].
  by rewrite IH, MessageBusFacts.queue_publish_eq, <- app_assoc.
Qed.

Lemma queue_publish_all_ne t t' ps bus :
  t ≠ t' → MessageBus.queue t' (publish_all t ps bus) = MessageBus.queue t' bus.
Proof.
  intros Hne. revert bus. induction ps as [|p ps IH]; intros bus; simpl; [done|].
  by rewrite IH, MessageBusFacts.queue_publish_ne.
Qed.

Lemma poll_all_drains fuel t bus :
  (length (MessageBus.queue t bus) ≤ fuel)%nat →
  (poll_all fuel t bus).1 = MessageBus.queue t bus ∧
  MessageBus.queue t (poll_all fuel t bus).2 = [] ∧
  ∀ t', t ≠ t' → MessageBus.queue t' (poll_all fuel t bus).2 = MessageBus.queue t' bus.
Proof.
  revert bus. induction fuel as [|fuel IH]; intros bus Hlen; simpl.
  - destruct (MessageBus.queue t bus) eqn:Hq; [done | simpl in Hlen; lia].
  - destruct (MessageBus.poll t bus) as [[message|] bus'] eqn:Hpoll.
    + pose proof (MessageBusFacts.poll_Some _ _ _ _ Hpoll) as [Hq _].
      destruct (IH bus') as (Hm & He & Ho); [rewrite Hq in Hlen; simpl in Hlen; lia|].
      destruct (poll_all fuel t bus') as [messages bus'']. simpl in *.
      split_and!; [by rewrite Hq, Hm | done |].
      intros t' Hne. rewrite Ho by done. by eapply MessageBusFacts.poll_other.
    + apply MessageBusFacts.poll_None in Hpoll as [Hq ->]. by rewrite Hq.
Qed.

(** X1.  Whatever is published on a topic comes back from [poll] in the
    order of publication, after the messages that were already waiting;
    polling as often as there are messages empties the topic, a further
    [poll] returns nothing and changes nothing, and no other topic is
    affected. *)
Theorem publish_then_poll_is_fifo t (ps : list Payload) bus :
  let waiting :=
    MessageBus.queue t bus ++ ((λ p, {| topic := t; payload := p |}) <$> ps) in
  let polled := poll_all (length waiting) t (publish_all t ps bus) in
  polled.1 = waiting ∧
  MessageBus.poll t polled.2 = (None, polled.2) ∧
  ∀ t', t ≠ t' → MessageBus.queue t' polled.2 = MessageBus.queue t' bus.
Proof.
  intros waiting polled.
  destruct (poll_all_drains (length waiting) t (publish_all t ps bus)) as (Hm & He & Ho).
  { by rewrite queue_publish_all. }
  fold polled in Hm, He, Ho. split_and!.
  - by rewrite Hm, queue_publish_all.
  - by apply MessageBusFacts.poll_empty.
  - intros t' Hne. rewrite Ho by done. by apply queue_publish_all_ne.
Qed.
End bus_order.

(** ** Entity names *)

Section identifiers.
Lemma normalise_cons (c : ascii) (rest : string) :
  _normalise_identifier (String c rest) =
    if decide (c = ":"%char) then
      match rest with
      | String c' rest' =>
          if decide (c' = ":"%char) then String "_"%char (_normalise_identifier rest')
          else String c (_normalise_identifier rest)
      | EmptyString => String c EmptyString
      end
    else String c (_normalise_identifier rest).
Proof.
  destruct (decide (c = ":"%char)) as [->|Hc].
  - destruct rest as [|c' rest']; [done|].
    destruct (decide (c' = ":"%char)) as [->|Hc']; [done|].
    destruct c' as [[] [] [] [] [] [] [] []]; try done.
  - destruct c as [[] [] [] [] [] [] [] []]; try done.
Qed.

(** The first character survives unless the string starts with [::]. *)
Definition starts_with_colon (s : string) : bool :=
  match s with
  | String c _ => bool_decide (c = ":"%char)
  | EmptyString => false
  end.

Lemma normalise_keeps_start (s : string) :
  starts_with_colon s = false → starts_with_colon (_normalise_identifier s) = false.
Proof.
  destruct s as [|c rest]; [done|]. rewrite normalise_cons. simpl.
  intros Hc. apply bool_decide_eq_false in Hc. rewrite decide_False by done.
  simpl. by apply bool_decide_eq_false.
Qed.

Lemma normalise_idempotent_bounded (n : nat) (s : string) :
  (String.length s ≤ n)%nat →
  _normalise_identifier (_normalise_identifier s) = _normalise_identifier s.
Proof.
  revert s. induction n as [|n IH]; intros s Hlen.
  { destruct s; [done | simpl in Hlen; lia]. }
  destruct s as [|c rest]; [done|]. simpl in Hlen.
  rewrite (normalise_cons c rest).
  destruct (decide (c = ":"%char)) as [->|Hc].
  - destruct rest as [|c' rest']; [done|].
    destruct (decide (c' = ":"%char)) as [->|Hc'].
    + rewrite normalise_cons, decide_False by done.
      rewrite IH; [done|]. simpl in Hlen. lia.
    + rewrite normalise_cons, decide_True by done.
      assert (starts_with_colon (_normalise_identifier (String c' rest')) = false) as Hs.
      { apply normalise_keeps_start. simpl. by apply bool_decide_eq_false. }
      destruct (_normalise_identifier (String c' rest')) as [|d rest''] eqn:Hn.
      * done.
      * simpl in Hs. apply bool_decide_eq_false in Hs. rewrite decide_False by done.
        rewrite <- Hn. rewrite IH; [done|lia].
  - rewrite normalise_cons, decide_False by done. rewrite IH; [done|lia].
Qed.

(** X2.  Normalising an identifier twice is the same as normalising it
    once: a normalised name is its own name, so an agent id and its
    normalised form always resolve to the same ontology entity. *)
Theorem normalise_identifier_idempotent (s : string) :
  _normalise_identifier (_normalise_identifier s) = _normalise_identifier s.
Proof. by apply (normalise_idempotent_bounded (String.length s)). Qed.
End identifiers.

(** ** Decision policies and customers *)

Section customers.
Context `{Random} `{Owlready}.
Implicit Types (m : BookstoreModel).

(** What a customer may buy: a row in stock that the budget covers. *)
Definition buyable (budget : float) (item : InventorySnapshot) : Prop :=
  0 < quantity item ∧ PrimFloat.leb (price item) budget = true.

Lemma affordable_books_spec inventory budget item :
  item ∈ affordable_books inventory budget ↔ item ∈ inventory ∧ buyable budget item.
Proof.
  unfold affordable_books, buyable. rewrite !list_elem_of_In, List.filter_In.
  rewrite andb_true_iff, Z.ltb_lt. tauto.
Qed.

Lemma min_by_price_elem best rest : min_by_price best rest ∈ best :: rest.
Proof.
  revert best. induction rest as [|item rest IH]; intros best; simpl; [left|].
  specialize (IH (if PrimFloat.ltb (price item) (price best) then item else best)).
  apply elem_of_cons in IH as [-> | IH]; [|do 2 right; done].
  destruct (PrimFloat.ltb _ _); [right; left | left].
Qed.

Lemma rng_choice_elem {A} (first : A) others rng :
  (rng_choice first others rng).1 ∈ first :: others.
Proof.
  unfold rng_choice. destruct (rng_randbelow _ rng) as [i rng']. simpl.
  destruct ((first :: others) !! i) as [x|] eqn:Hi; simpl; [|left].
  by eapply list_elem_of_lookup_2.
Qed.

(** X3.  Either policy returns a purchase exactly when some row is in
    stock and within budget, and then it names such a row of the inventory
    it was shown, at that row's price; the greedy policy draws nothing
    from the generator. *)
Theorem choose_purchase_picks_a_buyable_row (policy : DecisionPolicy)
    (inventory : list InventorySnapshot) (budget : float) (rng : RandomState) :
  match (choose_purchase policy inventory budget rng).1 with
  | Some (isbn, unit_price) =>
      ∃ item, item ∈ inventory ∧ buyable budget item ∧
              book_isbn item = isbn ∧ price item = unit_price
  | None => ∀ item, item ∈ inventory → ¬ buyable budget item
  end ∧
  (choose_purchase GreedyPurchasePolicy inventory budget rng).2 = rng.
Proof.
  unfold choose_purchase.
  destruct (affordable_books inventory budget) as [|first others] eqn:Ha.
  - split; [|by destruct policy]. simpl. intros item Hin Hbuy.
    assert (item ∈ affordable_books inventory budget) as Hx
      by (by apply affordable_books_spec).
    rewrite Ha in Hx. by apply elem_of_nil in Hx.
  - destruct policy.
    + split; [|done]. simpl. exists (min_by_price first others).
      pose proof (min_by_price_elem first others) as Hin. rewrite <- Ha in Hin.
      apply affordable_books_spec in Hin as [? ?]. done.
    + split; [|done]. pose proof (rng_choice_elem first others rng) as Hin.
      destruct (rng_choice first others rng) as [choice rng']. simpl in *.
      exists choice. rewrite <- Ha in Hin.
      apply affordable_books_spec in Hin as [? ?]. done.
Qed.

(** X4.  A customer step publishes at most one purchase message.  When it
    publishes, the message names a row of the ledger that is in stock and
    within the customer's budget, at the row's price, and the customer's
    budget is charged that price at once; when it does not, neither the
    schedule nor the purchase topic changes.  The ledger, the pending set
    and both logs are never written. *)
Theorem customer_step_buys_what_it_can_afford (uid : string) (policy : DecisionPolicy)
    (budget : float) m :
  let m' := CustomerAgent_step uid policy budget m in
  inventory_snapshots m' = inventory_snapshots m ∧
  pending_restocks m' = pending_restocks m ∧
  purchase_log m' = purchase_log m ∧ restock_log m' = restock_log m ∧
  ((schedule m' = schedule m ∧ message_bus m' = message_bus m) ∨
   ∃ item,
     item ∈ PyDict.values (inventory_snapshots m) ∧ buyable budget item ∧
     schedule m' = set_budget uid (PrimFloat.sub budget (price item)) (schedule m) ∧
     message_bus m' =
       MessageBus.publish "purchases"
         {| book_id := Some (book_isbn item); customer_id := Some uid;
            payload_price := Some (price item); amount := None |}
         (message_bus m)).
Proof.
  intros m'. destruct (customer_step_frame uid policy budget m) as (_&Hs&_&Hp&_&Hl&_&Hr&_).
  split_and!; [done..|]. subst m'. unfold CustomerAgent_step.
  destruct (rng_random (random m)) as [draw rng].
  destruct (PrimFloat.ltb _ draw); [by left|]. simpl.
  pose proof (choose_purchase_picks_a_buyable_row policy
                (PyDict.values (inventory_snapshots m)) budget rng) as [Hc _].
  destruct (choose_purchase _ _ _ _) as [[[book unit_price]|] rng']; simpl in *;
    [|by left].
  destruct Hc as (item & Hin & Hbuy & <- & <-).
  destruct (PrimFloat.ltb budget (price item)); [by left|].
  right. exists item. by split_and!.
Qed.
End customers.


(** ** What a sequence of calls keeps: rows, stock, tick numbers *)

(** The role of a registered agent: the agent without its budget, the one
    attribute of an agent that a step assigns. *)
Inductive Role :=
  | BookRole (unique_id : string) (isbn : string)
  | CustomerRole (unique_id : string) (policy : DecisionPolicy)
  | EmployeeRole (unique_id : string).

Definition role (a : Agent) : Role :=
  match a with
  | BookAgent uid isbn => BookRole uid isbn
  | CustomerAgent uid policy _ => CustomerRole uid policy
  | EmployeeAgent uid => EmployeeRole uid
  end.

Definition sum_of {A} (f : A → Z) (l : list A) : Z := foldr (λ x acc, f x + acc) 0 l.

Lemma sum_of_cons {A} (f : A → Z) (x : A) (l : list A) :
  sum_of f (x :: l) = f x + sum_of f l.
Proof. done. Qed.

Lemma sum_of_app {A} (f : A → Z) (l1 l2 : list A) :
  sum_of f (l1 ++ l2) = sum_of f l1 + sum_of f l2.
Proof.
  induction l1 as [|x l1 IH]; [done|].
  rewrite <- app_comm_cons, !sum_of_cons, IH. lia.
Qed.

(** A row without its quantity. *)
Definition catalogue (d : list (string * InventorySnapshot))
  : list (string * InventorySnapshot) :=
  (λ '(k, s), (k, with_quantity 0 s)) <$> d.

Lemma get_cons {V} (k k' : string) (v : V) d :
  PyDict.get k ((k', v) :: d) = if decide (k = k') then Some v else PyDict.get k d.
Proof. done. Qed.

Lemma set_cons {V} (k k' : string) (v v' : V) d :
  PyDict.set k v ((k', v') :: d) =
    if decide (k = k') then (k, v) :: d else (k', v') :: PyDict.set k v d.
Proof. done. Qed.

Lemma sum_of_set k (s s' : InventorySnapshot) d :
  PyDict.get k d = Some s →
  sum_of quantity (PyDict.values (PyDict.set k s' d)) =
    sum_of quantity (PyDict.values d) - quantity s + quantity s'.
Proof.
  induction d as [|[k' v] d IH]; [done|]. rewrite get_cons, set_cons.
  destruct (decide (k = k')) as [->|Hne].
  - intros [= ->]. unfold PyDict.values. rewrite !fmap_cons, !sum_of_cons. simpl. lia.
  - intros Hg. unfold PyDict.values in *. rewrite !fmap_cons, !sum_of_cons, IH by done.
    simpl. lia.
Qed.

Lemma catalogue_set k (s : InventorySnapshot) q d :
  PyDict.get k d = Some s → catalogue (PyDict.set k (with_quantity q s) d) = catalogue d.
Proof.
  induction d as [|[k' v] d IH]; [done|]. rewrite get_cons, set_cons.
  destruct (decide (k = k')) as [->|Hne].
  - by intros [= ->].
  - intros Hg. unfold catalogue in *. rewrite !fmap_cons. f_equal. by apply IH.
Qed.

Section history.
Context `{Random} `{Owlready}.
Implicit Types (m : BookstoreModel) (R : relation BookstoreModel).

(** *** A proof principle for relations between the model before and
    after a call *)

(** Nothing of the ledger, of the two logs, of the counters and of the
    roles of the schedule differs. *)
Definition quiet m m' : Prop :=
  inventory_snapshots m' = inventory_snapshots m ∧
  inventory_entities m' = inventory_entities m ∧
  purchase_log m' = purchase_log m ∧ restock_log m' = restock_log m ∧
  step_count m' = step_count m ∧ order_counter m' = order_counter m ∧
  role <$> schedule m' = role <$> schedule m ∧
  customer_policy m' = customer_policy m.

Lemma set_budget_roles uid budget agents :
  role <$> set_budget uid budget agents = role <$> agents.
Proof.
  unfold set_budget. rewrite <- list_fmap_compose. apply list_fmap_ext.
  intros _ [uid' isbn|uid' policy b|uid'] _; simpl; [done| |done].
  by destruct (bool_decide (uid' = uid)).
Qed.

Lemma customer_step_quiet uid policy budget m :
  quiet m (CustomerAgent_step uid policy budget m).
Proof.
  destruct (customer_step_frame uid policy budget m)
    as ((_&Hpol&Hs&_)&Hl&He&_&_&Hp&Ho&Hr&_).
  unfold quiet. split_and!; try done.
  unfold CustomerAgent_step.
  destruct (rng_random (random m)) as [draw rng].
  destruct (PrimFloat.ltb _ draw); [done|]. simpl.
  destruct (choose_purchase _ _ _ _) as [[[book unit_price]|] rng']; [|done].
  destruct (PrimFloat.ltb budget unit_price); [done|]. simpl.
  apply set_budget_roles.
Qed.

Section relation.
Context R `{!Reflexive R, !Transitive R}.
Hypothesis R_quiet : ∀ m m', quiet m m' → R m m'.
Hypothesis R_restock :
  ∀ book amount employee m, R m (restock_inventory book amount employee m).
Hypothesis R_purchase : ∀ message m, R m (_process_purchase_message message m).

Lemma agent_step_rel a m : R m (agent_step a m).
Proof.
  destruct a as [uid isbn|uid policy budget|uid]; simpl.
  - done.
  - apply R_quiet, customer_step_quiet.
  - unfold EmployeeAgent_step. apply employee_loop_rel; [apply _..|].
    intros m1 message bus _. unfold EmployeeAgent_handle.
    assert (R m1 (set_message_bus bus m1)) as Hbus by (by apply R_quiet).
    destruct (book_id (payload message)) as [book|]; [|done].
    etrans; [exact Hbus | apply R_restock].
Qed.

Lemma schedule_step_rel m : R m (schedule_step m).
Proof.
  apply (schedule_step_ind (R m)); [| |done].
  - intros m1 rng HR. etrans; [done|]. by apply R_quiet.
  - intros a m1 HR. etrans; [done|]. apply agent_step_rel.
Qed.

Lemma process_purchase_events_rel m : R m (_process_purchase_events m).
Proof.
  unfold _process_purchase_events. apply purchase_loop_rel; [apply _..|].
  intros m1 message bus _.
  assert (R m1 (set_message_bus bus m1)) as Hbus by (by apply R_quiet).
  etrans; [exact Hbus | apply R_purchase].
Qed.

Lemma sync_reasoner_rel pellet force m m' :
  _sync_reasoner_if_needed pellet force m = Some m' → R m m'.
Proof.
  intros Hs%sync_reasoner_frame. apply R_quiet. unfold sync_frame, quiet in *.
  destruct_and!. split_and!; congruence.
Qed.

(** The body of a tick, after the tick count has been incremented. *)
Lemma step_body_rel pellet m m' :
  step pellet m = Some m' → R (set_step_count (step_count m + 1) m) m'.
Proof.
  unfold step. intros Hs%sync_reasoner_rel.
  etrans; [apply schedule_step_rel|]. etrans; [apply process_purchase_events_rel|]. done.
Qed.

Lemma generate_report_rel pellet m r m' :
  generate_report pellet m = Some (r, m') → R m m'.
Proof.
  unfold generate_report. intros Hrep.
  destruct (_sync_reasoner_if_needed pellet true m) as [m1|] eqn:Hs; simplify_eq/=.
  by eapply sync_reasoner_rel.
Qed.

(** When incrementing the tick count is also related, every call is. *)
Lemma call_rel c m m' :
  (∀ m, R m (set_step_count (step_count m + 1) m)) → call c m = Some m' → R m m'.
Proof.
  intros Hinc Hc. destruct c as [pellet|pellet|interval|s]; simpl in Hc.
  - etrans; [apply Hinc | by eapply step_body_rel].
  - destruct (generate_report pellet m) as [[r m1]|] eqn:Hrep; simplify_eq/=.
    by eapply generate_report_rel.
  - simplify_eq. by apply R_quiet.
  - simplify_eq. by apply R_quiet.
Qed.

Lemma calls_rel cs m m' :
  (∀ m, R m (set_step_count (step_count m + 1) m)) → calls cs m = Some m' → R m m'.
Proof.
  intros Hinc. revert m. induction cs as [|c cs IH]; intros m; simpl.
  - by intros [= <-].
  - destruct (call c m) as [m1|] eqn:Hc; [simpl|done]. intros Hcs.
    etrans; [by eapply call_rel | by apply IH].
Qed.
End relation.

(** *** Calls on a constructed model return, and ticks are counted *)

Definition is_tick (c : Call) : bool :=
  match c with Tick _ => true | _ => false end.

Definition ticks (cs : list Call) : Z := Z.of_nat (length (List.filter is_tick cs)).

Lemma calls_step_count cs m m' :
  calls cs m = Some m' → step_count m' = step_count m + ticks cs.
Proof.
  unfold ticks. revert m. induction cs as [|c cs IH]; intros m; simpl.
  - intros [= <-]. lia.
  - destruct (call c m) as [m1|] eqn:Hc; [simpl|done]. intros Hcs%IH. rewrite Hcs.
    destruct c as [pellet|pellet|interval|s]; simpl in *.
    + apply step_count_step in Hc. lia.
    + destruct (generate_report pellet m) as [[r m2]|] eqn:Hrep; simplify_eq/=.
      apply generate_report_frame in Hrep as (_&_&_&->). lia.
    + simplify_eq. simpl. lia.
    + simplify_eq. simpl. lia.
Qed.

(** X5.  On a model as its constructor leaves it, every sequence of
    ticks, reports and overrides returns: the row lookup of the restock
    pass never fails.  The tick count of the result is the number of ticks
    in the sequence; reports and overrides do not advance it. *)
Theorem constructed_model_runs_every_call (onto : Ontology)
    (cfg : option SimulationSettings) (policy : option DecisionPolicy)
    (imported : bool) (entropy : RandomState) (cs : list Call) :
  ∃ m, calls cs (BookstoreModel_init onto cfg policy imported entropy) = Some m ∧
       step_count m = ticks cs.
Proof.
  pose proof (init_wf onto cfg policy imported entropy) as Hwf.
  pose proof (init_frame onto cfg policy imported entropy) as Hf.
  revert Hwf Hf. generalize (BookstoreModel_init onto cfg policy imported entropy).
  intros m0 Hwf (_&_&_&_&_&Hs&_).
  destruct (calls_total cs m0 Hwf) as [m Hcs]. exists m. split; [done|].
  apply calls_step_count in Hcs. lia.
Qed.

(** *** Stock is conserved *)

Definition total_stock m : Z := sum_of quantity (PyDict.values (inventory_snapshots m)).

(** From [m] to [m'] the logs have grown, and the stock has changed by
    what the new restock events added and the new purchases took. *)
Definition stock_account m m' : Prop :=
  ∃ evs recs,
    restock_log m' = restock_log m ++ evs ∧ purchase_log m' = purchase_log m ++ recs ∧
    total_stock m' = total_stock m + sum_of ev_amount evs - Z.of_nat (length recs).

#[local] Instance stock_account_refl : Reflexive stock_account.
Proof. intros m. exists [], []. rewrite !app_nil_r. simpl. split_and!; [done..|lia]. Qed.

#[local] Instance stock_account_trans : Transitive stock_account.
Proof.
  intros m1 m2 m3 (evs & recs & Hr & Hp & Ht) (evs' & recs' & Hr' & Hp' & Ht').
  exists (evs ++ evs'), (recs ++ recs'). split_and!.
  - by rewrite Hr', Hr, <- app_assoc.
  - by rewrite Hp', Hp, <- app_assoc.
  - rewrite Ht', Ht, sum_of_app, length_app. lia.
Qed.

Lemma stock_account_quiet m m' :
  inventory_snapshots m' = inventory_snapshots m → purchase_log m' = purchase_log m →
  restock_log m' = restock_log m → stock_account m m'.
Proof.
  intros Hs Hp Hr. exists [], []. rewrite !app_nil_r. unfold total_stock. rewrite Hs.
  simpl. split_and!; [done..|lia].
Qed.

Lemma quiet_account m m' : quiet m m' → stock_account m m'.
Proof. intros (Hs&_&Hp&Hr&_). by apply stock_account_quiet. Qed.

Lemma restock_inventory_account book amount employee m :
  stock_account m (restock_inventory book amount employee m).
Proof.
  destruct (PyDict.get book (inventory_snapshots m)) as [s|] eqn:Hg;
    [|by rewrite restock_inventory_unknown].
  destruct (restock_inventory_known book amount employee m s Hg) as (Hs & _ & Hl & _).
  destruct (restock_inventory_frame book amount employee m) as (_ & _ & Hp & _).
  eexists [_], []. rewrite app_nil_r. split_and!; [exact Hl | exact Hp |].
  unfold total_stock. rewrite Hs, (sum_of_set _ s) by done. simpl. lia.
Qed.

Lemma process_purchase_message_account message m :
  stock_account m (_process_purchase_message message m).
Proof.
  destruct (purchase_applies message m) as [[[book customer] s]|] eqn:Ha;
    [|by rewrite process_purchase_message_skip].
  destruct (process_purchase_message_apply message m _ _ _ Ha) as (Hs & _ & Hl & _).
  destruct (process_purchase_message_frame message m) as (_ & _ & _ & Hr & _).
  apply purchase_applies_get in Ha as [Hg _].
  eexists [], [_]. rewrite app_nil_r. split_and!; [exact Hr | exact Hl |].
  unfold total_stock. rewrite Hs, (sum_of_set _ s) by done. simpl. lia.
Qed.

Lemma agent_step_account a m : stock_account m (agent_step a m).
Proof.
  apply (agent_step_rel stock_account);
    [apply quiet_account | apply restock_inventory_account].
Qed.

(** X6.  Stock is conserved.  Over any sequence of calls on any model,
    the two logs only grow, and the total number of copies in the ledger
    changes by exactly the amounts of the new restock events minus the
    number of new purchase records: no other code path creates or loses
    a copy. *)
Theorem stock_is_conserved (cs : list Call) m m' :
  calls cs m = Some m' →
  ∃ evs recs,
    restock_log m' = restock_log m ++ evs ∧
    purchase_log m' = purchase_log m ++ recs ∧
    total_stock m' = total_stock m + sum_of ev_amount evs - Z.of_nat (length recs).
Proof.
  apply (calls_rel stock_account).
  - apply quiet_account.
  - apply restock_inventory_account.
  - apply process_purchase_message_account.
  - intros m1. by apply stock_account_quiet.
Qed.

(** *** The catalogue is fixed *)

Definition same_catalogue m m' : Prop :=
  catalogue (inventory_snapshots m') = catalogue (inventory_snapshots m).

#[local] Instance same_catalogue_refl : Reflexive same_catalogue.
Proof. by intros m. Qed.

#[local] Instance same_catalogue_trans : Transitive same_catalogue.
Proof. unfold same_catalogue. intros m1 m2 m3 H12 H23. by rewrite H23. Qed.

Lemma restock_inventory_catalogue book amount employee m :
  catalogue (inventory_snapshots (restock_inventory book amount employee m)) =
    catalogue (inventory_snapshots m).
Proof.
  destruct (PyDict.get book (inventory_snapshots m)) as [s|] eqn:Hg;
    [|by rewrite restock_inventory_unknown].
  destruct (restock_inventory_known book amount employee m s Hg) as (-> & _).
  by apply catalogue_set.
Qed.

Lemma process_purchase_message_catalogue message m :
  catalogue (inventory_snapshots (_process_purchase_message message m)) =
    catalogue (inventory_snapshots m).
Proof.
  destruct (purchase_applies message m) as [[[book customer] s]|] eqn:Ha;
    [|by rewrite process_purchase_message_skip].
  destruct (process_purchase_message_apply message m _ _ _ Ha) as (-> & _).
  apply purchase_applies_get in Ha as [Hg _]. by apply catalogue_set.
Qed.

(** X7.  After construction the catalogue is fixed: over any sequence of
    calls the ledger keeps its isbns in their order, and every row keeps
    its isbn, title, price and threshold; a call changes quantities
    only. *)
Theorem calls_change_quantities_only (cs : list Call) m m' :
  calls cs m = Some m' →
  catalogue (inventory_snapshots m') = catalogue (inventory_snapshots m).
Proof.
  apply (calls_rel same_catalogue).
  - intros m1 m2 (Hs&_). unfold same_catalogue. by rewrite Hs.
  - apply restock_inventory_catalogue.
  - apply process_purchase_message_catalogue.
  - by intros m1.
Qed.

(** *** The logs are chronological *)

(** The tick numbers of a log are positive, never decrease along the log
    and do not exceed the tick count. *)
Fixpoint chronological (last : Z) (steps : list Z) : Prop :=
  match steps with
  | [] => True
  | s :: steps' => 1 ≤ s ≤ last ∧ Forall (λ s', s ≤ s') steps' ∧ chronological last steps'
  end.

Lemma chronological_weaken last last' steps :
  last ≤ last' → chronological last steps → chronological last' steps.
Proof.
  intros Hle. induction steps as [|s steps IH]; simpl; [done|].
  intros (? & ? & ?). split_and!; [lia | lia | done | by apply IH].
Qed.

Lemma chronological_bound last steps :
  chronological last steps → Forall (λ s, s ≤ last) steps.
Proof.
  induction steps as [|s steps IH]; simpl; [constructor|].
  intros (? & ? & ?). constructor; [lia | by apply IH].
Qed.

Lemma chronological_snoc last steps :
  1 ≤ last → chronological last steps → chronological last (steps ++ [last]).
Proof.
  intros Hpos. induction steps as [|s steps IH]; simpl.
  - intros _. split_and!; [lia | lia | constructor | done].
  - intros (? & Hall & Hrest). split_and!; [lia | lia | | by apply IH].
    apply Forall_app. split; [done|]. apply Forall_singleton. lia.
Qed.

Definition logs_chronological m : Prop :=
  chronological (step_count m) (pr_step <$> purchase_log m) ∧
  chronological (step_count m) (ev_step <$> restock_log m).

(** During a tick the count is positive. *)
Definition in_tick m m' : Prop :=
  1 ≤ step_count m → logs_chronological m → 1 ≤ step_count m' ∧ logs_chronological m'.

Lemma call_chronological c m m' :
  call c m = Some m' →
  0 ≤ step_count m ∧ logs_chronological m → 0 ≤ step_count m' ∧ logs_chronological m'.
Proof.
  assert (Reflexive in_tick) as Hrefl by (by intros m1).
  assert (Transitive in_tick) as Htrans.
  { intros m1 m2 m3 H12 H23 H1 Hl. destruct (H12 H1 Hl). by apply H23. }
  assert (∀ m1 m2, quiet m1 m2 → in_tick m1 m2) as Hquiet.
  { intros m1 m2 (_&_&Hp&Hr&Hs&_). unfold in_tick, logs_chronological.
    by rewrite Hp, Hr, Hs. }
  assert (∀ book amount employee m1,
            in_tick m1 (restock_inventory book amount employee m1)) as Hrestock.
  { intros book amount employee m1 Hpos [Hp Hr].
    destruct (restock_inventory_frame book amount employee m1) as ((_&_&Hs&_)&_&Hp'&_).
    destruct (PyDict.get book (inventory_snapshots m1)) as [s|] eqn:Hg;
      [|by rewrite restock_inventory_unknown].
    destruct (restock_inventory_known book amount employee m1 s Hg) as (_ & _ & Hl & _).
    unfold logs_chronological. rewrite Hs, Hp', Hl, fmap_app. simpl.
    split_and!; [done | done | by apply chronological_snoc]. }
  assert (∀ message m1, in_tick m1 (_process_purchase_message message m1)) as Hpurchase.
  { intros message m1 Hpos [Hp Hr].
    destruct (process_purchase_message_frame message m1) as ((_&_&Hs&_)&_&_&Hr'&_).
    destruct (purchase_applies message m1) as [[[book customer] s]|] eqn:Ha;
      [|by rewrite process_purchase_message_skip].
    destruct (process_purchase_message_apply message m1 _ _ _ Ha) as (_ & _ & Hl & _).
    unfold logs_chronological. rewrite Hs, Hr', Hl, fmap_app. simpl.
    split_and!; [done | by apply chronological_snoc | done]. }
  intros Hc [Hpos [Hp Hr]]. destruct c as [pellet|pellet|interval|s].
  - pose proof (step_body_rel in_tick Hquiet Hrestock Hpurchase pellet m m' Hc) as Hbody.
    destruct Hbody as [? ?]; [simpl; lia | | split; [lia | done]].
    split; simpl; eapply chronological_weaken; try eassumption; lia.
  - simpl in Hc. destruct (generate_report pellet m) as [[r m1]|] eqn:Hrep; simplify_eq/=.
    apply generate_report_frame in Hrep as (_&Hp'&Hr'&Hs).
    unfold logs_chronological. by rewrite Hp', Hr', Hs.
  - by simplify_eq/=.
  - by simplify_eq/=.
Qed.

(** X8.  The logs of a constructed model are chronological.  After any
    sequence of calls, every purchase record and every restock event
    carries a tick number between 1 and the tick count, and along each log
    the tick numbers never decrease. *)
Theorem logs_are_chronological (onto : Ontology)
    (cfg : option SimulationSettings) (policy : option DecisionPolicy)
    (imported : bool) (entropy : RandomState) (cs : list Call) :
  ∃ m, calls cs (BookstoreModel_init onto cfg policy imported entropy) = Some m ∧
       chronological (step_count m) (pr_step <$> purchase_log m) ∧
       chronological (step_count m) (ev_step <$> restock_log m).
Proof.
  pose proof (init_wf onto cfg policy imported entropy) as Hwf.
  pose proof (init_frame onto cfg policy imported entropy) as Hf.
  revert Hwf Hf. generalize (BookstoreModel_init onto cfg policy imported entropy).
  intros m0 Hwf (_&_&Hp&Hr&_&Hs&_).
  destruct (calls_total cs m0 Hwf) as [m Hcs]. exists m. split; [done|].
  assert (0 ≤ step_count m0 ∧ logs_chronological m0) as Hinit.
  { unfold logs_chronological. rewrite Hp, Hr, Hs. simpl. split; [lia | done]. }
  clear Hwf Hp Hr Hs. revert m0 Hinit Hcs.
  induction cs as [|c cs IH]; intros m0 Hinit; simpl.
  - intros [= <-]. apply Hinit.
  - destruct (call c m0) as [m1|] eqn:Hc; [simpl|done].
    apply IH. by eapply call_chronological.
Qed.
End history.

(** The sample model: a tick with a working reasoner, a report, a tick
    with a failing one. *)
Definition sample_calls : list Call :=
  [Tick pellet_idle; ReportCall pellet_idle; Tick pellet_down].

Lemma stock_is_conserved_witness :
  from_option
    (λ m, @total_stock sample_random m =
            @total_stock sample_random sample_model
            + sum_of ev_amount (restock_log m) - Z.of_nat (length (purchase_log m)))
    False (@calls sample_random sample_owlready sample_calls sample_model).
Proof.
  assert (∃ m', @calls sample_random sample_owlready sample_calls sample_model = Some m') as [m' Hrun]
    by (vm_compute; eexists; reflexivity).
  rewrite Hrun. simpl.
  destruct (@stock_is_conserved sample_random sample_owlready sample_calls sample_model m' Hrun)
    as (evs & recs & Hr & Hp & Ht).
  clear Hrun. rewrite Ht, Hr, Hp.
  assert (restock_log sample_model = [] ∧ purchase_log sample_model = []) as [-> ->]
    by (split; vm_compute; reflexivity).
  reflexivity.
Defined.

Lemma calls_change_quantities_only_witness :
  from_option
    (λ m, catalogue (inventory_snapshots m) = [("A", sample_row 0)])
    False (@calls sample_random sample_owlready sample_calls sample_model).
Proof.
  assert (∃ m', @calls sample_random sample_owlready sample_calls sample_model = Some m') as [m' Hrun]
    by (vm_compute; eexists; reflexivity).
  rewrite Hrun. simpl.
  rewrite (@calls_change_quantities_only sample_random sample_owlready sample_calls sample_model m' Hrun).
  clear Hrun. vm_compute. reflexivity.
Defined.

(** ** The employee and the latency of a restock *)

Definition role_id (r : Role) : string :=
  match r with
  | BookRole uid _ | CustomerRole uid _ | EmployeeRole uid => uid
  end.

(** The roles [_register_agents] adds for the isbns [books]. *)
Definition registered (books : list string) (policy : DecisionPolicy) : list Role :=
  ((λ isbn, BookRole ("book::" +:+ isbn) isbn) <$> books) ++
  [EmployeeRole "employee::0"; CustomerRole "customer::0" policy;
   CustomerRole "customer::1" policy].

Lemma find_role (uid : string) (agents : list Agent) :
  role <$> List.find (λ a, bool_decide (unique_id a = uid)) agents =
    List.find (λ r, bool_decide (role_id r = uid)) (role <$> agents).
Proof.
  induction agents as [|a agents IH]; [done|]. rewrite fmap_cons. simpl.
  replace (role_id (role a)) with (unique_id a) by (by destruct a).
  by destruct (bool_decide (unique_id a = uid)).
Qed.

Lemma find_registered_employee books policy :
  List.find (λ r, bool_decide (role_id r = "employee::0")) (registered books policy) =
    Some (EmployeeRole "employee::0").
Proof. unfold registered. induction books as [|isbn books IH]; [done | exact IH]. Qed.

Lemma registered_employee books policy uid :
  EmployeeRole uid ∈ registered books policy → uid = "employee::0".
Proof.
  unfold registered. rewrite elem_of_app, list_elem_of_fmap.
  intros [(isbn & ? & _) | Hin]; [done|].
  repeat (apply elem_of_cons in Hin as [? | Hin]; [by simplify_eq|]).
  by apply elem_of_nil in Hin.
Qed.

Lemma get_catalogue k (d : list (string * InventorySnapshot)) :
  PyDict.get k (catalogue d) = with_quantity 0 <$> PyDict.get k d.
Proof.
  induction d as [|[k' v] d IH]; [done|]. unfold catalogue in *.
  rewrite fmap_cons, !get_cons. by destruct (decide (k = k')).
Qed.

Lemma omap_pointwise {A B} (f g : A → option B) (l : list A) :
  (∀ x, f x = g x) → omap f l = omap g l.
Proof. intros Hfg. induction l as [|x l IH]; csimpl; [done|]. by rewrite Hfg, IH. Qed.

Section employee.
Context `{Random} `{Owlready}.
Implicit Types (m : BookstoreModel).

(** *** What construction registers *)

Lemma register_books_schedule (books : list InventorySnapshot) m :
  let m' :=
    foldl (λ m snapshot,
             schedule_add (BookAgent ("book::" +:+ book_isbn snapshot) (book_isbn snapshot)) m)
      m books in
  schedule m' =
    schedule m ++
      ((λ snapshot, BookAgent ("book::" +:+ book_isbn snapshot) (book_isbn snapshot))
         <$> books) ∧
  customer_policy m' = customer_policy m ∧ inventory_snapshots m' = inventory_snapshots m.
Proof.
  revert m. induction books as [|s books IH]; intros m; simpl.
  - by rewrite app_nil_r.
  - destruct (IH (schedule_add (BookAgent ("book::" +:+ book_isbn s) (book_isbn s)) m))
      as (-> & -> & ->).
    unfold schedule_add. simpl. by rewrite <- app_assoc.
Qed.

Lemma register_customer_schedule idx m :
  let m' := _register_customer idx m in
  schedule m' =
    schedule m ++ [CustomerAgent ("customer::" +:+ pretty idx) (customer_policy m) 50%float] ∧
  customer_policy m' = customer_policy m ∧ inventory_snapshots m' = inventory_snapshots m.
Proof.
  unfold _register_customer. cbv zeta.
  destruct (ensure_customer_touched ("customer::" +:+ pretty idx) m)
    as (o & be & ce & ee & ->).
  by unfold schedule_add.
Qed.

Lemma register_agents_roles m :
  let m' := _register_agents m in
  role <$> schedule m' =
    (role <$> schedule m) ++
      registered (book_isbn <$> PyDict.values (inventory_snapshots m)) (customer_policy m) ∧
  inventory_snapshots m' = inventory_snapshots m.
Proof.
  unfold _register_agents. cbv zeta.
  match goal with |- context [foldl ?h m ?l] =>
    destruct (register_books_schedule l m) as (Hs1 & Hp1 & Hl1);
    revert Hs1 Hp1 Hl1; generalize (foldl h m l)
  end.
  intros m1 Hs1 Hp1 Hl1.
  destruct (ensure_employee_touched "employee::0" m1) as (o & be & ce & ee & Hm2).
  revert Hm2. generalize (_ensure_employee_entity "employee::0" m1).2. intros m2 ->.
  match goal with |- context [foldl _ ?x [0; 1]] => set (m3 := x) end.
  simpl foldl.
  destruct (register_customer_schedule 0 m3) as (Hs4 & Hp4 & Hl4).
  destruct (register_customer_schedule 1 (_register_customer 0 m3)) as (-> & _ & ->).
  rewrite Hs4, Hp4, Hl4. subst m3. unfold schedule_add. simpl.
  rewrite Hs1, Hp1, Hl1. split; [|done].
  rewrite !fmap_app, <- !app_assoc, <- !list_fmap_compose. unfold registered.
  rewrite <- list_fmap_compose. done.
Qed.

(** The roles of the schedule and the isbns of the ledger, in order. *)
Definition staffed m : Prop :=
  role <$> schedule m =
    registered (book_isbn <$> PyDict.values (catalogue (inventory_snapshots m)))
      (customer_policy m).

Lemma catalogue_isbns (d : list (string * InventorySnapshot)) :
  book_isbn <$> PyDict.values (catalogue d) = book_isbn <$> PyDict.values d.
Proof.
  unfold PyDict.values, catalogue. rewrite <- !list_fmap_compose.
  apply list_fmap_ext. by intros _ [k s] _.
Qed.

Lemma init_staffed onto cfg policy imported entropy :
  let m := BookstoreModel_init onto cfg policy imported entropy in
  staffed m ∧ customer_policy m = default RandomPurchasePolicy policy.
Proof.
  intros m. subst m. unfold BookstoreModel_init. cbv zeta.
  match goal with |- context [_register_agents (_load_inventory_from_ontology ?x)] =>
    pose proof (load_inventory_frame x) as ((_&Hp&_)&_);
    pose proof (register_agents_frame (_load_inventory_from_ontology x)) as ((_&Hp'&_)&_);
    pose proof (register_agents_roles (_load_inventory_from_ontology x)) as [Hr Hl];
    assert (schedule (_load_inventory_from_ontology x) = []) as Hs
  end.
  { unfold _load_inventory_from_ontology.
    match goal with |- schedule (foldl ?f ?x ?l) = _ =>
      apply (foldl_inv (λ m1, schedule m1 = []) f l x); [|done]
    end.
    intros m1 [isbn book] Hs. unfold _load_book.
    by destruct (ensure_inventory_for isbn (ontology m1)). }
  revert Hp Hp' Hr Hl Hs. generalize (_register_agents (_load_inventory_from_ontology
    {| config := default load_config cfg;
       random := match random_seed (default load_config cfg) with
                 | Some s => rng_seed s | None => entropy end;
       ontology := onto; message_bus := ∅; schedule := [];
       customer_policy := default RandomPurchasePolicy policy;
       inventory_snapshots := []; inventory_entities := []; book_entities := ∅;
       customer_entities := ∅; employee_entities := ∅; pending_restocks := ∅;
       purchase_log := []; restock_log := []; order_counter := 0; step_count := 0;
       _reasoner_available := imported; _reasoner_warning_emitted := false;
       log := [] |})).
  match goal with |- context [_load_inventory_from_ontology ?x] =>
    generalize (_load_inventory_from_ontology x)
  end.
  intros m1 m2 Hp Hp' Hr Hl Hs. unfold staffed.
  rewrite Hr, Hs, Hl, catalogue_isbns. simpl. rewrite Hp', Hp. done.
Qed.

Definition same_staff m m' : Prop :=
  role <$> schedule m' = role <$> schedule m ∧ customer_policy m' = customer_policy m ∧
  catalogue (inventory_snapshots m') = catalogue (inventory_snapshots m).

#[local] Instance same_staff_refl : Reflexive same_staff.
Proof. by intros m. Qed.

#[local] Instance same_staff_trans : Transitive same_staff.
Proof. unfold same_staff. intros m1 m2 m3 (?&?&?) (?&?&?). split_and!; congruence. Qed.

Lemma same_staff_quiet m m' : quiet m m' → same_staff m m'.
Proof. intros (Hs&_&_&_&_&_&?&?). unfold same_staff. by rewrite Hs. Qed.

Lemma restock_inventory_staff book amount employee m :
  same_staff m (restock_inventory book amount employee m).
Proof.
  destruct (restock_inventory_frame book amount employee m) as ((_&?&_)&_&_&_&Hs&_).
  unfold same_staff. rewrite Hs. split_and!; [done..|].
  apply restock_inventory_catalogue.
Qed.

Lemma process_purchase_message_staff message m :
  same_staff m (_process_purchase_message message m).
Proof.
  destruct (process_purchase_message_frame message m) as ((_&?&_)&_&_&_&Hs&_).
  unfold same_staff. rewrite Hs. split_and!; [done..|].
  apply process_purchase_message_catalogue.
Qed.

Lemma agent_step_staff a m : same_staff m (agent_step a m).
Proof.
  apply (agent_step_rel same_staff); [apply same_staff_quiet | apply restock_inventory_staff].
Qed.

Lemma calls_staff cs m m' : calls cs m = Some m' → same_staff m m'.
Proof.
  apply (calls_rel same_staff).
  - apply same_staff_quiet.
  - apply restock_inventory_staff.
  - apply process_purchase_message_staff.
  - by intros m1.
Qed.

Lemma call_staff c m m' : call c m = Some m' → same_staff m m'.
Proof.
  apply (call_rel same_staff).
  - apply same_staff_quiet.
  - apply restock_inventory_staff.
  - apply process_purchase_message_staff.
  - by intros m1.
Qed.

Lemma staffed_same m m' : same_staff m m' → staffed m → staffed m'.
Proof. unfold same_staff, staffed. intros (-> & -> & ->). done. Qed.

Lemma reachable_staffed m : reachable m → staffed m.
Proof.
  induction 1 as [onto cfg policy imported entropy|c m m' _ IH Hc].
  - apply init_staffed.
  - eapply staffed_same; [by eapply call_staff | done].
Qed.

(** *** [EmployeeAgent.step] *)

(** The event a restock request gives rise to when [uid] handles it: none
    for a request without an isbn or for an isbn the ledger does not have. *)
Definition restock_event_of (uid : string) m (message : Message) : option RestockEvent :=
  match book_id (payload message) with
  | Some book =>
      match PyDict.get book (inventory_snapshots m) with
      | Some _ =>
          Some {| ev_step := step_count m; ev_book_isbn := book;
                  ev_amount :=
                    Z.max (default (restock_amount (config m)) (amount (payload message))) 0;
                  ev_employee_id := Some uid |}
      | None => None
      end
  | None => None
  end.

Lemma restock_event_of_same uid m m' message :
  step_count m' = step_count m → config m' = config m →
  catalogue (inventory_snapshots m') = catalogue (inventory_snapshots m) →
  restock_event_of uid m' message = restock_event_of uid m message.
Proof.
  intros Hs Hc Hl. unfold restock_event_of. rewrite Hs, Hc.
  destruct (book_id (payload message)) as [book|]; [|done].
  pose proof (get_catalogue book (inventory_snapshots m')) as Hg'.
  rewrite Hl, get_catalogue in Hg'.
  destruct (PyDict.get book (inventory_snapshots m')),
    (PyDict.get book (inventory_snapshots m)); done.
Qed.

Lemma employee_handle_log uid message m :
  restock_log (EmployeeAgent_handle uid message m) =
    restock_log m ++ option_list (restock_event_of uid m message).
Proof.
  unfold EmployeeAgent_handle, restock_event_of.
  destruct (book_id (payload message)) as [book|]; [|by rewrite app_nil_r].
  destruct (PyDict.get book (inventory_snapshots m)) as [s|] eqn:Hg.
  - by destruct (restock_inventory_known book
      (default (restock_amount (config m)) (amount (payload message))) (Some uid) m s Hg)
      as (_ & _ & -> & _).
  - rewrite restock_inventory_unknown by done. by rewrite app_nil_r.
Qed.

Lemma employee_handle_same uid message m :
  step_count (EmployeeAgent_handle uid message m) = step_count m ∧
  config (EmployeeAgent_handle uid message m) = config m ∧
  catalogue (inventory_snapshots (EmployeeAgent_handle uid message m)) =
    catalogue (inventory_snapshots m).
Proof.
  unfold EmployeeAgent_handle. destruct (book_id (payload message)) as [book|]; [|done].
  set (amount := default _ _).
  destruct (restock_inventory_frame book amount (Some uid) m) as ((?&_&?&_)&_).
  split_and!; [done..|]. apply restock_inventory_catalogue.
Qed.

Lemma employee_loop_log fuel uid m :
  (length (MessageBus.queue "restock" (message_bus m)) ≤ fuel)%nat →
  restock_log (employee_loop fuel uid m) =
    restock_log m ++
      omap (restock_event_of uid m) (MessageBus.queue "restock" (message_bus m)).
Proof.
  revert m. induction fuel as [|fuel IH]; intros m Hlen; simpl.
  - destruct (MessageBus.queue _ _); [by rewrite app_nil_r | simpl in Hlen; lia].
  - destruct (MessageBus.poll "restock" (message_bus m)) as [[message|] bus] eqn:Hpoll.
    + apply MessageBusFacts.poll_Some in Hpoll as [Hq _]. rewrite Hq in *. simpl in Hlen.
      set (m1 := set_message_bus bus m).
      destruct (employee_handle_same uid message m1) as (Hs & Hc & Hl).
      rewrite IH by (rewrite employee_handle_bus; simpl; lia).
      rewrite employee_handle_bus, employee_handle_log. simpl message_bus.
      rewrite (omap_pointwise _ (restock_event_of uid m)).
      2:{ intros x. by apply restock_event_of_same. }
      rewrite <- app_assoc. f_equal. simpl.
      change (restock_event_of uid m1 message) with (restock_event_of uid m message).
      by destruct (restock_event_of uid m message).
    + apply MessageBusFacts.poll_None in Hpoll as [-> _]. by rewrite app_nil_r.
Qed.

Lemma employee_loop_other_topics fuel uid m t :
  t ≠ "restock" →
  MessageBus.queue t (message_bus (employee_loop fuel uid m)) =
    MessageBus.queue t (message_bus m).
Proof.
  intros Hne. apply (employee_loop_ind
    (λ m1, MessageBus.queue t (message_bus m1) = MessageBus.queue t (message_bus m)));
    [|done].
  intros m1 message bus <- Hpoll. rewrite employee_handle_bus. simpl.
  by eapply MessageBusFacts.poll_other.
Qed.

(** X9.  A step of the employee empties the [restock] topic and leaves
    every other topic alone.  It appends one restock event per waiting
    request whose isbn the ledger has, in the order of the requests, with
    the current tick, the employee's id and the requested amount (the
    configured amount when the request names none, zero when it is
    negative); requests without an isbn or for an unknown isbn are dropped
    without a trace.  The isbns of the events leave the pending set, the
    stock grows by the sum of their amounts, and no purchase is recorded. *)
Theorem employee_step_fulfils_every_request (uid : string) m :
  let m' := EmployeeAgent_step uid m in
  let evs := omap (restock_event_of uid m) (MessageBus.queue "restock" (message_bus m)) in
  MessageBus.queue "restock" (message_bus m') = [] ∧
  (∀ t, t ≠ "restock" →
        MessageBus.queue t (message_bus m') = MessageBus.queue t (message_bus m)) ∧
  restock_log m' = restock_log m ++ evs ∧
  pending_restocks m' = pending_restocks m ∖ list_to_set (ev_book_isbn <$> evs) ∧
  total_stock m' = total_stock m + sum_of ev_amount evs ∧
  purchase_log m' = purchase_log m.
Proof.
  intros m' evs.
  assert (restock_log m' = restock_log m ++ evs) as Hlog
    by (by apply employee_loop_log).
  pose proof (agent_step_fulfilment (EmployeeAgent uid) m m (fulfilment_refl m))
    as (_ & _ & _ & evs1 & Hlog1 & _ & Hpend).
  pose proof (agent_step_account (EmployeeAgent uid) m)
    as (evs2 & recs & Hlog2 & Hrec & Hstock).
  destruct (agent_step_frame (EmployeeAgent uid) m) as (_ & Hpl & _).
  simpl in Hlog1, Hpend, Hlog2, Hrec, Hstock, Hpl.
  fold m' in Hlog1, Hpend, Hlog2, Hrec, Hstock, Hpl.
  assert (evs1 = evs) as -> by (apply (app_inv_head (restock_log m)); congruence).
  assert (evs2 = evs) as -> by (apply (app_inv_head (restock_log m)); congruence).
  assert (recs = []) as ->.
  { apply (app_inv_head (purchase_log m)). rewrite app_nil_r. congruence. }
  split_and!; [apply employee_step_drained | | done | done | simpl in Hstock; lia | done].
  intros t Hne. by apply employee_loop_other_topics.
Qed.
End employee.

Section latency.
Context `{Random} `{Owlready}.
Implicit Types (m : BookstoreModel).

(** X10.  The agents are registered once.  On a constructed model, after
    any sequence of calls, the schedule holds one book agent per row of
    the ledger, in the order of the rows, then the employee
    [employee::0], then the customers [customer::0] and [customer::1],
    both with the policy the model was given (the random policy when it
    was given none); a call changes nothing of an agent but a customer's
    budget. *)
Theorem registered_agents_are_fixed (onto : Ontology)
    (cfg : option SimulationSettings) (policy : option DecisionPolicy)
    (imported : bool) (entropy : RandomState) (cs : list Call) :
  ∃ m, calls cs (BookstoreModel_init onto cfg policy imported entropy) = Some m ∧
       role <$> schedule m =
         registered (book_isbn <$> PyDict.values (inventory_snapshots m))
           (default RandomPurchasePolicy policy).
Proof.
  pose proof (init_wf onto cfg policy imported entropy) as Hwf.
  pose proof (init_staffed onto cfg policy imported entropy) as Hs.
  revert Hwf Hs. generalize (BookstoreModel_init onto cfg policy imported entropy).
  intros m0 Hwf [Hst Hpol].
  destruct (calls_total cs m0 Hwf) as [m Hcs]. exists m. split; [done|].
  pose proof (calls_staff _ _ _ Hcs) as Hsame.
  pose proof (staffed_same _ _ Hsame Hst) as Hst'. destruct Hsame as (_ & Hp & _).
  unfold staffed in Hst'. by rewrite Hst', catalogue_isbns, Hp, Hpol.
Qed.

(** *** Activation of a staffed schedule *)

Lemma activate_employee m :
  staffed m → activate m "employee::0" = EmployeeAgent_step "employee::0" m.
Proof.
  intros Hst. unfold activate.
  pose proof (find_role "employee::0" (schedule m)) as Hf.
  rewrite Hst, find_registered_employee in Hf.
  destruct (List.find _ (schedule m)) as [[uid isbn|uid policy budget|uid]|];
    by simplify_eq/=.
Qed.

Lemma activate_other m uid :
  staffed m → uid ≠ "employee::0" →
  activate m uid = m ∨ ∃ policy budget, activate m uid = CustomerAgent_step uid policy budget m.
Proof.
  intros Hst Hne. unfold activate.
  destruct (List.find _ (schedule m)) as [a|] eqn:Hf; [|by left].
  apply List.find_some in Hf as [Hin Huid]. apply bool_decide_eq_true in Huid.
  destruct a as [uid' isbn|uid' policy budget|uid']; simpl in *; subst uid'.
  - by left.
  - right. by eauto.
  - exfalso. apply Hne.
    apply (registered_employee
             (book_isbn <$> PyDict.values (catalogue (inventory_snapshots m)))
             (customer_policy m)).
    rewrite <- Hst. apply list_elem_of_fmap. exists (EmployeeAgent uid).
    split; [done|]. by apply list_elem_of_In.
Qed.

(** The employee has not stepped yet in this tick. *)
Definition before_service (m0 m : BookstoreModel) : Prop :=
  restock_log m = restock_log m0 ∧
  MessageBus.queue "restock" (message_bus m) = MessageBus.queue "restock" (message_bus m0) ∧
  step_count m = step_count m0 ∧ config m = config m0 ∧ same_staff m0 m.

(** The employee has stepped. *)
Definition after_service (m0 m : BookstoreModel) : Prop :=
  restock_log m =
    restock_log m0 ++
      omap (restock_event_of "employee::0" m0)
        (MessageBus.queue "restock" (message_bus m0)) ∧
  MessageBus.queue "restock" (message_bus m) = [] ∧ same_staff m0 m.

Lemma same_staff_step m0 m1 m2 : same_staff m0 m1 → same_staff m1 m2 → same_staff m0 m2.
Proof. unfold same_staff. intros (?&?&?) (?&?&?). split_and!; congruence. Qed.

Lemma customer_step_service uid policy budget m :
  let m' := CustomerAgent_step uid policy budget m in
  restock_log m' = restock_log m ∧
  MessageBus.queue "restock" (message_bus m') = MessageBus.queue "restock" (message_bus m) ∧
  step_count m' = step_count m ∧ config m' = config m ∧ same_staff m m'.
Proof.
  intros m'. subst m'.
  destruct (customer_step_frame uid policy budget m) as ((?&_&?&_)&_&_&_&_&_&_&?&?).
  split_and!; [done..|]. apply (agent_step_staff (CustomerAgent uid policy budget)).
Qed.

Lemma activate_after_service m0 m uid :
  staffed m0 → after_service m0 m → after_service m0 (activate m uid).
Proof.
  intros Hst (Hl & Hq & Hs).
  pose proof (staffed_same _ _ Hs Hst) as Hst'.
  destruct (decide (uid = "employee::0")) as [->|Hne].
  - rewrite activate_employee by done. unfold EmployeeAgent_step. rewrite Hq. by simpl.
  - destruct (activate_other m uid Hst' Hne) as [-> | (policy & budget & ->)]; [done|].
    destruct (customer_step_service uid policy budget m) as (Hl' & Hq' & _ & _ & Hs').
    unfold after_service. rewrite Hl', Hq'. split_and!; [done..|].
    by eapply same_staff_step.
Qed.

Lemma activate_before_service m0 m uid :
  staffed m0 → before_service m0 m →
  if decide (uid = "employee::0") then after_service m0 (activate m uid)
  else before_service m0 (activate m uid).
Proof.
  intros Hst (Hl & Hq & Hc & Hcfg & Hs).
  pose proof (staffed_same _ _ Hs Hst) as Hst'.
  destruct (decide (uid = "employee::0")) as [->|Hne].
  - rewrite activate_employee by done. unfold after_service. split_and!.
    + unfold EmployeeAgent_step. rewrite employee_loop_log by done. rewrite Hl, Hq.
      f_equal. apply omap_pointwise. intros x. apply restock_event_of_same; [done..|].
      by destruct Hs as (_ & _ & ?).
    + apply employee_step_drained.
    + eapply same_staff_step; [done|].
      apply (agent_step_staff (EmployeeAgent "employee::0")).
  - destruct (activate_other m uid Hst' Hne) as [-> | (policy & budget & ->)]; [done|].
    destruct (customer_step_service uid policy budget m) as (Hl' & Hq' & Hc' & Hcfg' & Hs').
    unfold before_service. rewrite Hl', Hq', Hc', Hcfg'. split_and!; [done..|].
    by eapply same_staff_step.
Qed.

Lemma activation_serves m0 order m :
  staffed m0 →
  (after_service m0 m → after_service m0 (foldl activate m order)) ∧
  (before_service m0 m → "employee::0" ∈ order → after_service m0 (foldl activate m order)).
Proof.
  intros Hst. revert m. induction order as [|uid order IH]; intros m; simpl.
  - split; [done|]. by intros _ ?%elem_of_nil.
  - split.
    + intros Ha. apply (proj1 (IH _)). by apply activate_after_service.
    + intros Hb Hin. pose proof (activate_before_service m0 m uid Hst Hb) as Hact.
      destruct (decide (uid = "employee::0")) as [->|Hne].
      * by apply (proj1 (IH _)).
      * apply (proj2 (IH _)); [done|].
        apply elem_of_cons in Hin as [Heq | Hin]; [congruence | done].
Qed.

Lemma staffed_employee_scheduled m : staffed m → "employee::0" ∈ unique_id <$> schedule m.
Proof.
  intros Hst.
  assert (unique_id <$> schedule m = role_id <$> (role <$> schedule m)) as ->.
  { rewrite <- list_fmap_compose. apply list_fmap_ext. by intros _ [] _. }
  rewrite Hst. unfold registered. rewrite fmap_app, elem_of_app. right. simpl. left.
Qed.

(** X11.  A restock request waits exactly one tick.  In a reachable
    model, a tick serves every request that was waiting when it began:
    the restock log grows by one event per waiting request for an isbn of
    the ledger, in the order of the requests, with the new tick number and
    the employee [employee::0].  When the tick ends the [restock] topic
    holds the requests of this tick's restock pass and nothing else, each
    for a distinct isbn that is pending. *)
Theorem requests_are_served_at_the_next_tick (pellet : Pellet) m m' :
  reachable m → step pellet m = Some m' →
  restock_log m' =
    restock_log m ++
      omap (restock_event_of "employee::0" (set_step_count (step_count m + 1) m))
        (MessageBus.queue "restock" (message_bus m)) ∧
  ∃ new,
    MessageBus.queue "restock" (message_bus m') = request_message m <$> new ∧
    NoDup new ∧ ∀ isbn, isbn ∈ new → isbn ∈ pending_restocks m'.
Proof.
  intros Hreach Hstep. pose proof (reachable_staffed m Hreach) as Hst.
  unfold step in Hstep.
  set (m0 := set_step_count (step_count m + 1) m) in *.
  assert (staffed m0) as Hst0 by exact Hst.
  assert (after_service m0 (schedule_step m0)) as (Hla & Hqa & _).
  { rewrite schedule_step_unfold.
    apply (activation_serves m0); [done| |].
    - unfold before_service. by split_and!.
    - unfold activation_order.
      pose proof (rng_shuffle_perm (unique_id <$> schedule m0) (random m0)) as Hperm.
      rewrite Hperm. by apply staffed_employee_scheduled. }
  destruct (process_purchase_events_frame (schedule_step m0))
    as ((Hcb&_)&_&Hlb&_&_&Hqb).
  destruct (schedule_step_frame m0) as ((Hca&_)&_).
  pose proof (sync_reasoner_frame _ _ _ _ Hstep) as (_&_&_&_&_&_&_&Hlc&_).
  destruct (sync_reasoner_published _ _ _ _ Hstep)
    as (fallback & m1 & new & (o & a & e & l & ->) & Hq & Hp & Hnd & _).
  simpl in Hq, Hp. split.
  - by rewrite Hlc, Hlb, Hla.
  - exists new. split_and!; [|done|].
    + rewrite Hq, Hqb, Hqa. simpl. f_equal. apply request_message_config.
      simpl. by rewrite Hcb, Hca.
    + intros isbn Hin. rewrite Hp. set_solver.
Qed.
End latency.

(** The sample model: the request its first tick publishes is served by
    its second tick. *)
Lemma requests_are_served_at_the_next_tick_witness :
  ∃ m1 m2,
    @step sample_random sample_owlready pellet_idle sample_model = Some m1 ∧
    @step sample_random sample_owlready pellet_idle m1 = Some m2 ∧
    restock_log m1 = [] ∧
    restock_log m2 =
      [{| ev_step := 2; ev_book_isbn := "A"; ev_amount := 10;
          ev_employee_id := Some "employee::0" |}].
Proof.
  assert (∃ m1, @step sample_random sample_owlready pellet_idle sample_model = Some m1) as [m1 Hs1]
    by (vm_compute; eexists; reflexivity).
  assert (∃ m2, (@step sample_random sample_owlready pellet_idle sample_model
                   ≫= @step sample_random sample_owlready pellet_idle) = Some m2) as [m2 Hs2]
    by (vm_compute; eexists; reflexivity).
  rewrite Hs1 in Hs2. change (@step sample_random sample_owlready pellet_idle m1 = Some m2) in Hs2.
  exists m1, m2.
  assert (@reachable sample_random sample_owlready m1) as Hr1.
  { apply (reachable_call (Tick pellet_idle) sample_model); [apply reachable_init | exact Hs1]. }
  destruct (@requests_are_served_at_the_next_tick sample_random sample_owlready pellet_idle sample_model m1
              (reachable_init _ _ _ _ _) Hs1) as [Hl1 _].
  destruct (@requests_are_served_at_the_next_tick sample_random sample_owlready pellet_idle m1 m2 Hr1 Hs2)
    as [Hl2 _].
  split_and!; [done | done | |].
  - rewrite Hl1. clear. vm_compute. reflexivity.
  - rewrite Hl2, Hl1. clear Hl1 Hl2 Hr1 Hs2.
    revert Hs1. vm_compute. intros [= <-]. reflexivity.
Defined.

(** ** The cadence of the reasoner *)

Section cadence.
Context `{Random} `{Owlready}.
Implicit Types (m : BookstoreModel).

Lemma sync_input_control m :
  let mb := _process_purchase_events (schedule_step (set_step_count (step_count m + 1) m)) in
  config mb = config m ∧ step_count mb = step_count m + 1 ∧
  _reasoner_available mb = _reasoner_available m ∧ log mb = log m ∧
  _reasoner_warning_emitted mb = _reasoner_warning_emitted m.
Proof.
  intros mb. subst mb.
  destruct (schedule_step_frame (set_step_count (step_count m + 1) m))
    as ((Hc&_&Hs&Ha&He&Hl)&_).
  destruct (process_purchase_events_frame
              (schedule_step (set_step_count (step_count m + 1) m)))
    as ((Hc'&_&Hs'&Ha'&He'&Hl')&_).
  rewrite Hc', Hs', Ha', He', Hl', Hc, Hs, Ha, He, Hl. done.
Qed.

(** X12.  The reasoner runs on schedule.  With a synchronisation
    interval [k] other than zero, a tick whose number is not a multiple of
    [k] never consults the reasoner: the tick has the same outcome
    whatever the reasoner would do, and it leaves the availability flag
    and the warning log as they were.  At every other tick (the interval
    is zero, or divides the tick number) an available reasoner is
    consulted: if it raises, the flag is cleared and the failure is logged
    at that very tick. *)
Theorem reasoner_runs_on_schedule (pellet : Pellet) m m' :
  step pellet m = Some m' →
  let k := reasoner_sync_interval (config m) in
  let n := step_count m + 1 in
  (k ≠ 0 → n mod k ≠ 0 →
   (∀ pellet', step pellet' m = Some m') ∧
   _reasoner_available m' = _reasoner_available m ∧ log m' = log m) ∧
  (k = 0 ∨ n mod k = 0 → _reasoner_available m = true →
   ∀ exc, (∀ o, pellet o = inl exc) →
          _reasoner_available m' = false ∧ log m' = log m ++ [ReasonerFailed exc]).
Proof.
  intros Hstep k n. unfold step in Hstep.
  destruct (sync_input_control m) as (Hc & Hs & Ha & Hl & _).
  set (mb := _process_purchase_events _) in *.
  assert (sync_skipped false mb = negb (k =? 0) && negb (n mod k =? 0)) as Hskip.
  { unfold sync_skipped. by rewrite Hc, Hs. }
  split.
  - intros Hk Hn.
    assert (sync_skipped false mb = true) as Hsk.
    { rewrite Hskip. apply andb_true_iff. split; apply negb_true_iff, Z.eqb_neq; done. }
    unfold _sync_reasoner_if_needed in Hstep. rewrite Hsk in Hstep.
    split_and!.
    + intros pellet'. unfold step. fold mb. unfold _sync_reasoner_if_needed.
      by rewrite Hsk.
    + apply enqueue_control in Hstep as (_&_&_&->&_). done.
    + apply enqueue_control in Hstep as (_&_&_&_&_&->). done.
  - intros Hdue Havail exc Hexc.
    assert (sync_skipped false mb = false) as Hsk.
    { rewrite Hskip. apply andb_false_iff.
      destruct Hdue as [-> | ->]; [by left | by right]. }
    rewrite (sync_reasoner_failure _ _ _ exc) in Hstep; [|congruence|done|done].
    apply enqueue_control in Hstep as (_&_&_&->&_&->). simpl. by rewrite Hl.
Qed.

(** *** A report in degraded mode *)

Lemma enqueue_loop_rows fallback items m m' :
  enqueue_loop fallback items m = Some m' →
  ∀ isbn item, (isbn, item) ∈ items → is_Some (PyDict.get isbn (inventory_snapshots m)).
Proof.
  revert m. induction items as [|[k item0] items IH]; intros m He isbn item Hin.
  { by apply elem_of_nil in Hin. }
  simpl in He.
  destruct (PyDict.get k (inventory_snapshots m)) as [s0|] eqn:Hg0; [simpl in He|done].
  apply elem_of_cons in Hin as [[= -> ->] | Hin]; [by eexists|].
  destruct (negb _ || _); [by eapply IH|].
  by apply (IH _ He isbn item Hin).
Qed.

Lemma enqueue_loop_settled items m :
  (∀ isbn item, (isbn, item) ∈ items →
     ∃ s, PyDict.get isbn (inventory_snapshots m) = Some s ∧
          (quantity s <? low_threshold s = true → isbn ∈ pending_restocks m)) →
  enqueue_loop true items m = Some m.
Proof.
  induction items as [|[k item0] items IH]; intros Hall; simpl; [done|].
  destruct (Hall k item0) as (s & -> & Hpend); [left|]. simpl.
  destruct (quantity s <? low_threshold s) eqn:Hflag; simpl.
  - rewrite bool_decide_eq_true_2 by auto. apply IH.
    intros isbn item Hin. apply (Hall isbn item). by right.
  - apply IH. intros isbn item Hin. apply (Hall isbn item). by right.
Qed.

(** X13.  In degraded mode a report is repeatable.  Once the reasoner is
    unavailable, a second report, whatever the reasoner would do, returns
    the same data as the first and leaves the model exactly as the first
    left it: nothing more is published, warned or changed. *)
Theorem degraded_report_is_repeatable (pellet pellet' : Pellet) m (r : Report) m1 :
  _reasoner_available m = false →
  generate_report pellet m = Some (r, m1) →
  generate_report pellet' m1 = Some (r, m1).
Proof.
  intros Ha Hrep. unfold generate_report in *.
  destruct (_sync_reasoner_if_needed pellet true m) as [m2|] eqn:Hs; simplify_eq/=.
  rewrite sync_reasoner_degraded in Hs by done.
  change (sync_skipped true m) with false in Hs. cbv iota in Hs.
  pose proof (enqueue_control _ _ _ Hs) as (_&_&_&Ha1&He1&_).
  rewrite log_reasoner_warning_available in Ha1.
  assert (_reasoner_warning_emitted m1 = true) as Hem.
  { rewrite He1. unfold _log_reasoner_warning.
    by destruct (_reasoner_warning_emitted m) eqn:?. }
  assert (_sync_reasoner_if_needed pellet' true m1 = Some m1) as ->; [|done].
  rewrite sync_reasoner_degraded by congruence.
  change (sync_skipped true m1) with false. cbv iota.
  assert (_log_reasoner_warning m1 = m1) as ->.
  { unfold _log_reasoner_warning. by rewrite Hem. }
  unfold _enqueue_restock_requests_from_ontology in *.
  pose proof (enqueue_loop_frame _ _ _ _ Hs) as (_ & Hl & Hie & _).
  apply enqueue_loop_settled. intros isbn item Hin. rewrite Hie in Hin.
  destruct (enqueue_loop_rows _ _ _ _ Hs isbn item Hin) as [s Hg].
  exists s. rewrite Hl. split; [done|]. intros Hflag.
  by eapply (enqueue_loop_complete true _ _ _ Hs isbn item s).
Qed.
End cadence.

(** The sample model, synchronised every third tick: its first tick leaves
    the reasoner alone. *)
Lemma reasoner_runs_on_schedule_witness :
  @step sample_random sample_owlready pellet_down sample_model = @step sample_random sample_owlready pellet_idle sample_model.
Proof.
  assert (∃ m', @step sample_random sample_owlready pellet_idle sample_model = Some m') as [m' Hstep]
    by (vm_compute; eexists; reflexivity).
  destruct (@reasoner_runs_on_schedule sample_random sample_owlready pellet_idle sample_model m' Hstep)
    as [Hskip _].
  destruct Hskip as (Hany & _); [by vm_compute | by vm_compute |].
  by rewrite Hstep, (Hany pellet_down).
Defined.

(** A model built without the reasoner: two reports in a row. *)
Definition degraded_model : @BookstoreModel sample_random :=
  @BookstoreModel_init sample_random sample_owlready sample_ontology None (Some GreedyPurchasePolicy) false ().

Lemma degraded_report_is_repeatable_witness :
  ∃ r m1,
    @generate_report sample_random pellet_idle degraded_model = Some (r, m1) ∧
    @generate_report sample_random pellet_down m1 = Some (r, m1) ∧
    reasoner_active r = false.
Proof.
  assert (∃ r m1, @generate_report sample_random pellet_idle degraded_model = Some (r, m1) ∧
                  reasoner_active r = false)
    as (r & m1 & Hrep & Hr) by (vm_compute; eexists _, _; split; reflexivity).
  exists r, m1. split_and!; [done| |done].
  apply (@degraded_report_is_repeatable sample_random pellet_idle pellet_down degraded_model);
    [by vm_compute | exact Hrep].
Defined.

(** ** The service facade: batches of ticks *)

Section batches.
Context `{Random} `{Owlready}.
Implicit Types (m : BookstoreModel) (mgr : SimulationManager).

Lemma run_app pellets1 pellets2 m :
  run (pellets1 ++ pellets2) m = run pellets1 m ≫= run pellets2.
Proof.
  revert m. induction pellets1 as [|p pellets1 IH]; intros m; simpl; [done|].
  destruct (step p m) as [m1|]; simpl; [apply IH | done].
Qed.

Lemma run_frame pellets m m' :
  run pellets m = Some m' →
  step_count m' = step_count m + Z.of_nat (length pellets) ∧ config m' = config m.
Proof.
  revert m. induction pellets as [|p pellets IH]; intros m; simpl.
  - intros [= <-]. split; [lia | done].
  - destruct (step p m) as [m1|] eqn:Hs; [simpl|done]. intros [-> ->]%IH.
    pose proof (step_count_step _ _ _ Hs) as ->.
    destruct (sync_input_control m) as (Hc & _).
    unfold step in Hs. apply sync_reasoner_frame in Hs as (-> & _).
    split; [lia | done].
Qed.

Lemma run_total pellets m : ledger_wf m → is_Some (run pellets m).
Proof. rewrite run_calls. apply calls_total. Qed.

(** The model of [run_steps] after the two overrides. *)
Definition overridden (interval seed : option Z) m : BookstoreModel :=
  let m :=
    match interval with
    | Some interval => set_config (with_interval interval (config m)) m
    | None => m
    end in
  match seed with
  | Some s => set_random (rng_seed s) (set_config (with_seed s (config m)) m)
  | None => m
  end.

(** X14.  [run_steps] on a manager whose model has a well-formed ledger
    returns: it runs [steps] ticks when [steps] is positive and none
    otherwise, returns the tick count, which has grown by that number, and
    in both cases saves the model's ontology to the file.  The overrides it
    was given stay in the configuration for the later batches, and the
    customer seed data are kept. *)
Theorem run_steps_counts_and_persists (steps : Z) (interval seed : option Z)
    (pellet : nat → Pellet) mgr :
  ledger_wf (model mgr) →
  ∃ mgr',
    run_steps steps interval seed pellet mgr =
      Some (step_count (model mgr) + Z.max steps 0, mgr') ∧
    step_count (model mgr') = step_count (model mgr) + Z.max steps 0 ∧
    storage mgr' = Some (ontology (model mgr')) ∧
    customer_seed_data mgr' = customer_seed_data mgr ∧
    config (model mgr') = config (overridden interval seed (model mgr)) ∧
    reasoner_sync_interval (config (model mgr')) =
      default (reasoner_sync_interval (config (model mgr))) interval ∧
    random_seed (config (model mgr')) =
      from_option Some (random_seed (config (model mgr))) seed.
Proof.
  intros Hwf. unfold run_steps. cbv zeta. fold (overridden interval seed (model mgr)).
  assert (ledger_wf (overridden interval seed (model mgr))) as Hwf'.
  { apply (ledger_wf_same (model mgr)); [| |done];
      unfold overridden; by destruct interval, seed. }
  destruct (run_total (pellet <$> seq 0 (Z.to_nat steps)) _ Hwf') as [m' Hrun].
  rewrite Hrun. simpl. apply run_frame in Hrun as [Hs Hc].
  rewrite length_fmap, length_seq in Hs.
  assert (step_count (overridden interval seed (model mgr)) = step_count (model mgr)) as Hs0
    by (unfold overridden; by destruct interval, seed).
  exists {| storage := Some (ontology m'); customer_seed_data := customer_seed_data mgr;
            model := m' |}.
  split_and!; simpl; try done.
  - do 2 f_equal. lia.
  - lia.
  - rewrite Hc. unfold overridden. by destruct interval, seed.
  - rewrite Hc. unfold overridden. by destruct interval, seed.
Qed.

(** X15.  Batches compose.  Running [a + b] ticks in one batch gives the
    same count, the same model and the same saved file as running [a]
    ticks and then [b] ticks, the reasoner behaving the same at every
    tick: between two batches the facade keeps nothing but the model and
    the file. *)
Theorem run_steps_batches_compose (a b : Z) (pellet : nat → Pellet) mgr :
  0 ≤ a → 0 ≤ b →
  run_steps (a + b) None None pellet mgr =
    '(_, mgr1) ← run_steps a None None pellet mgr;
    run_steps b None None (λ i, pellet (Z.to_nat a + i)%nat) mgr1.
Proof.
  intros Ha Hb. unfold run_steps. cbv zeta.
  rewrite Z2Nat.inj_add, seq_app, fmap_app, run_app by done.
  assert (pellet <$> seq (0 + Z.to_nat a) (Z.to_nat b) =
          (λ i, pellet (Z.to_nat a + i)%nat) <$> seq 0 (Z.to_nat b)) as ->.
  { rewrite Nat.add_0_l. generalize (Z.to_nat a). intros n.
    rewrite <- (Nat.add_0_r n) at 1.
    rewrite <- (fmap_add_seq n 0), <- list_fmap_compose. done. }
  by destruct (run (pellet <$> seq 0 (Z.to_nat a)) (model mgr)) as [m1|].
Qed.
End batches.

Lemma run_steps_counts_and_persists_witness :
  fst <$> @run_steps sample_random sample_owlready (-3) (Some 1) None (λ _, pellet_idle) sample_manager = Some 0.
Proof.
  pose proof (@create_model_reachable sample_random sample_owlready sample_ontology load_config true ())
    as Hwf%reachable_wf.
  pose proof (@create_model_fresh sample_random sample_owlready sample_ontology load_config true ())
    as (_ & _ & Hfresh).
  change (@_create_model sample_random sample_owlready sample_ontology load_config true ())
    with (model sample_manager) in Hwf, Hfresh.
  destruct (@run_steps_counts_and_persists sample_random sample_owlready (-3) (Some 1) None
              (λ _, pellet_idle) sample_manager Hwf) as (mgr' & -> & _).
  rewrite Hfresh. reflexivity.
Defined.

Lemma run_steps_batches_compose_witness :
  @run_steps sample_random sample_owlready (1 + 2) None None (λ _, pellet_idle) sample_manager =
    '(_, mgr1) ← @run_steps sample_random sample_owlready 1 None None (λ _, pellet_idle) sample_manager;
    @run_steps sample_random sample_owlready 2 None None (λ _, pellet_idle) mgr1.
Proof.
  apply (@run_steps_batches_compose sample_random sample_owlready 1 2 (λ _, pellet_idle) sample_manager); lia.
Defined.

(** ** Seeding customers *)

Section seeding.
(** What [add_customers] never writes. *)
Definition same_catalogue_store (o o' : Ontology) : Prop :=
  onto_Book o' = onto_Book o ∧ onto_Inventory o' = onto_Inventory o ∧
  onto_Employee o' = onto_Employee o ∧ onto_Order o' = onto_Order o.

Lemma with_Customer_same o : with_Customer (onto_Customer o) o = o.
Proof. by destruct o. Qed.

Lemma add_customer_spec default_budget acc record :
  let acc' := add_customer default_budget acc record in
  same_catalogue_store acc.2 acc'.2 ∧
  (acc'.1 = false → acc.1 = false ∧ acc'.2 = acc.2) ∧
  (acc.1 = true → acc'.1 = true).
Proof.
  intros acc'. subst acc'. unfold add_customer, same_catalogue_store.
  destruct (seed_identifier record) as [|c rest]; [done|].
  unfold individual.
  destruct (PyDict.get _ (onto_Customer acc.2)) as [customer|] eqn:Hg; simpl.
  - destruct (HasBudget customer) as [|existing ?]; simpl; [done|].
    destruct (PrimFloat.eqb existing _); simpl; [|done].
    split_and!; [done..| |done]. intros ->. by rewrite with_Customer_same.
  - done.
Qed.

(** X16.  [add_customers] reports every change.  It writes customer
    individuals only, never a book, an inventory, an employee or an order;
    and when it returns [False] the ontology is exactly as it was, so that
    the caller, which saves the file only on [True], never loses a
    change. *)
Theorem add_customers_reports_every_change (customers : list CustomerSeed) (o : Ontology) :
  let result := add_customers customers o in
  same_catalogue_store o result.2 ∧ (result.1 = false → result.2 = o).
Proof.
  intros result. subst result. unfold add_customers.
  assert (∀ acc,
            let acc' := foldl (add_customer 50%float) acc customers in
            same_catalogue_store acc.2 acc'.2 ∧
            (acc'.1 = false → acc.1 = false ∧ acc'.2 = acc.2)) as Hfold.
  { induction customers as [|record customers IH]; intros acc; simpl; [done|].
    destruct (IH (add_customer 50%float acc record)) as [Hsame Hquiet].
    destruct (add_customer_spec 50%float acc record) as (Hsame1 & Hquiet1 & _).
    split.
    - unfold same_catalogue_store in *. destruct_and!. split_and!; congruence.
    - intros Hf. destruct (Hquiet Hf) as [Hf1 ->]. by apply Hquiet1. }
  destruct (Hfold (false, o)) as [Hsame Hquiet].
  split; [done|]. intros Hf. by destruct (Hquiet Hf).
Qed.
End seeding.

(** ** Draining the purchase topic *)

(** The number of records of [recs] for the book [isbn]. *)
Definition sold (isbn : string) (recs : list PurchaseRecord) : Z :=
  Z.of_nat (length (List.filter (λ r, bool_decide (pr_book r = isbn)) recs)).

Lemma sold_app isbn recs1 recs2 : sold isbn (recs1 ++ recs2) = sold isbn recs1 + sold isbn recs2.
Proof. unfold sold. rewrite List.filter_app, length_app. lia. Qed.

Lemma with_quantity_twice q q' s : with_quantity q' (with_quantity q s) = with_quantity q' s.
Proof. done. Qed.

Section drain.
Context `{Random} `{Owlready}.
Implicit Types (m : BookstoreModel).

(** From [m] to [m'] purchases have been applied: the records [recs]
    were appended, each row lost one copy per record for it, and no row
    lost more copies than it had. *)
Definition sales (m m' : BookstoreModel) : Prop :=
  step_count m' = step_count m ∧
  ∃ recs,
    purchase_log m' = purchase_log m ++ recs ∧
    Forall (λ r, pr_step r = step_count m ∧
                 is_Some (PyDict.get (pr_book r) (inventory_snapshots m))) recs ∧
    (∀ isbn, PyDict.get isbn (inventory_snapshots m) = None →
             PyDict.get isbn (inventory_snapshots m') = None) ∧
    ∀ isbn s,
      PyDict.get isbn (inventory_snapshots m) = Some s →
      PyDict.get isbn (inventory_snapshots m') =
        Some (with_quantity (quantity s - sold isbn recs) s) ∧
      sold isbn recs ≤ Z.max (quantity s) 0.

Lemma sales_quiet m m' :
  step_count m' = step_count m → purchase_log m' = purchase_log m →
  inventory_snapshots m' = inventory_snapshots m → sales m m'.
Proof.
  intros Hs Hp Hl. split; [done|]. exists []. rewrite app_nil_r, Hl.
  split_and!; [done | constructor | done |].
  intros isbn s Hg. unfold sold. simpl. rewrite Z.sub_0_r.
  replace (with_quantity (quantity s) s) with s by (by destruct s). split; [done | lia].
Qed.

#[local] Instance sales_refl : Reflexive sales.
Proof. intros m. by apply sales_quiet. Qed.

#[local] Instance sales_trans : Transitive sales.
Proof.
  intros m1 m2 m3 (Hs & recs & Hp & Hall & Hnone & Hrows)
    (Hs' & recs' & Hp' & Hall' & Hnone' & Hrows').
  split; [congruence|]. exists (recs ++ recs'). split_and!.
  - by rewrite Hp', Hp, <- app_assoc.
  - apply Forall_app. split; [done|].
    eapply Forall_impl; [exact Hall'|]. simpl. intros r [Hr [s2 Hg2]].
    split; [congruence|].
    destruct (PyDict.get (pr_book r) (inventory_snapshots m1)) as [s1|] eqn:Hg1; [by eexists|].
    apply Hnone in Hg1. congruence.
  - intros isbn Hg. by apply Hnone', Hnone.
  - intros isbn s Hg. destruct (Hrows isbn s Hg) as [Hg2 Hle].
    destruct (Hrows' isbn _ Hg2) as [Hg3 Hle']. simpl in Hg3, Hle'.
    rewrite sold_app. split; [|lia].
    rewrite Hg3, with_quantity_twice. do 2 f_equal. lia.
Qed.

Lemma process_purchase_message_sales message m :
  sales m (_process_purchase_message message m).
Proof.
  destruct (purchase_applies message m) as [[[book customer] s]|] eqn:Ha;
    [|by rewrite process_purchase_message_skip].
  destruct (process_purchase_message_apply message m _ _ _ Ha) as (Hl & _ & Hp & _).
  destruct (process_purchase_message_frame message m) as ((_&_&Hs&_)&_).
  apply purchase_applies_get in Ha as [Hg Hpos].
  split; [done|]. eexists [_]. split_and!; [exact Hp | | |].
  - apply Forall_singleton. simpl. split; [done | by eexists].
  - intros isbn Hn. rewrite Hl, PyDictFacts.get_set_ne; [done|]. congruence.
  - intros isbn s0 Hg0. rewrite Hl. unfold sold. simpl.
    destruct (decide (book = isbn)) as [->|Hne].
    + rewrite PyDictFacts.get_set_eq, bool_decide_eq_true_2 by done.
      simplify_eq. simpl. split; [done | lia].
    + rewrite PyDictFacts.get_set_ne, bool_decide_eq_false_2 by done. simpl.
      rewrite Z.sub_0_r. replace (with_quantity (quantity s0) s0) with s0 by (by destruct s0).
      split; [done | lia].
Qed.

Lemma purchase_loop_log_length fuel m :
  (length (purchase_log (purchase_loop fuel m)) ≤ length (purchase_log m) + fuel)%nat.
Proof.
  revert m. induction fuel as [|fuel IH]; intros m; simpl; [lia|].
  destruct (MessageBus.poll "purchases" (message_bus m)) as [[message|] bus]; [|lia].
  etrans; [apply IH|].
  set (m1 := set_message_bus bus m).
  destruct (purchase_applies message m1) as [[[book customer] s]|] eqn:Ha.
  - destruct (process_purchase_message_apply message m1 _ _ _ Ha) as (_ & _ & -> & _).
    rewrite length_app. simpl. lia.
  - rewrite process_purchase_message_skip by done. simpl. lia.
Qed.

(** X17.  Draining the purchase topic never oversells.  The drain empties
    the topic and appends at most one record per waiting message, each
    with the current tick and for a book of the ledger.  Every row ends
    with its quantity reduced by exactly the number of new records for its
    isbn, and that number never exceeds the copies the row had: however
    many customers ordered the same book in one tick, only the copies in
    stock are sold; the other orders leave no trace. *)
Theorem purchases_never_oversell m :
  let m' := _process_purchase_events m in
  MessageBus.queue "purchases" (message_bus m') = [] ∧
  ∃ recs,
    purchase_log m' = purchase_log m ++ recs ∧
    (length recs ≤ length (MessageBus.queue "purchases" (message_bus m)))%nat ∧
    Forall (λ r, pr_step r = step_count m ∧
                 is_Some (PyDict.get (pr_book r) (inventory_snapshots m))) recs ∧
    ∀ isbn s,
      PyDict.get isbn (inventory_snapshots m) = Some s →
      PyDict.get isbn (inventory_snapshots m') =
        Some (with_quantity (quantity s - sold isbn recs) s) ∧
      sold isbn recs ≤ Z.max (quantity s) 0.
Proof.
  intros m'. split; [apply process_purchase_events_drained|].
  assert (sales m m') as (_ & recs & Hp & Hall & _ & Hrows).
  { unfold m', _process_purchase_events. apply purchase_loop_rel; [apply _..|].
    intros m1 message bus _. etrans; [|apply process_purchase_message_sales].
    by apply sales_quiet. }
  exists recs. split_and!; [done| |done..].
  pose proof (purchase_loop_log_length
                (length (MessageBus.queue "purchases" (message_bus m))) m) as Hlen.
  fold (_process_purchase_events m) in Hlen. fold m' in Hlen.
  rewrite Hp, length_app in Hlen. lia.
Qed.
End drain.

(** ** The purchases of a report *)

From Stdlib Require OrderedTypeEx.
From Stdlib Require Import Sorting.Sorted.

(** The order of Python's [sorted] on names. *)
Definition name_lt (a b : string) : Prop := String.compare a b = Lt.

Lemma name_lt_trans a b c : name_lt a b → name_lt b c → name_lt a c.
Proof.
  unfold name_lt. intros Hab Hbc.
  apply OrderedTypeEx.String_as_OT.cmp_lt.
  eapply OrderedTypeEx.String_as_OT.lt_trans;
    by apply OrderedTypeEx.String_as_OT.cmp_lt.
Qed.

Lemma name_lt_irrefl a : ¬ name_lt a a.
Proof.
  unfold name_lt. intros Hlt.
  pose proof (String.compare_antisym a a) as Hanti. rewrite Hlt in Hanti. done.
Qed.

Lemma name_gt_lt a b : String.compare a b = Gt → name_lt b a.
Proof.
  unfold name_lt. intros Hgt. rewrite String.compare_antisym, Hgt. done.
Qed.

Lemma insert_sorted_spec x l :
  StronglySorted name_lt l →
  StronglySorted name_lt (insert_sorted x l) ∧ ∀ z, z ∈ insert_sorted x l ↔ z = x ∨ z ∈ l.
Proof.
  induction l as [|y l IH]; intros Hs; simpl.
  - split; [repeat constructor|]. intros z. rewrite list_elem_of_singleton, elem_of_nil. tauto.
  - apply StronglySorted_inv in Hs as [Hl Hy].
    destruct (String.compare x y) eqn:Hc.
    + apply String.compare_eq_iff in Hc as ->.
      split; [by constructor|]. intros z. rewrite elem_of_cons. tauto.
    + split.
      * constructor; [by constructor|]. constructor; [done|].
        eapply Forall_impl; [exact Hy|]. intros z Hz. by eapply name_lt_trans.
      * intros z. rewrite !elem_of_cons. tauto.
    + destruct (IH Hl) as [Hs' Hin]. split.
      * constructor; [done|]. apply Forall_forall. intros z [-> | Hz]%Hin.
        { by apply name_gt_lt. }
        rewrite Forall_forall in Hy. by apply Hy.
      * intros z. rewrite !elem_of_cons, Hin. tauto.
Qed.

Lemma sorted_set_spec l :
  StronglySorted name_lt (sorted_set l) ∧ ∀ z, z ∈ sorted_set l ↔ z ∈ l.
Proof.
  induction l as [|x l [Hs Hin]]; simpl.
  - split; [constructor | done].
  - destruct (insert_sorted_spec x (sorted_set l) Hs) as [Hs' Hin']. split; [done|].
    intros z. rewrite Hin', Hin, elem_of_cons. tauto.
Qed.

Lemma sorted_NoDup l : StronglySorted name_lt l → NoDup l.
Proof.
  induction 1 as [|x l Hl IH Hx]; constructor; [|done].
  intros Hin. rewrite Forall_forall in Hx. by apply (name_lt_irrefl x), Hx.
Qed.

(** The books a report attributes to a customer individual. *)
Definition source_books (customer : CustomerInd) : list string :=
  match HasPurchased customer with
  | [] => Purchases customer
  | books => books
  end.

(** X18.  The purchases of a report.  Every customer the report lists is a
    customer individual of the store, listed with a non-empty list of
    books in strictly increasing order of name, hence without duplicates;
    the books are those of some individual of that name: its inferred
    [HasPurchased] values when it has any, its asserted [Purchases]
    otherwise. *)
Theorem report_purchases_are_sorted_sets (o : Ontology) (name : string)
    (books : list string) :
  (name, books) ∈ purchases_by_customer o →
  books ≠ [] ∧ StronglySorted name_lt books ∧ NoDup books ∧
  ∃ customer, (name, customer) ∈ onto_Customer o ∧
              ∀ book, book ∈ books ↔ book ∈ source_books customer.
Proof.
  unfold purchases_by_customer.
  set (good := λ entry : string * list string,
         entry.2 ≠ [] ∧ StronglySorted name_lt entry.2 ∧ NoDup entry.2 ∧
         ∃ customer, (entry.1, customer) ∈ onto_Customer o ∧
                     ∀ book, book ∈ entry.2 ↔ book ∈ source_books customer).
  assert (∀ customers acc,
            (∀ entry, entry ∈ customers → entry ∈ onto_Customer o) →
            (∀ entry, entry ∈ acc → good entry) →
            ∀ entry,
              entry ∈ foldl
                (λ acc '(name, customer),
                   let source_books :=
                     match HasPurchased customer with
                     | [] => Purchases customer
                     | books => books
                     end in
                   match sorted_set source_books with
                   | [] => acc
                   | purchased_books => PyDict.set name purchased_books acc
                   end) acc customers →
              good entry) as Hfold.
  { induction customers as [|[k customer] customers IH]; intros acc Hsub Hacc; simpl; [done|].
    apply IH; [intros entry Hin; apply Hsub; by right|].
    fold (source_books customer).
    destruct (sorted_set_spec (source_books customer)) as [Hs Hin].
    destruct (sorted_set (source_books customer)) as [|b bs] eqn:Hset; [done|].
    intros [k' books'] [[-> ->] | Hold]%PyDictFacts.elem_of_set; [|by apply Hacc].
    unfold good. simpl. split_and!; [done | done | by apply sorted_NoDup|].
    exists customer. split; [apply Hsub; left | done]. }
  intros Hin. apply (Hfold (onto_Customer o) [] (λ _ Hx, Hx)) in Hin; [done|].
  by intros entry ?%elem_of_nil.
Qed.

(** A store with one customer who bought [B], [A] and [B] again. *)
Definition sample_purchases : Ontology :=
  with_Customer
    [("customer_0",
      {| Purchases := ["B"; "A"; "B"]; HasPurchased := []; HasBudget := [50%float] |})]
    sample_ontology.

Lemma report_purchases_are_sorted_sets_witness : NoDup ["A"; "B"].
Proof.
  apply (report_purchases_are_sorted_sets sample_purchases "customer_0" ["A"; "B"]).
  vm_compute. left.
Defined.

(** ** The ledger and the store: a round trip *)

Section round_trip.
Context `{Random} `{Owlready}.
Implicit Types (m : BookstoreModel).

Lemma write_back_store (s : InventorySnapshot) (nr : option bool) m :
  PyDict.get (book_isbn s)
    (onto_Inventory (ontology (_write_back_inventory_to_ontology s nr m))) =
    Some {| AvailableQuantity := [quantity s]; LowThreshold := [low_threshold s];
            NeedsRestock := [default (quantity s <? low_threshold s) nr] |} ∧
  config (_write_back_inventory_to_ontology s nr m) = config m.
Proof.
  unfold _write_back_inventory_to_ontology, _ensure_inventory_entity. cbv zeta.
  destruct (ensure_book_touched (book_isbn s) m) as (o & be & ce & ee & ->).
  simpl. by rewrite PyDictFacts.get_set_eq.
Qed.

(** X19.  What is written back is what is loaded.  After a row has been
    written back to the store, loading its book from the store gives a row
    with the same isbn, quantity and threshold, whatever the configured
    default threshold is; title and price are those of the book
    individual.  Loading leaves the inventory individual as the write-back
    left it. *)
Theorem written_back_row_loads_unchanged (s : InventorySnapshot) (nr : option bool)
    (book : BookInd) m :
  let m1 := _write_back_inventory_to_ontology s nr m in
  let m2 := _load_book (book_isbn s) book m1 in
  PyDict.get (book_isbn s) (inventory_snapshots m2) =
    Some {| book_isbn := book_isbn s; title := first_or (book_isbn s) (HasTitle book);
            quantity := quantity s; price := first_or 0%float (HasPrice book);
            low_threshold := low_threshold s |} ∧
  PyDict.get (book_isbn s) (onto_Inventory (ontology m2)) =
    PyDict.get (book_isbn s) (onto_Inventory (ontology m1)) ∧
  PyDict.get (book_isbn s) (inventory_entities m2) = Some (book_isbn s).
Proof.
  intros m1 m2. destruct (write_back_store s nr m) as [Hstore _]. fold m1 in Hstore.
  subst m2. unfold _load_book, ensure_inventory_for, individual.
  rewrite Hstore. simpl. rewrite !PyDictFacts.get_set_eq. done.
Qed.
End round_trip.

(** ** Loading the ledger from the store *)

(** The row [_load_inventory_from_ontology] builds for a book of the
    store [o], with the configured default threshold [d]. *)
Definition loaded_row (o : Ontology) (d : Z) (isbn : string) (book : BookInd)
  : InventorySnapshot :=
  let inventory := inventory_ind isbn o in
  {| book_isbn := isbn; title := first_or isbn (HasTitle book);
     quantity := first_or 0 (AvailableQuantity inventory);
     price := first_or 0%float (HasPrice book);
     low_threshold := first_or d (LowThreshold inventory) |}.

(** What a load reads of an inventory individual is the same in [o'] as
    in [o]. *)
Definition same_readings (d : Z) (o o' : Ontology) : Prop :=
  ∀ isbn,
    first_or 0 (AvailableQuantity (inventory_ind isbn o')) =
      first_or 0 (AvailableQuantity (inventory_ind isbn o)) ∧
    first_or d (LowThreshold (inventory_ind isbn o')) =
      first_or d (LowThreshold (inventory_ind isbn o)).

Lemma loaded_row_same d o o' isbn book :
  same_readings d o o' → loaded_row o' d isbn book = loaded_row o d isbn book.
Proof. intros Hsame. unfold loaded_row. cbv zeta. by destruct (Hsame isbn) as [-> ->]. Qed.

Lemma set_fresh {V} (k : string) (v : V) d :
  k ∉ PyDict.keys d → PyDict.set k v d = d ++ [(k, v)].
Proof.
  unfold PyDict.keys. induction d as [|[k' v'] d IH]; [done|].
  rewrite fmap_cons, not_elem_of_cons, set_cons. simpl. intros [Hne Hnin].
  rewrite decide_False by done. by rewrite IH.
Qed.

Section loading.
Context `{Random} `{Owlready}.
Implicit Types (m : BookstoreModel).

Lemma load_book_spec isbn book m :
  let m' := _load_book isbn book m in
  inventory_snapshots m' =
    PyDict.set isbn (loaded_row (ontology m) (restock_threshold (config m)) isbn book)
      (inventory_snapshots m) ∧
  config m' = config m ∧
  same_readings (restock_threshold (config m)) (ontology m) (ontology m').
Proof.
  intros m'. subst m'. unfold _load_book, loaded_row, ensure_inventory_for, individual,
    inventory_ind.
  destruct (PyDict.get isbn (onto_Inventory (ontology m))) as [inventory|] eqn:Hg; simpl.
  - split_and!; [done..|]. intros k. unfold inventory_ind. simpl.
    destruct (decide (isbn = k)) as [<-|Hne].
    + rewrite PyDictFacts.get_set_eq, Hg. simpl.
      split; [done|]. by destruct (LowThreshold inventory).
    + by rewrite PyDictFacts.get_set_ne.
  - split_and!; [done..|]. intros k. unfold inventory_ind. simpl.
    destruct (decide (isbn = k)) as [<-|Hne].
    + by rewrite PyDictFacts.get_set_eq, Hg.
    + by rewrite !PyDictFacts.get_set_ne.
Qed.

Lemma load_books_spec o d books m :
  same_readings d o (ontology m) → restock_threshold (config m) = d →
  inventory_snapshots (foldl (λ m '(isbn, book), _load_book isbn book m) m books) =
    foldl (λ acc '(isbn, book), PyDict.set isbn (loaded_row o d isbn book) acc)
      (inventory_snapshots m) books.
Proof.
  revert m. induction books as [|[isbn book] books IH]; intros m Hsame Hd; simpl; [done|].
  destruct (load_book_spec isbn book m) as (Hl & Hc & Hsame').
  rewrite IH.
  - rewrite Hl, Hd. by rewrite (loaded_row_same d o).
  - intros k. destruct (Hsame k) as [<- <-]. rewrite Hd in Hsame'. apply Hsame'.
  - by rewrite Hc.
Qed.

Lemma set_rows_fresh (f : string → BookInd → InventorySnapshot) books acc :
  NoDup (PyDict.keys acc ++ PyDict.keys books) →
  foldl (λ acc '(isbn, book), PyDict.set isbn (f isbn book) acc) acc books =
    acc ++ ((λ '(isbn, book), (isbn, f isbn book)) <$> books).
Proof.
  revert acc. induction books as [|[isbn book] books IH]; intros acc Hnd; simpl.
  - by rewrite app_nil_r.
  - unfold PyDict.keys in *. rewrite fmap_cons in Hnd. simpl in Hnd.
    apply NoDup_app in Hnd as (Hacc & Hdisj & Hbooks).
    apply NoDup_cons in Hbooks as [Hfresh Hbooks].
    assert (isbn ∉ acc.*1) as Hnin by (intros Hin; apply (Hdisj isbn Hin); left).
    rewrite (set_fresh isbn _ acc) by done. rewrite IH.
    + by rewrite <- app_assoc.
    + rewrite fmap_app. simpl. rewrite <- app_assoc. simpl.
      apply NoDup_app. split_and!; [done | | by constructor].
      intros k Hk [-> | Hin]%elem_of_cons; [done|]. apply (Hdisj k Hk). by right.
Qed.

(** X20.  Construction loads one row per book.  When the books of the
    store have distinct names, the ledger of a new model lists them in
    the store's order, each under its name with the title and price of the
    book (the name and 0.0 when it has none), the quantity of its
    inventory individual (0 when it has none) and that individual's
    threshold (the configured [restock_threshold] when it has none). *)
Theorem construction_loads_one_row_per_book (onto : Ontology)
    (cfg : option SimulationSettings) (policy : option DecisionPolicy)
    (imported : bool) (entropy : RandomState) :
  NoDup (PyDict.keys (onto_Book onto)) →
  inventory_snapshots (BookstoreModel_init onto cfg policy imported entropy) =
    (λ '(isbn, book),
       (isbn, loaded_row onto (restock_threshold (default load_config cfg)) isbn book))
      <$> onto_Book onto.
Proof.
  intros Hnd. unfold BookstoreModel_init. cbv zeta.
  match goal with |- context [_register_agents ?x] =>
    destruct (register_agents_ledger x) as [-> _]
  end.
  unfold _load_inventory_from_ontology.
  rewrite (load_books_spec onto (restock_threshold (default load_config cfg))); [|done..].
  by apply (set_rows_fresh _ _ []).
Qed.

(** *** The entity caches *)

(** X21.  An agent id and its normalised form are one entity.
    [_ensure_customer_entity] and [_ensure_employee_entity] return the
    name of an individual and cache it under the normalised id; asking
    again, under the id or under its normalised form, returns the same
    individual and changes nothing more.  An individual created for a
    non-empty normalised id bears that id as its name; for the empty id
    the name is the one Owlready2 generates. *)
Theorem ensure_entity_is_idempotent (uid : string) m :
  let name := _normalise_identifier uid in
  let customer := (_ensure_customer_entity uid m).1 in
  let mc := (_ensure_customer_entity uid m).2 in
  let employee := (_ensure_employee_entity uid m).1 in
  let me := (_ensure_employee_entity uid m).2 in
  customer_entities mc !! name = Some customer ∧
  _ensure_customer_entity uid mc = (customer, mc) ∧
  _ensure_customer_entity name mc = (customer, mc) ∧
  (customer_entities m !! name = None →
   customer = if decide (name = "") then generated_name "customer" (ontology m) else name) ∧
  employee_entities me !! name = Some employee ∧
  _ensure_employee_entity uid me = (employee, me) ∧
  _ensure_employee_entity name me = (employee, me) ∧
  (employee_entities m !! name = None →
   employee = if decide (name = "") then generated_name "employee" (ontology m) else name).
Proof.
  pose proof (normalise_idempotent_bounded (String.length uid) uid (le_n _)) as Hidem.
  assert (∀ class_name name o,
            individual_name class_name name o =
              if decide (name = "") then generated_name class_name o else name) as Hname.
  { intros class_name [|c rest] o; unfold individual_name; [done|].
    by destruct (decide (String c rest = "")). }
  assert (∀ mc entity, customer_entities mc !! _normalise_identifier uid = Some entity →
                _ensure_customer_entity uid mc = (entity, mc) ∧
                _ensure_customer_entity (_normalise_identifier uid) mc = (entity, mc)) as Hc.
  { intros mc entity Hin. unfold _ensure_customer_entity. cbv zeta.
    by rewrite Hidem, Hin. }
  assert (∀ me entity, employee_entities me !! _normalise_identifier uid = Some entity →
                _ensure_employee_entity uid me = (entity, me) ∧
                _ensure_employee_entity (_normalise_identifier uid) me = (entity, me)) as He.
  { intros me entity Hin. unfold _ensure_employee_entity. cbv zeta.
    by rewrite Hidem, Hin. }
  intros name customer mc employee me.
  assert (customer_entities mc !! name = Some customer ∧
          (customer_entities m !! name = None →
           customer = individual_name "customer" name (ontology m))) as [Hcin Hcn].
  { subst customer mc. unfold _ensure_customer_entity. cbv zeta. fold name.
    destruct (customer_entities m !! name) eqn:Hl; simpl; [done|].
    by rewrite lookup_insert_eq. }
  assert (employee_entities me !! name = Some employee ∧
          (employee_entities m !! name = None →
           employee = individual_name "employee" name (ontology m))) as [Hein Hen].
  { subst employee me. unfold _ensure_employee_entity. cbv zeta. fold name.
    destruct (employee_entities m !! name) eqn:Hl; simpl; [done|].
    by rewrite lookup_insert_eq. }
  destruct (Hc mc customer Hcin) as [? ?]. destruct (He me employee Hein) as [? ?].
  rewrite <- !Hname. by split_and!.
Qed.
End loading.

Lemma construction_loads_one_row_per_book_witness :
  inventory_snapshots sample_model = [("A", sample_row 3)].
Proof.
  unfold sample_model.
  rewrite (@construction_loads_one_row_per_book sample_random sample_owlready sample_ontology None
             (Some GreedyPurchasePolicy) true ()).
  - vm_compute. reflexivity.
  - vm_compute. apply NoDup_singleton.
Defined.

(** ** The tick, phase by phase *)

(** The purchase processor of the design document, on the ledger alone.
    The messages are taken in order.  One that names a book and a customer,
    for a row with a copy in stock, takes one copy and is given the next
    order id; any other message is discarded. *)
Definition valid_purchase (message : Message) (ledger : list (string * InventorySnapshot))
  : option (string * string * InventorySnapshot) :=
  match book_id (payload message), customer_id (payload message) with
  | Some (String c rest as book), Some customer =>
      match PyDict.get book ledger with
      | Some s => if quantity s <=? 0 then None else Some (book, customer, s)
      | None => None
      end
  | _, _ => None
  end.

Fixpoint purchase_processor_spec (tick counter : Z)
    (ledger : list (string * InventorySnapshot)) (messages : list Message)
  : list PurchaseRecord * list (string * InventorySnapshot) :=
  match messages with
  | [] => ([], ledger)
  | message :: messages' =>
      match valid_purchase message ledger with
      | Some (book, customer, s) =>
          let '(records, ledger') :=
            purchase_processor_spec tick (counter + 1)
              (PyDict.set book (with_quantity (quantity s - 1) s) ledger) messages' in
          ({| pr_order := order_name counter; pr_customer := customer; pr_book := book;
              pr_price := default 0%float (payload_price (payload message));
              pr_step := tick |} :: records, ledger')
      | None => purchase_processor_spec tick counter ledger messages'
      end
  end.

Lemma find_app_list {A} (f : A → bool) (l1 l2 : list A) :
  List.find f (l1 ++ l2) =
    match List.find f l1 with Some x => Some x | None => List.find f l2 end.
Proof. induction l1 as [|x l1 IH]; simpl; [done|]. by destruct (f x). Qed.

Section phases_of_a_tick.
Context `{Random} `{Owlready}.
Implicit Types (m : BookstoreModel).

(** *** Phase (a): an id of the schedule activates its agent *)

Lemma find_book_agents (uid : string) (agents : list Agent) :
  (∀ a, a ∈ agents → ∃ isbn, a = BookAgent ("book::" +:+ isbn) isbn) →
  match List.find (λ a, bool_decide (unique_id a = uid)) agents with
  | Some a => ∃ isbn, a = BookAgent ("book::" +:+ isbn) isbn
  | None => ∀ a, a ∈ agents → unique_id a ≠ uid
  end.
Proof.
  intros Hbooks. destruct (List.find _ agents) as [a|] eqn:Hf.
  - apply List.find_some in Hf as [Hin _]. by apply Hbooks, list_elem_of_In.
  - intros a Hin. pose proof (List.find_none _ _ Hf a) as Hn.
    rewrite <- list_elem_of_In in Hn. specialize (Hn Hin).
    by apply bool_decide_eq_false in Hn.
Qed.

Lemma registered_schedule (agents : list Agent) books policy :
  role <$> agents = registered books policy →
  ∃ book_agents budget0 budget1,
    agents = book_agents ++
             [EmployeeAgent "employee::0"; CustomerAgent "customer::0" policy budget0;
              CustomerAgent "customer::1" policy budget1] ∧
    ∀ a, a ∈ book_agents → ∃ isbn, a = BookAgent ("book::" +:+ isbn) isbn.
Proof.
  unfold registered. intros (lb & l3 & Hb & H3 & ->)%fmap_app_inv.
  symmetry in H3.
  apply fmap_cons_inv in H3 as (e & l2 & He & H2 & ->). symmetry in H2.
  apply fmap_cons_inv in H2 as (x0 & l1 & H0' & H1 & ->). symmetry in H1.
  apply fmap_cons_inv in H1 as (x1 & l0 & H1' & Hnil & ->). symmetry in Hnil.
  apply fmap_nil_inv in Hnil as ->.
  destruct e as [| |uid]; simplify_eq/=.
  destruct x0 as [|uid0 p0 budget0|]; simplify_eq/=.
  destruct x1 as [|uid1 p1 budget1|]; simplify_eq/=.
  exists lb, budget0, budget1. split; [done|].
  intros a Hin.
  assert (role a ∈ role <$> lb) as Hr by (apply list_elem_of_fmap; by exists a).
  rewrite <- Hb in Hr. apply list_elem_of_fmap in Hr as (isbn & Hr & _).
  exists isbn. destruct a; by simplify_eq/=.
Qed.

Lemma activate_scheduled m (a : Agent) :
  (∃ books policy, role <$> schedule m = registered books policy) →
  a ∈ schedule m → activate m (unique_id a) = agent_step a m.
Proof.
  intros (books & policy & Hreg) Hin. unfold activate.
  apply registered_schedule in Hreg as (lb & b0 & b1 & Hl & Hbooks).
  rewrite Hl in Hin |- *. rewrite find_app_list.
  pose proof (find_book_agents (unique_id a) lb Hbooks) as Hfind.
  apply elem_of_app in Hin as [Hin | Hin].
  - destruct (List.find _ lb) as [a'|].
    + destruct Hfind as [isbn' ->]. by destruct (Hbooks a Hin) as [isbn ->].
    + by destruct (Hfind a Hin).
  - assert (unique_id a ∈ ["employee::0"; "customer::0"; "customer::1"]) as Hid.
    { repeat (apply elem_of_cons in Hin as [-> | Hin]; [set_solver|]).
      by apply elem_of_nil in Hin. }
    destruct (List.find _ lb) as [a'|] eqn:Hf.
    { destruct Hfind as [isbn ->]. apply List.find_some in Hf as [_ Heq].
      apply bool_decide_eq_true in Heq. simpl in Heq. rewrite <- Heq in Hid.
      repeat (apply elem_of_cons in Hid as [? | Hid]; [done|]).
      by apply elem_of_nil in Hid. }
    clear Hid Hfind.
    repeat (apply elem_of_cons in Hin as [-> | Hin];
            [simpl; by repeat (case_bool_decide; simplify_eq/=)|]).
    by apply elem_of_nil in Hin.
Qed.

(** *** Phase (b): the drain is the purchase processor *)

Lemma purchase_applies_valid message m :
  purchase_applies message m = valid_purchase message (inventory_snapshots m).
Proof. done. Qed.

Lemma purchase_processor_spec_cons tick counter ledger message messages :
  purchase_processor_spec tick counter ledger (message :: messages) =
    match valid_purchase message ledger with
    | Some (book, customer, s) =>
        let '(records, ledger') :=
          purchase_processor_spec tick (counter + 1)
            (PyDict.set book (with_quantity (quantity s - 1) s) ledger) messages in
        ({| pr_order := order_name counter; pr_customer := customer; pr_book := book;
            pr_price := default 0%float (payload_price (payload message));
            pr_step := tick |} :: records, ledger')
    | None => purchase_processor_spec tick counter ledger messages
    end.
Proof. done. Qed.

Lemma purchase_loop_refines fuel m :
  (length (MessageBus.queue "purchases" (message_bus m)) ≤ fuel)%nat →
  purchase_log (purchase_loop fuel m) =
    purchase_log m ++
      (purchase_processor_spec (step_count m) (order_counter m) (inventory_snapshots m)
         (MessageBus.queue "purchases" (message_bus m))).1 ∧
  inventory_snapshots (purchase_loop fuel m) =
    (purchase_processor_spec (step_count m) (order_counter m) (inventory_snapshots m)
       (MessageBus.queue "purchases" (message_bus m))).2.
Proof.
  revert m. induction fuel as [|fuel IH]; intros m Hlen.
  - destruct (MessageBus.queue _ _); [simpl; by rewrite app_nil_r | simpl in Hlen; lia].
  - change (purchase_loop (S fuel) m) with
      (match MessageBus.poll "purchases" (message_bus m) with
       | (None, _) => m
       | (Some message, bus) =>
           purchase_loop fuel (_process_purchase_message message (set_message_bus bus m))
       end).
    destruct (MessageBus.poll "purchases" (message_bus m)) as [[message|] bus] eqn:Hpoll.
    + apply MessageBusFacts.poll_Some in Hpoll as [Hq _]. rewrite Hq in *. simpl in Hlen.
      set (m1 := set_message_bus bus m).
      destruct (process_purchase_message_frame message m1) as ((_&_&Hs&_)&_&Hbus&_).
      specialize (IH (_process_purchase_message message m1)).
      rewrite Hbus, Hs in IH.
      change (message_bus m1) with bus in IH. change (step_count m1) with (step_count m) in IH.
      specialize (IH ltac:(lia)). destruct IH as [IHl IHs].
      rewrite purchase_processor_spec_cons.
      change (valid_purchase message (inventory_snapshots m))
        with (purchase_applies message m1).
      destruct (purchase_applies message m1) as [[[book customer] s]|] eqn:Ha.
      * destruct (process_purchase_message_apply message m1 _ _ _ Ha)
          as (Hl & Hc & Hp & _).
        rewrite Hl, Hc, Hp in IHl. rewrite Hl, Hc in IHs.
        change (inventory_snapshots m1) with (inventory_snapshots m) in IHl, IHs.
        change (order_counter m1) with (order_counter m) in IHl, IHs.
        change (purchase_log m1) with (purchase_log m) in IHl.
        destruct (purchase_processor_spec _ _ _ _) as [records ledger'].
        simpl in IHl, IHs |- *. rewrite IHl, IHs. by rewrite <- app_assoc.
      * rewrite process_purchase_message_skip in IHl, IHs |- * by done. by split.
    + apply MessageBusFacts.poll_None in Hpoll as [-> _]. simpl. by rewrite app_nil_r.
Qed.

(** *** Phase (c): the requests of the restock pass *)

Lemma sync_reasoner_mode pellet force m m' :
  _sync_reasoner_if_needed pellet force m = Some m' →
  ∃ m1,
    prepared m m1 ∧
    _enqueue_restock_requests_from_ontology (negb (_reasoner_available m1)) m1 = Some m'.
Proof.
  unfold _sync_reasoner_if_needed. intros Hs.
  destruct (sync_skipped force m); [by eauto using prepared_refl|].
  destruct (_reasoner_available m) eqn:Ha; simpl in Hs.
  - destruct (pellet (ontology m)) as [exc|inferred].
    + exists (set_log (log m ++ [ReasonerFailed exc]) (set_reasoner_available false m)).
      split; [|exact Hs].
      exists (ontology m), false, (_reasoner_warning_emitted m), (log m ++ [ReasonerFailed exc]).
      by destruct m.
    + exists (set_ontology inferred m). split; [|simpl; rewrite Ha; exact Hs].
      exists inferred, (_reasoner_available m), (_reasoner_warning_emitted m), (log m).
      by destruct m.
  - exists (_log_reasoner_warning m). rewrite log_reasoner_warning_available, Ha.
    split; [|exact Hs]. unfold _log_reasoner_warning.
    destruct (_reasoner_warning_emitted m) eqn:He; [apply prepared_refl|].
    exists (ontology m), (_reasoner_available m), true, (log m ++ [ReasonerUnavailable]).
    by destruct m.
Qed.

(** The requests of a synchronisation are those of the rows that are
    flagged and not pending, the flag being the one of the mode the
    synchronisation ends in. *)
Lemma sync_reasoner_requests pellet force m m' :
  _sync_reasoner_if_needed pellet force m = Some m' →
  ∃ new,
    MessageBus.queue "restock" (message_bus m') =
      MessageBus.queue "restock" (message_bus m) ++ (request_message m <$> new) ∧
    pending_restocks m' = pending_restocks m ∪ list_to_set new ∧ NoDup new ∧
    ∀ isbn,
      isbn ∈ new ↔
      isbn ∉ pending_restocks m ∧
      ∃ item s, (isbn, item) ∈ inventory_entities m ∧
                PyDict.get isbn (inventory_snapshots m) = Some s ∧
                flagged (negb (_reasoner_available m')) m' item s = true.
Proof.
  intros (m1 & (o & a & e & l & ->) & He)%sync_reasoner_mode.
  pose proof (enqueue_loop_frame _ _ _ _ He) as ((_&_&_&Ha&_)&_&_&Ho&_).
  pose proof (enqueue_loop_published _ _ _ _ He) as (new & Hq & Hp & Hnd & Hnew).
  simpl in Hq, Hp, Hnew, Ha, Ho.
  assert (∀ item s,
            flagged (negb (_reasoner_available m')) m' item s =
            flagged (negb a)
              (set_log l (set_reasoner_warning_emitted e
                 (set_reasoner_available a (set_ontology o m)))) item s) as Hflag.
  { intros item s. unfold flagged. by rewrite Ha, Ho. }
  exists new. split_and!; [done..|]. intros isbn. split.
  - intros Hin. destruct (Hnew isbn Hin) as (Hn & item & s & Hi & Hg & Hf).
    split; [done|]. exists item, s. by rewrite Hflag.
  - intros (Hn & item & s & Hi & Hg & Hf). rewrite Hflag in Hf.
    pose proof (enqueue_loop_complete _ _ _ _ He isbn item s Hi Hg Hf) as Hpend.
    rewrite Hp in Hpend. simpl in Hpend.
    apply elem_of_union in Hpend as [? | Hin]; [done|].
    by apply elem_of_list_to_set in Hin.
Qed.

(** C2.  A tick of a reachable model increments the tick count and then
    runs its three phases in order.

    (a) The agents are activated in an order that is a permutation of the
    schedule, and activating the id of a scheduled agent runs the step of
    that agent.  The step of the employee serves every restock request
    that was waiting when the tick began, with an event of the new tick
    each, and leaves the [restock] topic empty; the customers and the
    books record nothing.

    (b) The purchase topic is drained and every message is applied as the
    purchase processor does: the purchase log and the ledger after the
    drain are those that [purchase_processor_spec] computes from the
    ledger, the order counter and the waiting messages.

    (c) The reasoner is synchronised and, for exactly the rows that are
    flagged and not pending, one request each is published and made
    pending; the two logs and the ledger are not touched.

    So the requests published in phase (c) of tick N are all still waiting
    when tick N ends, and every restock event of tick N answers a request
    that was waiting before tick N began. *)
Theorem tick_phases_and_restock_latency (pellet : Pellet) m m' :
  reachable m → step pellet m = Some m' →
  let m0 := set_step_count (step_count m + 1) m in
  let ma := schedule_step m0 in
  let mb := _process_purchase_events ma in
  step_count m' = step_count m + 1 ∧
  (activation_order m ≡ₚ unique_id <$> schedule m ∧
   ma = foldl activate
          (set_random (rng_shuffle (unique_id <$> schedule m) (random m)).2 m0)
          (activation_order m) ∧
   (∀ m1 a, role <$> schedule m1 = role <$> schedule m → a ∈ schedule m1 →
            activate m1 (unique_id a) = agent_step a m1) ∧
   restock_log ma =
     restock_log m ++
       omap (restock_event_of "employee::0" m0)
         (MessageBus.queue "restock" (message_bus m)) ∧
   MessageBus.queue "restock" (message_bus ma) = [] ∧
   purchase_log ma = purchase_log m ∧ order_counter ma = order_counter m) ∧
  (MessageBus.queue "purchases" (message_bus mb) = [] ∧
   (purchase_log mb, inventory_snapshots mb) =
     (let '(records, ledger) :=
        purchase_processor_spec (step_count m + 1) (order_counter ma)
          (inventory_snapshots ma) (MessageBus.queue "purchases" (message_bus ma)) in
      (purchase_log ma ++ records, ledger)) ∧
   restock_log mb = restock_log ma ∧ pending_restocks mb = pending_restocks ma ∧
   MessageBus.queue "restock" (message_bus mb) = []) ∧
  (_sync_reasoner_if_needed pellet false mb = Some m' ∧
   purchase_log m' = purchase_log mb ∧ restock_log m' = restock_log mb ∧
   inventory_snapshots m' = inventory_snapshots mb ∧
   ∃ new,
     MessageBus.queue "restock" (message_bus m') = request_message m <$> new ∧
     pending_restocks m' = pending_restocks mb ∪ list_to_set new ∧ NoDup new ∧
     ∀ isbn,
       isbn ∈ new ↔
       isbn ∉ pending_restocks mb ∧
       ∃ item s, (isbn, item) ∈ inventory_entities mb ∧
                 PyDict.get isbn (inventory_snapshots mb) = Some s ∧
                 flagged (negb (_reasoner_available m')) m' item s = true) ∧
  (∀ ev, ev ∈ restock_log m' → ev_step ev = step_count m' →
         ∃ message, message ∈ MessageBus.queue "restock" (message_bus m) ∧
                    book_id (payload message) = Some (ev_book_isbn ev)).
Proof.
  intros Hreach Hstep m0 ma mb.
  pose proof (reachable_staffed m Hreach) as Hst.
  pose proof (step_count_step _ _ _ Hstep) as Hcount.
  assert (_sync_reasoner_if_needed pellet false mb = Some m') as Hsync by exact Hstep.
  assert (staffed m0) as Hst0 by exact Hst.
  subst ma mb.
  assert (after_service m0 (schedule_step m0)) as (Hla & Hqa & _).
  { rewrite schedule_step_unfold.
    apply (activation_serves m0); [done| |].
    - unfold before_service. by split_and!.
    - unfold activation_order.
      pose proof (rng_shuffle_perm (unique_id <$> schedule m0) (random m0)) as Hperm.
      rewrite Hperm. by apply staffed_employee_scheduled. }
  destruct (schedule_step_frame m0) as ((Hca&_&Hsa&_)&Hpa&Hoa).
  destruct (process_purchase_events_frame (schedule_step m0))
    as ((Hcb&_&Hsb&_)&Hpb&Hlb&_&_&Hqb).
  pose proof (sync_reasoner_frame _ _ _ _ Hsync) as (_&_&_&Hic&_&Hpc&_&Hlc&_).
  pose proof (purchase_loop_refines
                (length (MessageBus.queue "purchases" (message_bus (schedule_step m0))))
                (schedule_step m0) (le_n _)) as [Hrec Hled].
  fold (_process_purchase_events (schedule_step m0)) in Hrec, Hled.
  rewrite Hsa in Hrec, Hled. change (step_count m0) with (step_count m + 1) in Hrec, Hled.
  split_and!.
  - done.
  - apply rng_shuffle_perm.
  - exact (schedule_step_unfold m0).
  - intros m1 a Hroles Hin. apply activate_scheduled; [|done].
    eexists _, _. rewrite Hroles. exact Hst.
  - exact Hla.
  - exact Hqa.
  - exact Hpa.
  - exact Hoa.
  - apply process_purchase_events_drained.
  - destruct (purchase_processor_spec _ _ _ _) as [records ledger].
    simpl in Hrec, Hled. by rewrite Hrec, Hled.
  - exact Hlb.
  - exact Hpb.
  - by rewrite Hqb.
  - exact Hsync.
  - exact Hpc.
  - exact Hlc.
  - exact Hic.
  - destruct (sync_reasoner_requests _ _ _ _ Hsync) as (new & Hq & Hp & Hnd & Hnew).
    exists new. split_and!; [|done..].
    rewrite Hq, Hqb, Hqa. simpl. f_equal. apply request_message_config.
    by rewrite Hcb, Hca.
  - intros ev Hin Hs. rewrite Hlc, Hlb, Hla in Hin.
    apply elem_of_app in Hin as [Hold | Hnew].
    + pose proof (reachable_restock_steps m Hreach) as Hok.
      unfold restock_steps_ok in Hok. rewrite Forall_forall in Hok. apply Hok in Hold. lia.
    + apply list_elem_of_omap in Hnew as (message & Hm & Hev). exists message.
      split; [done|]. unfold restock_event_of in Hev.
      destruct (book_id (payload message)) as [book|]; [|done].
      destruct (PyDict.get book _); [|done]. by simplify_eq/=.
Qed.
End phases_of_a_tick.

(** The sample model, two ticks.  The first applies the purchases of the two
    customers and publishes a request for [A]; the second serves it. *)
Lemma tick_phases_and_restock_latency_witness :
  ∃ m1 m2,
    step pellet_idle sample_model = Some m1 ∧ step pellet_idle m1 = Some m2 ∧
    pr_customer <$> purchase_log m1 = ["customer::0"; "customer::1"] ∧
    inventory_snapshots m1 = [("A", sample_row 1)] ∧
    MessageBus.queue "restock" (message_bus m1) = [request_message sample_model "A"] ∧
    restock_log m1 = [] ∧
    restock_log m2 =
      [{| ev_step := 2; ev_book_isbn := "A"; ev_amount := 10;
          ev_employee_id := Some "employee::0" |}] ∧
    MessageBus.queue "restock" (message_bus m2) = [].
Proof.
  assert (∃ m1, step pellet_idle sample_model = Some m1) as [m1 Hs1]
    by (vm_compute; eexists; reflexivity).
  assert (∃ m2, (step pellet_idle sample_model ≫= step pellet_idle) = Some m2)
    as [m2 Hs2] by (vm_compute; eexists; reflexivity).
  rewrite Hs1 in Hs2. change (step pellet_idle m1 = Some m2) in Hs2.
  assert (reachable m1) as Hr1.
  { apply (reachable_call (Tick pellet_idle) sample_model); [apply reachable_init | exact Hs1]. }
  destruct (@tick_phases_and_restock_latency sample_random sample_owlready pellet_idle
              sample_model m1 (reachable_init _ _ _ _ _) Hs1)
    as (_ & (_ & _ & _ & Hla1 & _) & (_ & _ & Hlb1 & _) & (_ & _ & Hlc1 & _) & _).
  destruct (@tick_phases_and_restock_latency sample_random sample_owlready pellet_idle
              m1 m2 Hr1 Hs2)
    as (_ & (_ & _ & _ & Hla2 & _) & (_ & _ & Hlb2 & _) &
        (_ & _ & Hlc2 & _ & new & Hq2 & _) & _).
  assert (restock_log m1 = []) as Hl1.
  { rewrite Hlc1, Hlb1, Hla1. clear. vm_compute. reflexivity. }
  assert (restock_log m2 =
          omap (restock_event_of "employee::0" (set_step_count (step_count m1 + 1) m1))
            (MessageBus.queue "restock" (message_bus m1))) as Hl2
    by (by rewrite Hlc2, Hlb2, Hla2, Hl1).
  exists m1, m2. split; [exact Hs1|]. split; [exact Hs2|].
  assert (Some m1 = step pellet_idle sample_model) as Hm1 by (by rewrite Hs1).
  assert (Some m2 = (step pellet_idle sample_model ≫= step pellet_idle)) as Hm2
    by (by rewrite Hs1).
  rewrite Hl2, Hl1.
  clear Hs1 Hs2 Hr1 Hla1 Hlb1 Hlc1 Hla2 Hlb2 Hlc2 Hq2 Hl1 Hl2.
  vm_compute in Hm1. injection Hm1 as ->.
  vm_compute in Hm2. injection Hm2 as ->.
  vm_compute. by split_and!.
Defined.

(** ** Determinism: what the records of a run depend on *)

(** A reasoner whose verdict on the inventories depends on the inventories
    only: on two stores with the same inventory individuals it fails on
    both or succeeds on both, and then infers the same about inventories.
    The rules of [bms/ontology/rules.py] that conclude [NeedsRestock] read
    [AvailableQuantity] and [LowThreshold] of the inventory and nothing
    else. *)
Definition reasons_on_inventories (pellet : Pellet) : Prop :=
  ∀ o1 o2, onto_Inventory o1 = onto_Inventory o2 →
    match pellet o1, pellet o2 with
    | inl _, inl _ => True
    | inr inferred1, inr inferred2 => onto_Inventory inferred1 = onto_Inventory inferred2
    | _, _ => False
    end.

Section determinism.
Context `{Random} `{Owlready}.
Implicit Types (m : BookstoreModel).

(** Two models are alike when they differ at most in the books, customers,
    employees and orders of the store, in the three caches of references
    to them and in the warnings logged. *)
Definition alike m1 m2 : Prop :=
  config m1 = config m2 ∧ random m1 = random m2 ∧ message_bus m1 = message_bus m2 ∧
  schedule m1 = schedule m2 ∧ customer_policy m1 = customer_policy m2 ∧
  inventory_snapshots m1 = inventory_snapshots m2 ∧
  inventory_entities m1 = inventory_entities m2 ∧
  pending_restocks m1 = pending_restocks m2 ∧ purchase_log m1 = purchase_log m2 ∧
  restock_log m1 = restock_log m2 ∧ order_counter m1 = order_counter m2 ∧
  step_count m1 = step_count m2 ∧ _reasoner_available m1 = _reasoner_available m2 ∧
  _reasoner_warning_emitted m1 = _reasoner_warning_emitted m2 ∧
  onto_Inventory (ontology m1) = onto_Inventory (ontology m2).

Ltac alike_fields Ha :=
  destruct Ha as (?Hconfig & ?Hrandom & ?Hbus & ?Hschedule & ?Hpolicy & ?Hledger &
                  ?Hentities & ?Hpending & ?Hpurchases & ?Hrestocks & ?Hcounter &
                  ?Hstep & ?Havailable & ?Hemitted & ?Hstore).

(** *** The inventory individuals after each write *)

Lemma ensure_book_store isbn m :
  onto_Inventory (ontology (_ensure_book_entity isbn m)) = onto_Inventory (ontology m).
Proof. unfold _ensure_book_entity. by case_bool_decide. Qed.

Lemma ensure_customer_store uid m :
  onto_Inventory (ontology (_ensure_customer_entity uid m).2) = onto_Inventory (ontology m).
Proof.
  unfold _ensure_customer_entity. cbv zeta.
  by destruct (customer_entities m !! _normalise_identifier uid).
Qed.

Lemma ensure_employee_store uid m :
  onto_Inventory (ontology (_ensure_employee_entity uid m).2) = onto_Inventory (ontology m).
Proof.
  unfold _ensure_employee_entity. cbv zeta.
  by destruct (employee_entities m !! _normalise_identifier uid).
Qed.

(** The inventory individuals after a row has been written back. *)
Definition written_back (s : InventorySnapshot) (nr : option bool)
    (store : list (string * InventoryInd)) : list (string * InventoryInd) :=
  PyDict.set (book_isbn s)
    {| AvailableQuantity := [quantity s]; LowThreshold := [low_threshold s];
       NeedsRestock := [default (quantity s <? low_threshold s) nr] |}
    (individual empty_InventoryInd (book_isbn s) store).2.

Lemma write_back_inventories s nr m :
  onto_Inventory (ontology (_write_back_inventory_to_ontology s nr m)) =
    written_back s nr (onto_Inventory (ontology m)).
Proof.
  unfold _write_back_inventory_to_ontology, _ensure_inventory_entity, written_back.
  cbv zeta. simpl. unfold ensure_inventory_for.
  rewrite <- (ensure_book_store (book_isbn s) m).
  by destruct (individual _ _ _).
Qed.

Lemma record_purchase_store customer book price m :
  onto_Inventory (ontology (_record_purchase customer book price m)) =
    onto_Inventory (ontology m).
Proof.
  unfold _record_purchase.
  pose proof (ensure_customer_store customer m) as Hc.
  destruct (_ensure_customer_entity customer m) as [c mc]. simpl in Hc.
  cbv zeta. simpl. by rewrite ensure_book_store.
Qed.

Lemma restock_inventory_store book amount employee m :
  onto_Inventory (ontology (restock_inventory book amount employee m)) =
    match PyDict.get book (inventory_snapshots m) with
    | Some s =>
        let s' := with_quantity (quantity s + Z.max amount 0) s in
        written_back s' (Some (quantity s' <? low_threshold s')) (onto_Inventory (ontology m))
    | None => onto_Inventory (ontology m)
    end.
Proof.
  unfold restock_inventory.
  destruct (PyDict.get book (inventory_snapshots m)) as [s|]; [|done]. cbv zeta.
  match goal with |- context [_write_back_inventory_to_ontology ?a ?b ?c] =>
    pose proof (write_back_inventories a b c) as Hw;
    revert Hw; generalize (_write_back_inventory_to_ontology a b c)
  end.
  intros mw Hw. simpl in Hw. simpl. rewrite <- Hw.
  destruct employee as [uid|]; [|done].
  pose proof (ensure_employee_store uid mw) as He.
  destruct (_ensure_employee_entity uid mw) as [e me]. simpl in He.
  by destruct (PyDict.get book (inventory_entities me)).
Qed.

Lemma process_purchase_message_store message m :
  onto_Inventory (ontology (_process_purchase_message message m)) =
    match purchase_applies message m with
    | Some (book, customer, s) =>
        let s' := with_quantity (quantity s - 1) s in
        written_back s' (Some (quantity s' <? low_threshold s')) (onto_Inventory (ontology m))
    | None => onto_Inventory (ontology m)
    end.
Proof.
  destruct (purchase_applies message m) as [[[book customer] s]|] eqn:Ha;
    [|by rewrite process_purchase_message_skip].
  unfold purchase_applies, _process_purchase_message in *.
  destruct (book_id (payload message)) as [[|c rest]|]; try done;
    destruct (customer_id (payload message)) as [cust|]; try done.
  simpl. destruct (PyDict.get _ _) as [s0|]; [|done].
  destruct (quantity s0 <=? 0) eqn:Hq; [done|]. simplify_eq.
  assert (Z.max (quantity s - 1) 0 = quantity s - 1) as -> by lia.
  by rewrite record_purchase_store, write_back_inventories.
Qed.
(** *** Alike models stay alike *)

Lemma alike_refl m : alike m m.
Proof. by repeat split. Qed.

Ltac alike_solve Ha :=
  let Ha' := fresh in
  pose proof Ha as Ha'; alike_fields Ha'; unfold alike; simpl; split_and!; congruence.

Lemma alike_touch o1 o2 ie be1 be2 ce1 ce2 ee1 ee2 m1 m2 :
  alike m1 m2 → onto_Inventory o1 = onto_Inventory o2 →
  alike (touch o1 ie be1 ce1 ee1 m1) (touch o2 ie be2 ce2 ee2 m2).
Proof. intros Ha Hs. alike_solve Ha. Qed.

Lemma alike_touched ie m1 m2 m1' m2' :
  alike m1 m2 → touched ie m1 m1' → touched ie m2 m2' →
  onto_Inventory (ontology m1') = onto_Inventory (ontology m2') → alike m1' m2'.
Proof. intros Ha (?&?&?&?&->) (?&?&?&?&->) Hs. by apply alike_touch. Qed.

Lemma alike_set_random rng m1 m2 : alike m1 m2 → alike (set_random rng m1) (set_random rng m2).
Proof. intros Ha. alike_solve Ha. Qed.

Lemma alike_set_message_bus bus m1 m2 :
  alike m1 m2 → alike (set_message_bus bus m1) (set_message_bus bus m2).
Proof. intros Ha. alike_solve Ha. Qed.

Lemma alike_set_schedule agents m1 m2 :
  alike m1 m2 → alike (set_schedule agents m1) (set_schedule agents m2).
Proof. intros Ha. alike_solve Ha. Qed.

Lemma alike_set_inventory_snapshots ledger m1 m2 :
  alike m1 m2 → alike (set_inventory_snapshots ledger m1) (set_inventory_snapshots ledger m2).
Proof. intros Ha. alike_solve Ha. Qed.

Lemma alike_set_pending_restocks pending m1 m2 :
  alike m1 m2 → alike (set_pending_restocks pending m1) (set_pending_restocks pending m2).
Proof. intros Ha. alike_solve Ha. Qed.

Lemma alike_set_purchase_log records m1 m2 :
  alike m1 m2 → alike (set_purchase_log records m1) (set_purchase_log records m2).
Proof. intros Ha. alike_solve Ha. Qed.

Lemma alike_set_restock_log events m1 m2 :
  alike m1 m2 → alike (set_restock_log events m1) (set_restock_log events m2).
Proof. intros Ha. alike_solve Ha. Qed.

Lemma alike_set_order_counter n m1 m2 :
  alike m1 m2 → alike (set_order_counter n m1) (set_order_counter n m2).
Proof. intros Ha. alike_solve Ha. Qed.

Lemma alike_set_step_count n m1 m2 :
  alike m1 m2 → alike (set_step_count n m1) (set_step_count n m2).
Proof. intros Ha. alike_solve Ha. Qed.

Lemma alike_set_reasoner_available b m1 m2 :
  alike m1 m2 → alike (set_reasoner_available b m1) (set_reasoner_available b m2).
Proof. intros Ha. alike_solve Ha. Qed.

Lemma alike_set_log l1 l2 m1 m2 : alike m1 m2 → alike (set_log l1 m1) (set_log l2 m2).
Proof. intros Ha. alike_solve Ha. Qed.

Lemma alike_set_ontology o1 o2 m1 m2 :
  alike m1 m2 → onto_Inventory o1 = onto_Inventory o2 →
  alike (set_ontology o1 m1) (set_ontology o2 m2).
Proof. intros Ha Hs. alike_solve Ha. Qed.

Lemma alike_publish t p m1 m2 : alike m1 m2 → alike (publish t p m1) (publish t p m2).
Proof. intros Ha. unfold publish. alike_solve Ha. Qed.

Lemma alike_write_back s nr m1 m2 :
  alike m1 m2 →
  alike (_write_back_inventory_to_ontology s nr m1) (_write_back_inventory_to_ontology s nr m2).
Proof.
  intros Ha. eapply alike_touched; [exact Ha | apply write_back_touched | |].
  - destruct Ha as (_&_&_&_&_&_&->&_). apply write_back_touched.
  - rewrite !write_back_inventories. by destruct Ha as (_&_&_&_&_&_&_&_&_&_&_&_&_&_&->).
Qed.

Lemma alike_restock_inventory book amount employee m1 m2 :
  alike m1 m2 →
  alike (restock_inventory book amount employee m1) (restock_inventory book amount employee m2).
Proof.
  intros Ha. pose proof Ha as Ha'. alike_fields Ha'.
  pose proof (restock_inventory_store book amount employee m1) as Hs1.
  pose proof (restock_inventory_store book amount employee m2) as Hs2.
  rewrite Hledger, Hstore, <- Hs2 in Hs1. clear Hs2.
  destruct (PyDict.get book (inventory_snapshots m2)) as [s|] eqn:Hg.
  - destruct (restock_inventory_shape book amount employee m2 s Hg) as (m2' & Ht2 & E2).
    rewrite <- Hledger in Hg.
    destruct (restock_inventory_shape book amount employee m1 s Hg) as (m1' & Ht1 & E1).
    rewrite E1, E2 in Hs1 |- *. simpl in Hs1.
    rewrite Hrestocks, Hstep. apply alike_set_restock_log.
    rewrite Hentities, Hpending, Hledger in Ht1.
    eapply alike_touched; [|exact Ht1|exact Ht2|exact Hs1].
    by apply alike_set_pending_restocks, alike_set_inventory_snapshots.
  - rewrite !restock_inventory_unknown by congruence. done.
Qed.

Lemma alike_purchase_applies message m1 m2 :
  alike m1 m2 → purchase_applies message m1 = purchase_applies message m2.
Proof. intros Ha. alike_fields Ha. unfold purchase_applies. by rewrite Hledger. Qed.

Lemma alike_process_purchase_message message m1 m2 :
  alike m1 m2 →
  alike (_process_purchase_message message m1) (_process_purchase_message message m2).
Proof.
  intros Ha. pose proof (alike_purchase_applies message _ _ Ha) as Hap.
  pose proof Ha as Ha'. alike_fields Ha'.
  pose proof (process_purchase_message_store message m1) as Hs1.
  pose proof (process_purchase_message_store message m2) as Hs2.
  rewrite Hap, Hstore, <- Hs2 in Hs1. clear Hs2.
  destruct (purchase_applies message m2) as [[[book customer] s]|] eqn:Ha2.
  - destruct (process_purchase_message_shape message m2 _ _ _ Ha2) as (m2' & Ht2 & E2).
    destruct (process_purchase_message_shape message m1 _ _ _ Hap) as (m1' & Ht1 & E1).
    rewrite E1, E2 in Hs1 |- *. simpl in Hs1.
    rewrite Hpurchases, Hcounter, Hstep.
    apply alike_set_purchase_log, alike_set_order_counter.
    rewrite Hentities, Hledger in Ht1.
    eapply alike_touched; [|exact Ht1|exact Ht2|exact Hs1].
    by apply alike_set_inventory_snapshots.
  - rewrite !process_purchase_message_skip by done. done.
Qed.

Lemma alike_purchase_loop fuel m1 m2 :
  alike m1 m2 → alike (purchase_loop fuel m1) (purchase_loop fuel m2).
Proof.
  revert m1 m2. induction fuel as [|fuel IH]; intros m1 m2 Ha; [done|]. simpl.
  assert (message_bus m1 = message_bus m2) as -> by (by alike_fields Ha).
  destruct (MessageBus.poll "purchases" (message_bus m2)) as [[message|] bus]; [|done].
  by apply IH, alike_process_purchase_message, alike_set_message_bus.
Qed.

Lemma alike_process_purchase_events m1 m2 :
  alike m1 m2 → alike (_process_purchase_events m1) (_process_purchase_events m2).
Proof.
  intros Ha. unfold _process_purchase_events.
  assert (message_bus m1 = message_bus m2) as -> by (by alike_fields Ha).
  by apply alike_purchase_loop.
Qed.

Lemma alike_customer_step uid policy budget m1 m2 :
  alike m1 m2 →
  alike (CustomerAgent_step uid policy budget m1) (CustomerAgent_step uid policy budget m2).
Proof.
  intros Ha. pose proof Ha as Ha'. alike_fields Ha'. unfold CustomerAgent_step.
  rewrite Hrandom. destruct (rng_random (random m2)) as [draw rng]. simpl.
  rewrite Hconfig, Hledger.
  destruct (PrimFloat.ltb _ draw); [by apply alike_set_random|].
  destruct (choose_purchase _ _ _ _) as [[[book unit_price]|] rng'];
    [|by apply alike_set_random, alike_set_random].
  destruct (PrimFloat.ltb budget unit_price); [by apply alike_set_random, alike_set_random|].
  rewrite Hschedule.
  by apply alike_publish, alike_set_schedule, alike_set_random, alike_set_random.
Qed.

Lemma alike_employee_handle uid message m1 m2 :
  alike m1 m2 →
  alike (EmployeeAgent_handle uid message m1) (EmployeeAgent_handle uid message m2).
Proof.
  intros Ha. unfold EmployeeAgent_handle.
  assert (config m1 = config m2) as -> by (by alike_fields Ha).
  destruct (book_id (payload message)); [|done]. by apply alike_restock_inventory.
Qed.

Lemma alike_employee_loop fuel uid m1 m2 :
  alike m1 m2 → alike (employee_loop fuel uid m1) (employee_loop fuel uid m2).
Proof.
  revert m1 m2. induction fuel as [|fuel IH]; intros m1 m2 Ha; [done|]. simpl.
  assert (message_bus m1 = message_bus m2) as -> by (by alike_fields Ha).
  destruct (MessageBus.poll "restock" (message_bus m2)) as [[message|] bus]; [|done].
  by apply IH, alike_employee_handle, alike_set_message_bus.
Qed.

Lemma alike_agent_step a m1 m2 : alike m1 m2 → alike (agent_step a m1) (agent_step a m2).
Proof.
  intros Ha. destruct a as [uid isbn|uid policy budget|uid]; simpl; [done| |].
  - by apply alike_customer_step.
  - unfold EmployeeAgent_step.
    assert (message_bus m1 = message_bus m2) as -> by (by alike_fields Ha).
    by apply alike_employee_loop.
Qed.

Lemma alike_activate uid m1 m2 : alike m1 m2 → alike (activate m1 uid) (activate m2 uid).
Proof.
  intros Ha. unfold activate.
  assert (schedule m1 = schedule m2) as -> by (by alike_fields Ha).
  destruct (find _ _); [|done]. by apply alike_agent_step.
Qed.

Lemma alike_schedule_step m1 m2 : alike m1 m2 → alike (schedule_step m1) (schedule_step m2).
Proof.
  intros Ha. unfold schedule_step.
  assert (schedule m1 = schedule m2) as -> by (by alike_fields Ha).
  assert (random m1 = random m2) as -> by (by alike_fields Ha).
  destruct (rng_shuffle _ _) as [order rng].
  apply (alike_set_random rng) in Ha. revert Ha.
  generalize (set_random rng m1) (set_random rng m2).
  induction order as [|uid order IH]; intros n1 n2 Ha; [done|]. simpl.
  by apply IH, alike_activate.
Qed.
Lemma alike_enqueue_loop fallback items m1 m2 :
  alike m1 m2 →
  option_Forall2 alike (enqueue_loop fallback items m1) (enqueue_loop fallback items m2).
Proof.
  revert m1 m2. induction items as [|[isbn item] items IH]; intros m1 m2 Ha;
    [by constructor|].
  pose proof Ha as Ha'. alike_fields Ha'. simpl. rewrite Hledger.
  destruct (PyDict.get isbn (inventory_snapshots m2)) as [s|]; [simpl|constructor].
  unfold inventory_ind. rewrite Hstore, Hpending.
  destruct (negb _ || _); [by apply IH|].
  apply IH. unfold restock_request. rewrite Hconfig.
  by apply alike_set_pending_restocks, alike_publish.
Qed.

Lemma alike_enqueue fallback m1 m2 :
  alike m1 m2 →
  option_Forall2 alike (_enqueue_restock_requests_from_ontology fallback m1)
    (_enqueue_restock_requests_from_ontology fallback m2).
Proof.
  intros Ha. unfold _enqueue_restock_requests_from_ontology.
  assert (inventory_entities m1 = inventory_entities m2) as -> by (by alike_fields Ha).
  by apply alike_enqueue_loop.
Qed.

Lemma alike_log_reasoner_warning m1 m2 :
  alike m1 m2 → alike (_log_reasoner_warning m1) (_log_reasoner_warning m2).
Proof.
  intros Ha. unfold _log_reasoner_warning.
  assert (_reasoner_warning_emitted m1 = _reasoner_warning_emitted m2) as ->
    by (by alike_fields Ha).
  destruct (_reasoner_warning_emitted m2); [done|]. alike_solve Ha.
Qed.

Lemma alike_sync_reasoner pellet force m1 m2 :
  reasons_on_inventories pellet → alike m1 m2 →
  option_Forall2 alike (_sync_reasoner_if_needed pellet force m1)
    (_sync_reasoner_if_needed pellet force m2).
Proof.
  intros Hp Ha. pose proof Ha as Ha'. alike_fields Ha'.
  unfold _sync_reasoner_if_needed, sync_skipped. rewrite Hconfig, Hstep, Havailable.
  destruct (_ && _ && _); [by apply alike_enqueue|].
  destruct (negb _); [by apply alike_enqueue, alike_log_reasoner_warning|].
  specialize (Hp _ _ Hstore).
  destruct (pellet (ontology m1)) as [exc1|inferred1],
           (pellet (ontology m2)) as [exc2|inferred2]; try done.
  - by apply alike_enqueue, alike_set_log, alike_set_reasoner_available.
  - by apply alike_enqueue, alike_set_ontology.
Qed.

Lemma alike_step pellet m1 m2 :
  reasons_on_inventories pellet → alike m1 m2 →
  option_Forall2 alike (step pellet m1) (step pellet m2).
Proof.
  intros Hp Ha. unfold step. cbv zeta.
  assert (step_count m1 = step_count m2) as -> by (by alike_fields Ha).
  by apply alike_sync_reasoner, alike_process_purchase_events, alike_schedule_step,
    alike_set_step_count.
Qed.

Lemma alike_run pellets m1 m2 :
  Forall reasons_on_inventories pellets → alike m1 m2 →
  option_Forall2 alike (run pellets m1) (run pellets m2).
Proof.
  intros Hps. revert m1 m2.
  induction Hps as [|pellet pellets Hp _ IH]; intros m1 m2 Ha; simpl; [by constructor|].
  destruct (alike_step pellet m1 m2 Hp Ha) as [n1 n2 Hn|]; simpl; [by apply IH|constructor].
Qed.

(** *** Construction *)

Lemma alike_load_book isbn book m1 m2 :
  alike m1 m2 → alike (_load_book isbn book m1) (_load_book isbn book m2).
Proof.
  intros Ha. pose proof Ha as Ha'. alike_fields Ha'.
  unfold _load_book, ensure_inventory_for, individual. rewrite Hstore, Hconfig.
  destruct (PyDict.get isbn (onto_Inventory (ontology m2))); alike_solve Ha.
Qed.

Lemma alike_load_inventory m1 m2 :
  alike m1 m2 → onto_Book (ontology m1) = onto_Book (ontology m2) →
  alike (_load_inventory_from_ontology m1) (_load_inventory_from_ontology m2).
Proof.
  intros Ha Hbooks. unfold _load_inventory_from_ontology. rewrite Hbooks.
  clear Hbooks. revert Ha. generalize (onto_Book (ontology m2)). revert m1 m2.
  intros m1 m2 l. revert m1 m2.
  induction l as [|[isbn book] books IH]; intros m1 m2 Ha; [done|]. simpl.
  by apply IH, alike_load_book.
Qed.

Lemma alike_schedule_add a m1 m2 :
  alike m1 m2 → alike (schedule_add a m1) (schedule_add a m2).
Proof.
  intros Ha. unfold schedule_add.
  assert (schedule m1 = schedule m2) as -> by (by alike_fields Ha).
  by apply alike_set_schedule.
Qed.

Lemma alike_ensure_customer uid m1 m2 :
  alike m1 m2 → alike (_ensure_customer_entity uid m1).2 (_ensure_customer_entity uid m2).2.
Proof.
  intros Ha. eapply alike_touched; [exact Ha | apply ensure_customer_touched | |].
  - destruct Ha as (_&_&_&_&_&_&->&_). apply ensure_customer_touched.
  - rewrite !ensure_customer_store. by destruct Ha as (_&_&_&_&_&_&_&_&_&_&_&_&_&_&->).
Qed.

Lemma alike_ensure_employee uid m1 m2 :
  alike m1 m2 → alike (_ensure_employee_entity uid m1).2 (_ensure_employee_entity uid m2).2.
Proof.
  intros Ha. eapply alike_touched; [exact Ha | apply ensure_employee_touched | |].
  - destruct Ha as (_&_&_&_&_&_&->&_). apply ensure_employee_touched.
  - rewrite !ensure_employee_store. by destruct Ha as (_&_&_&_&_&_&_&_&_&_&_&_&_&_&->).
Qed.

Lemma alike_register_customer idx m1 m2 :
  alike m1 m2 → alike (_register_customer idx m1) (_register_customer idx m2).
Proof.
  intros Ha. unfold _register_customer. cbv zeta.
  apply (alike_ensure_customer ("customer::" +:+ pretty idx)) in Ha.
  assert (customer_policy (_ensure_customer_entity ("customer::" +:+ pretty idx) m1).2 =
          customer_policy (_ensure_customer_entity ("customer::" +:+ pretty idx) m2).2) as ->
    by (by alike_fields Ha).
  by apply alike_schedule_add.
Qed.

Lemma alike_register_agents m1 m2 :
  alike m1 m2 → alike (_register_agents m1) (_register_agents m2).
Proof.
  intros Ha. unfold _register_agents. cbv zeta.
  assert (inventory_snapshots m1 = inventory_snapshots m2) as -> by (by alike_fields Ha).
  assert (∀ idxs n1 n2, alike n1 n2 →
            alike (foldl (λ m idx, _register_customer idx m) n1 idxs)
                  (foldl (λ m idx, _register_customer idx m) n2 idxs)) as Hcustomers.
  { induction idxs as [|idx idxs IH]; intros n1 n2 Hn; [done|]. simpl.
    by apply IH, alike_register_customer. }
  apply Hcustomers, alike_schedule_add, alike_ensure_employee.
  revert Ha. generalize (PyDict.values (inventory_snapshots m2)).
  intros l. revert m1 m2.
  induction l as [|s rows IH]; intros m1 m2 Ha; [done|]. simpl.
  by apply IH, alike_schedule_add.
Qed.

Lemma alike_init onto1 onto2 cfg policy imported entropy1 entropy2 seed :
  random_seed (default load_config cfg) = Some seed →
  onto_Book onto1 = onto_Book onto2 → onto_Inventory onto1 = onto_Inventory onto2 →
  alike (BookstoreModel_init onto1 cfg policy imported entropy1)
        (BookstoreModel_init onto2 cfg policy imported entropy2).
Proof.
  intros Hseed Hbooks Hstore. unfold BookstoreModel_init. cbv zeta. rewrite Hseed.
  apply alike_register_agents, alike_load_inventory; [|done].
  unfold alike. simpl. by split_and!.
Qed.

(** C7.  Two models built with the same configuration, policy and seed on
    stores with the same books and inventories, and advanced by the same
    ticks, both complete the run and end with the same purchase records,
    the same restock records and the same ledger: whatever the generators
    held before the seed was applied, whatever customers, employees and
    orders the two stores hold, provided that what the reasoner infers
    about the inventories depends on the inventories only.  On one and the
    same store the two runs are equal in everything, for any reasoner. *)
Theorem same_seed_same_records (onto1 onto2 : Ontology) (cfg : option SimulationSettings)
    (policy : option DecisionPolicy) (imported : bool)
    (entropy1 entropy2 : RandomState) (seed : Z) (pellets : list Pellet) :
  random_seed (default load_config cfg) = Some seed →
  onto_Book onto1 = onto_Book onto2 → onto_Inventory onto1 = onto_Inventory onto2 →
  (Forall reasons_on_inventories pellets →
   ∃ m1 m2,
     run pellets (BookstoreModel_init onto1 cfg policy imported entropy1) = Some m1 ∧
     run pellets (BookstoreModel_init onto2 cfg policy imported entropy2) = Some m2 ∧
     purchase_log m1 = purchase_log m2 ∧ restock_log m1 = restock_log m2 ∧
     inventory_snapshots m1 = inventory_snapshots m2) ∧
  (onto1 = onto2 →
   run pellets (BookstoreModel_init onto1 cfg policy imported entropy1) =
     run pellets (BookstoreModel_init onto2 cfg policy imported entropy2)).
Proof.
  intros Hseed Hbooks Hstore. split.
  - intros Hps.
    pose proof (alike_init onto1 onto2 cfg policy imported entropy1 entropy2 seed
                  Hseed Hbooks Hstore) as Ha.
    pose proof (init_wf onto1 cfg policy imported entropy1) as Hwf.
    revert Ha Hwf.
    generalize (BookstoreModel_init onto1 cfg policy imported entropy1)
               (BookstoreModel_init onto2 cfg policy imported entropy2).
    intros n1 n2 Ha Hwf.
    destruct (run_total pellets n1 Hwf) as [m1 Hr1].
    pose proof (alike_run pellets n1 n2 Hps Ha) as Hrun. rewrite Hr1 in Hrun.
    inversion Hrun as [? m2 Hm Heq1 Heq2|]. subst.
    exists m1, m2. alike_fields Hm. by split_and!.
  - intros ->. f_equal. unfold BookstoreModel_init. cbv zeta. by rewrite Hseed.
Qed.
End determinism.

Lemma pellet_idle_reasons : reasons_on_inventories pellet_idle.
Proof. by intros o1 o2 Hs. Qed.

Lemma pellet_down_reasons : reasons_on_inventories pellet_down.
Proof. by intros o1 o2 Hs. Qed.

(** The sample store on the counting generator, seed 7, two ticks: once on
    the store as seeded and from one state of the generator, once on the
    store with a customer's earlier purchases and from another. *)
Definition seeded_config : SimulationSettings :=
  {| max_steps := 100; customer_spawn_chance := 0.4%float; restock_threshold := 5;
     reasoner_sync_interval := 3; restock_amount := 10; random_seed := Some 7 |}.

Definition seeded_run (onto : Ontology) (entropy : nat)
  : option (@BookstoreModel counting_random) :=
  @run counting_random sample_owlready [pellet_idle; pellet_idle]
    (@BookstoreModel_init counting_random sample_owlready onto (Some seeded_config)
       (Some RandomPurchasePolicy) true entropy).

Lemma same_seed_same_records_witness :
  ∃ m1 m2,
    seeded_run sample_ontology 3 = Some m1 ∧ seeded_run sample_purchases 8 = Some m2 ∧
    purchase_log m1 = purchase_log m2 ∧ restock_log m1 = restock_log m2 ∧
    pr_customer <$> purchase_log m2 = ["customer::1"; "customer::0"; "customer::1"] ∧
    ev_step <$> restock_log m2 = [2] ∧
    Purchases <$> PyDict.get "customer_0" (onto_Customer (ontology m1)) = Some ["A"] ∧
    Purchases <$> PyDict.get "customer_0" (onto_Customer (ontology m2)) = Some ["B"; "A"; "B"].
Proof.
  destruct (@same_seed_same_records counting_random sample_owlready sample_ontology
              sample_purchases (Some seeded_config) (Some RandomPurchasePolicy) true
              3%nat 8%nat 7 [pellet_idle; pellet_idle] eq_refl eq_refl eq_refl)
    as [Hruns _].
  destruct Hruns as (m1 & m2 & Hr1 & Hr2 & Hp & Hr & _);
    [repeat constructor; apply pellet_idle_reasons|].
  exists m1, m2.
  split; [exact Hr1|]. split; [exact Hr2|]. split; [exact Hp|]. split; [exact Hr|].
  clear Hp Hr.
  vm_compute in Hr1. injection Hr1 as <-.
  vm_compute in Hr2. injection Hr2 as <-.
  vm_compute. repeat split.
Defined.
